(** * Ecuruza-api: authentication and session lifecycle

    A shallow embedding of the authentication slice of the API
    (src/utils/auth.utils.ts, src/utils/otp.utils.ts, the later
    revision of the one-time-code store, src/utils/password.reset.ts,
    src/services/email.service.ts, src/middlewares/authenticate.ts and
    src/controllers/auth.controller.ts) together with the properties
    proved about it.

    Conventions.
    - JavaScript strings are [string]; a character is a code unit below
      256.  Dates are milliseconds since the epoch, in [Z].
    - [null] and [undefined] are [None].
    - The relational store is a record of tables, each a list of rows
      in insertion order; the unique indexes and primary keys of the
      initial migration are enforced by [create].
    - Everything outside the program (environment variables, the clock,
      random draws, identifiers chosen by the store, the mail relay, the
      avatar upload and the identity provider) is read from an [Env].
    - [async] functions are run to completion one after another: a
      handler is a function from the state before to its outcome and
      the state after. *)

From Stdlib Require Import String Ascii List NArith ZArith Lia Bool.
Import ListNotations.
Open Scope string_scope.

(* ===================================================================== *)
(** * JavaScript primitives used by the sources                           *)
(* ===================================================================== *)

Module JS.

(** [!!s] for a string: only the empty string is falsy. *)
Definition truthy (s : string) : bool := negb (s =? "").

(** [!!o] for [string | undefined | null]. *)
Definition truthy_opt (o : option string) : bool :=
  match o with
  | Some s => truthy s
  | None => false
  end.

(** [a || b] where [a : string | undefined]. *)
Definition or_else (a : option string) (b : string) : string :=
  match a with
  | Some s => if truthy s then s else b
  | None => b
  end.

(** [s.startsWith(p)]. *)
Definition startsWith (s p : string) : bool := prefix p s.

(** [s.substring(n)]: what is left of [s] after its first [n]
    characters, the empty string when [s] is shorter. *)
Fixpoint substring (s : string) (n : nat) : string :=
  match n, s with
  | O, _ => s
  | S _, EmptyString => EmptyString
  | S n', String _ s' => substring s' n'
  end.

(** White space as [String.prototype.trim] sees it, among the code
    units below 256: TAB, LF, VT, FF, CR, SP and NBSP. *)
Definition is_white_space (c : ascii) : bool :=
  let k := nat_of_ascii c in
  ((9 <=? k) && (k <=? 13) || (k =? 32) || (k =? 160))%nat.

Fixpoint trimStart (s : string) : string :=
  match s with
  | EmptyString => EmptyString
  | String c r => if is_white_space c then trimStart r else s
  end.

Fixpoint trimEnd (s : string) : string :=
  match s with
  | EmptyString => EmptyString
  | String c r =>
      let r' := trimEnd r in
      if is_white_space c && (r' =? "") then EmptyString else String c r'
  end.

(** [s.trim()]. *)
Definition trim (s : string) : string := trimEnd (trimStart s).

Fixpoint repeat_char (c : ascii) (k : nat) : string :=
  match k with
  | O => EmptyString
  | S k' => String c (repeat_char c k')
  end.

(** [s.padStart(target, fill)] for a one-character [fill]. *)
Definition padStart (s : string) (target : nat) (fill : ascii) : string :=
  repeat_char fill (target - String.length s) ++ s.

(** The character of a decimal digit. *)
Definition digit_char (d : N) : ascii := ascii_of_N (48 + d).

Fixpoint to_digits (fuel : nat) (n : N) (acc : string) : string :=
  match fuel with
  | O => acc
  | S fuel' =>
      let acc' := String (digit_char (n mod 10)) acc in
      if (n / 10 =? 0)%N then acc' else to_digits fuel' (n / 10) acc'
  end.

(** [n.toString()] for a non-negative integer: its decimal digits,
    most significant first, ["0"] for zero.  A number has no more
    decimal digits than binary ones, which bounds the loop. *)
Definition toString (n : N) : string :=
  to_digits (S (N.to_nat (N.log2 n))) n EmptyString.

Definition is_digit (c : ascii) : bool :=
  let k := nat_of_ascii c in ((48 <=? k) && (k <=? 57))%nat.

Fixpoint all_chars (p : ascii -> bool) (s : string) : bool :=
  match s with
  | EmptyString => true
  | String c r => p c && all_chars p r
  end.

(** The six digits of a number between 100000 and 999999. *)
Definition six_digits (n : N) : string :=
  String (digit_char (n / 10 / 10 / 10 / 10 / 10 mod 10))
 (String (digit_char (n / 10 / 10 / 10 / 10 mod 10))
 (String (digit_char (n / 10 / 10 / 10 mod 10))
 (String (digit_char (n / 10 / 10 mod 10))
 (String (digit_char (n / 10 mod 10))
 (String (digit_char (n mod 10)) EmptyString))))).

(** [crypto.randomInt(min, max)] returns an integer [r] with
    [min <= r < max]. *)
Definition randomInt_returns (min max r : N) : Prop :=
  (min <= r < max)%N.

End JS.

(** ** Dates, as ECMAScript computes them

    Time values are milliseconds since the epoch.  [LocalTZA t isUTC]
    is the offset of the process's time zone: at the instant [t] when
    [isUTC] is true, at the local time [t] when it is false.  Time
    values stay far inside the range [TimeClip] lets through. *)
Module JSDate.

Definition msPerSecond : Z := 1000.
Definition msPerMinute : Z := 60000.
Definition msPerHour : Z := 3600000.
Definition msPerDay : Z := 86400000.

Definition Day (t : Z) : Z := (t / msPerDay)%Z.
Definition HourFromTime (t : Z) : Z := ((t / msPerHour) mod 24)%Z.
Definition MinFromTime (t : Z) : Z := ((t / msPerMinute) mod 60)%Z.
Definition SecFromTime (t : Z) : Z := ((t / msPerSecond) mod 60)%Z.
Definition msFromTime (t : Z) : Z := (t mod msPerSecond)%Z.

Definition MakeTime (hour min sec ms : Z) : Z :=
  (hour * msPerHour + min * msPerMinute + sec * msPerSecond + ms)%Z.

Definition MakeDate (day time : Z) : Z := (day * msPerDay + time)%Z.

Section Zone.
Variable LocalTZA : Z -> bool -> Z.

Definition LocalTime (t : Z) : Z := (t + LocalTZA t true)%Z.

Definition UTC (t : Z) : Z := (t - LocalTZA t false)%Z.

(** [date.getMinutes()], [t] being the time value of [date]. *)
Definition getMinutes (t : Z) : Z := MinFromTime (LocalTime t).

(** The time value of [date] after [date.setMinutes(min)]. *)
Definition setMinutes (t min : Z) : Z :=
  let t := LocalTime t in
  let date := MakeDate (Day t)
                (MakeTime (HourFromTime t) min (SecFromTime t) (msFromTime t)) in
  UTC date.

End Zone.

End JSDate.

(* ===================================================================== *)
(** * Data model (initial migration and src/utils/type)                   *)
(* ===================================================================== *)

Inductive UserRole := ADMIN | SELLER | CUSTOMER.
Inductive UserStatus := ACTIVE | SUSPENDED | DELETED.

Definition UserRole_eqb (a b : UserRole) : bool :=
  match a, b with
  | ADMIN, ADMIN | SELLER, SELLER | CUSTOMER, CUSTOMER => true
  | _, _ => false
  end.

Definition UserStatus_eqb (a b : UserStatus) : bool :=
  match a, b with
  | ACTIVE, ACTIVE | SUSPENDED, SUSPENDED | DELETED, DELETED => true
  | _, _ => false
  end.

(** A row of table [User], with the columns the authentication flows
    read or write. *)
Record User := mkUser {
  id : string;
  firstName : string;
  lastName : string;
  email : string;
  phone : string;
  passwordHash : option string;
  avatarUrl : option string;
  googleId : option string;
  role : UserRole;
  status : UserStatus;
  emailVerified : bool;
  phoneVerified : bool;
  lastLoginAt : option Z;
  resetPasswordToken : option string;
  resetPasswordExpires : option Z;
  emailVerificationCode : option string;
  emailVerificationExpires : option Z;
  createdAt : Z
}.

(** A row of table [EmailVerification] (first revision of the
    one-time-code store). *)
Record EmailVerification := mkEmailVerification {
  ev_id : string;
  ev_email : string;
  ev_code : string;
  ev_expiresAt : Z
}.

Record Db := mkDb {
  users : list User;
  emailVerifications : list EmailVerification
}.

Record AuthPayload := mkAuthPayload {
  ap_userId : string;
  ap_email : string;
  ap_role : UserRole
}.

Record TokenPayload := mkTokenPayload {
  userId : string;
  tp_email : string;
  tp_role : UserRole;
  iat : option Z;
  exp : option Z
}.

Record UserResponse := mkUserResponse {
  ur_id : string;
  ur_firstName : string;
  ur_lastName : string;
  ur_email : string;
  ur_phone : string;
  ur_avatarUrl : option string;
  ur_role : UserRole;
  ur_status : UserStatus;
  ur_emailVerified : bool;
  ur_phoneVerified : bool;
  ur_createdAt : Z
}.

Record AuthResponse := mkAuthResponse {
  ar_user : UserResponse;
  accessToken : string;
  refreshToken : string
}.

Record RegisterRequest := mkRegisterRequest {
  rr_firstName : string;
  rr_lastName : string;
  rr_email : string;
  rr_phone : string;
  rr_password : string;
  rr_role : option UserRole
}.

Record LoginRequest := mkLoginRequest {
  lr_email : string;
  lr_password : string
}.

(** What the identity provider's userinfo endpoint returns. *)
Record GoogleUser := mkGoogleUser {
  g_id : string;
  g_email : string;
  g_name : string;
  g_picture : option string;
  g_given_name : option string;
  g_family_name : option string
}.

(* ===================================================================== *)
(** * The world outside the program                                       *)
(* ===================================================================== *)

Record Env := mkEnv {
  (** [process.env] *)
  env_JWT_SECRET : option string;
  env_JWT_REFRESH_SECRET : option string;
  env_FRONTEND_URL : option string;
  (** [Date.now()] / [new Date()], in milliseconds *)
  now : Z;
  (** the identifier the store gives to the next created row *)
  fresh_id : string;
  (** the salt [bcrypt.hash] draws *)
  salt : string;
  (** [crypto.randomBytes(n).toString('hex')] *)
  random_hex : string;
  (** [crypto.randomInt(min, max)] *)
  random_int : N;
  (** whether [transporter.sendMail] goes through *)
  smtp_ok : bool;
  (** the URL [generateAndUploadAvatar] resolves to, [None] when it throws *)
  avatar_upload : option string;
  (** the provider's access token, [None] when the exchange fails *)
  google_access_token : option string;
  (** the provider's profile, [None] when the request fails *)
  google_profile : option GoogleUser;
  (** the body of the provider's response when the exchange fails *)
  google_token_error : string;
  (** the time zone of the process: [LocalTZA(t, isUTC)] *)
  localTZA : Z -> bool -> Z
}.

(** ** Libraries the sources call *)

(** bcryptjs. *)
Class Bcrypt := {
  bcrypt_hash : string -> nat -> string -> string;  (* password, rounds, salt *)
  bcrypt_compare : string -> string -> bool         (* password, hash *)
}.

(** [crypto.createHash('sha256').update(s).digest('hex')]. *)
Class Sha256 := {
  sha256_hex : string -> string
}.

(** jsonwebtoken, with the clock in seconds made explicit.
    [jwt_sign payload secret expiresIn clock] stamps [iat = clock] and
    [exp = clock + expiresIn]; [jwt_verify token secret clock] is [None]
    where the library throws.  The two laws are those of an ideal
    signature: a token verifies under the key that signed it until it
    expires, and under no other key. *)
Class JsonWebToken := {
  jwt_sign : AuthPayload -> string -> Z -> Z -> string;
  jwt_verify : string -> string -> Z -> option TokenPayload;
  jwt_verify_sign : forall p k e t t',
    jwt_verify (jwt_sign p k e t) k t' =
    if (t' <? t + e)%Z
    then Some (mkTokenPayload (ap_userId p) (ap_email p) (ap_role p)
                              (Some t) (Some (t + e)%Z))
    else None;
  jwt_verify_other_key : forall p k k' e t t',
    k <> k' -> jwt_verify (jwt_sign p k e t) k' t' = None
}.

(* ===================================================================== *)
(** * Errors, calls and the handler monad                                 *)
(* ===================================================================== *)

Inductive Error :=
| HttpError (statusCode : nat) (message : string)   (* createError(status, message) *)
| PrismaError (code : string)                       (* P2002 unique index, P2025 no such row *)
| PlainError (message : string).                    (* new Error(message) *)

(** Prisma [where] objects over [User]. *)
Inductive UserWhere :=
| W_id (v : string)
| W_email (v : string)
| W_phone (v : string)
| W_resetPasswordToken (v : string)
| W_resetPasswordExpires_gt (t : Z)
| W_OR (a b : UserWhere)
| W_AND (a b : UserWhere).

(** Prisma [data] objects of [user.update]: a field left out is [None],
    a field set to [null] is [Some None]. *)
Record UserPatch := mkUserPatch {
  set_passwordHash : option (option string);
  set_avatarUrl : option (option string);
  set_emailVerified : option bool;
  set_lastLoginAt : option (option Z);
  set_resetPasswordToken : option (option string);
  set_resetPasswordExpires : option (option Z);
  set_emailVerificationCode : option (option string);
  set_emailVerificationExpires : option (option Z)
}.

Definition no_patch : UserPatch :=
  mkUserPatch None None None None None None None None.

(** The calls a handler makes, in order. *)
Inductive Call :=
| UserFindUnique (w : UserWhere)
| UserFindFirst (w : UserWhere)
| UserCreate (row : User)
| UserUpdate (w : UserWhere) (data : UserPatch)
| OtpDeleteMany (email : string)
| OtpCreate (row : EmailVerification)
| OtpFindFirst (email code : string)
| OtpDelete (id : string)
| JwtVerify (token : string)
| SendMail (to subject : string).

Record State := mkState {
  db : Db;
  calls : list Call
}.

Inductive Outcome (A : Type) :=
| Return (a : A)
| Throw (e : Error).
Arguments Return {A} a.
Arguments Throw {A} e.

Definition M (A : Type) : Type := State -> Outcome A * State.

Definition ret {A} (a : A) : M A := fun st => (Return a, st).
Definition throw {A} (e : Error) : M A := fun st => (Throw e, st).

Definition bind {A B} (m : M A) (k : A -> M B) : M B :=
  fun st =>
    match m st with
    | (Return a, st') => k a st'
    | (Throw e, st') => (Throw e, st')
    end.

(** [try { m } catch (error) { h error }]. *)
Definition try_catch {A} (m : M A) (h : Error -> M A) : M A :=
  fun st =>
    match m st with
    | (Return a, st') => (Return a, st')
    | (Throw e, st') => h e st'
    end.

Definition call (c : Call) : M unit :=
  fun st => (Return tt, mkState (db st) (calls st ++ [c])).

Definition get_db : M Db := fun st => (Return (db st), st).
Definition put_db (d : Db) : M unit := fun st => (Return tt, mkState d (calls st)).

Declare Scope monad_scope.
Delimit Scope monad_scope with monad.
Notation "x <- m ;; k" := (bind m (fun x => k))
  (at level 61, m at next level, right associativity) : monad_scope.
Notation "m ;;; k" := (bind m (fun _ => k))
  (at level 61, right associativity) : monad_scope.
Open Scope monad_scope.

(** [createError(status, message)] thrown. *)
Definition createError {A} (statusCode : nat) (message : string) : M A :=
  throw (HttpError statusCode message).

(* ===================================================================== *)
(** * The store                                                           *)
(* ===================================================================== *)

Module Prisma.

Definition opt_string_eqb (a b : option string) : bool :=
  match a, b with
  | Some x, Some y => x =? y
  | _, _ => false
  end.

Fixpoint matches (w : UserWhere) (u : User) : bool :=
  match w with
  | W_id v => id u =? v
  | W_email v => email u =? v
  | W_phone v => phone u =? v
  | W_resetPasswordToken v => opt_string_eqb (resetPasswordToken u) (Some v)
  | W_resetPasswordExpires_gt t =>
      match resetPasswordExpires u with
      | Some e => (t <? e)%Z
      | None => false
      end
  | W_OR a b => matches a u || matches b u
  | W_AND a b => matches a u && matches b u
  end.

Definition or_keep {A} (o : option A) (old : A) : A :=
  match o with
  | Some v => v
  | None => old
  end.

Definition apply_patch (p : UserPatch) (u : User) : User :=
  mkUser (id u) (firstName u) (lastName u) (email u) (phone u)
         (or_keep (set_passwordHash p) (passwordHash u))
         (or_keep (set_avatarUrl p) (avatarUrl u))
         (googleId u) (role u) (status u)
         (or_keep (set_emailVerified p) (emailVerified u))
         (phoneVerified u)
         (or_keep (set_lastLoginAt p) (lastLoginAt u))
         (or_keep (set_resetPasswordToken p) (resetPasswordToken u))
         (or_keep (set_resetPasswordExpires p) (resetPasswordExpires u))
         (or_keep (set_emailVerificationCode p) (emailVerificationCode u))
         (or_keep (set_emailVerificationExpires p) (emailVerificationExpires u))
         (createdAt u).

(** The primary key and the unique indexes [User_email_key],
    [User_phone_key] and [User_googleId_key]: whether [row] collides
    with a row already stored. *)
Definition collides (row u : User) : bool :=
  (id u =? id row) || (email u =? email row) || (phone u =? phone row)
  || opt_string_eqb (googleId u) (googleId row).

(** The first stored row a [where] object selects. *)
Definition lookup (w : UserWhere) (d : Db) : option User :=
  find (matches w) (users d).

(** [prisma.user.findUnique({ where })]. *)
Definition user_findUnique (w : UserWhere) : M (option User) :=
  call (UserFindUnique w) ;;;
  d <- get_db ;;
  ret (lookup w d).

(** [prisma.user.findFirst({ where })]. *)
Definition user_findFirst (w : UserWhere) : M (option User) :=
  call (UserFindFirst w) ;;;
  d <- get_db ;;
  ret (lookup w d).

(** What [user.update] leaves in table [User]. *)
Definition updated (w : UserWhere) (p : UserPatch) (l : list User) : list User :=
  map (fun u => if matches w u then apply_patch p u else u) l.

(** [prisma.user.create({ data })], the defaults already filled in. *)
Definition user_create (row : User) : M User :=
  call (UserCreate row) ;;;
  d <- get_db ;;
  if existsb (collides row) (users d)
  then throw (PrismaError "P2002")
  else put_db (mkDb (users d ++ [row]) (emailVerifications d)) ;;; ret row.

(** [prisma.user.update({ where, data })]. *)
Definition user_update (w : UserWhere) (p : UserPatch) : M unit :=
  call (UserUpdate w p) ;;;
  d <- get_db ;;
  if existsb (matches w) (users d)
  then put_db (mkDb (updated w p (users d)) (emailVerifications d))
  else throw (PrismaError "P2025").

(** The [where] objects over [EmailVerification] and their negations. *)
Definition other_email (e : string) (r : EmailVerification) : bool :=
  negb (ev_email r =? e).

Definition has_id (i : string) (r : EmailVerification) : bool :=
  ev_id r =? i.

Definition other_id (i : string) (r : EmailVerification) : bool :=
  negb (has_id i r).

Definition email_and_code (e c : string) (r : EmailVerification) : bool :=
  (ev_email r =? e) && (ev_code r =? c).

(** [prisma.emailVerification.deleteMany({ where: { email } })]. *)
Definition otp_deleteMany (e : string) : M unit :=
  call (OtpDeleteMany e) ;;;
  d <- get_db ;;
  put_db (mkDb (users d) (filter (other_email e) (emailVerifications d))).

(** [prisma.emailVerification.create({ data })]. *)
Definition otp_create (row : EmailVerification) : M EmailVerification :=
  call (OtpCreate row) ;;;
  d <- get_db ;;
  if existsb (has_id (ev_id row)) (emailVerifications d)
  then throw (PrismaError "P2002")
  else put_db (mkDb (users d) (emailVerifications d ++ [row])) ;;; ret row.

(** [prisma.emailVerification.findFirst({ where: { email, code } })]. *)
Definition otp_findFirst (e c : string) : M (option EmailVerification) :=
  call (OtpFindFirst e c) ;;;
  d <- get_db ;;
  ret (find (email_and_code e c) (emailVerifications d)).

(** [prisma.emailVerification.delete({ where: { id } })]. *)
Definition otp_delete (i : string) : M unit :=
  call (OtpDelete i) ;;;
  d <- get_db ;;
  if existsb (has_id i) (emailVerifications d)
  then put_db (mkDb (users d) (filter (other_id i) (emailVerifications d)))
  else throw (PrismaError "P2025").

(** The two maintenance calls below are not entered in the log of
    calls. *)

Definition expired_before (t : Z) (r : EmailVerification) : bool :=
  (ev_expiresAt r <? t)%Z.

(** [prisma.emailVerification.deleteMany({ where: { expiresAt: { lt: t } } })],
    which resolves to the number of rows deleted. *)
Definition otp_deleteMany_expired (t : Z) : M nat :=
  d <- get_db ;;
  put_db (mkDb (users d)
               (filter (fun r => negb (expired_before t r)) (emailVerifications d))) ;;;
  ret (List.length (filter (expired_before t) (emailVerifications d))).

(** [{ emailVerificationExpires: { lt: t }, emailVerificationCode: { not: null } }]. *)
Definition stale_code (t : Z) (u : User) : bool :=
  match emailVerificationExpires u, emailVerificationCode u with
  | Some x, Some _ => (x <? t)%Z
  | _, _ => false
  end.

(** [prisma.user.updateMany({ where, data })], which resolves to the
    number of rows updated. *)
Definition user_updateMany (sel : User -> bool) (p : UserPatch) : M nat :=
  d <- get_db ;;
  put_db (mkDb (map (fun u => if sel u then apply_patch p u else u) (users d))
               (emailVerifications d)) ;;;
  ret (List.length (filter sel (users d))).

End Prisma.

(** The uniqueness invariant of account identifiers: no two stored
    accounts share an email and no two share a phone. *)
Definition unique_identifiers (d : Db) : Prop :=
  NoDup (map email (users d)) /\ NoDup (map phone (users d)).

(** The columns of an account that tell who it is and what it may do. *)
Definition identity_of (u : User) :=
  (id u, email u, phone u, role u, status u, googleId u, createdAt u).

(** [d'] has the accounts of [d], each with the identity it had, in the
    same order, and maybe more after them. *)
Definition extends (d d' : Db) : Prop :=
  exists added,
    map identity_of (users d') = (map identity_of (users d) ++ added)%list.

(** A computation that deletes no account and changes no identity,
    whatever its outcome. *)
Definition grows {A} (m : M A) : Prop :=
  forall st, extends (db st) (db (snd (m st))).

(** A computation that keeps the invariant, whatever its outcome. *)
Definition preserves {A} (m : M A) : Prop :=
  forall st, unique_identifiers (db st) -> unique_identifiers (db (snd (m st))).

(* ===================================================================== *)
(** * Responses (src/utils/ApiResponse)                                   *)
(* ===================================================================== *)

Inductive ResponseStatus := SUCCESS | ERROR | FAIL.

Record ApiResponse (T : Type) := mkApiResponse {
  r_status : ResponseStatus;
  r_message : string;
  r_data : option T;
  r_timestamp : Z       (* meta.timestamp *)
}.
Arguments mkApiResponse {T}.
Arguments r_status {T}.
Arguments r_message {T}.
Arguments r_data {T}.
Arguments r_timestamp {T}.

Module ApiResponseBuilder.

(** [ApiResponseBuilder.success(message, data?)]. *)
Definition success {T} (e : Env) (message : string) (data : option T)
  : ApiResponse T :=
  mkApiResponse SUCCESS message data (now e).

(** [ApiResponseBuilder.created(message, data)]. *)
Definition created {T} (e : Env) (message : string) (data : T)
  : ApiResponse T :=
  mkApiResponse SUCCESS message (Some data) (now e).

End ApiResponseBuilder.

(** What a request handler does with [res] and [next]. *)
Inductive Reply (T : Type) :=
| Json (statusCode : nat) (body : ApiResponse T)   (* res.status(c).json(body) *)
| Redirect (url : string)                          (* res.redirect(url) *)
| Next (e : Error).                                (* next(error) *)
Arguments Json {T}.
Arguments Redirect {T}.
Arguments Next {T}.

(** [try { ... } catch (error) { next(error) }] around a handler's body. *)
Definition handler {T} (body : M (Reply T)) : State -> Reply T * State :=
  fun st =>
    match body st with
    | (Return r, st') => (r, st')
    | (Throw e, st') => (Next e, st')
    end.

(** Constants of src/config/auth.config, which the sources import. *)
Class AuthConfig := {
  passwordReset_tokenLength : nat;
  passwordReset_expiryMinutes : Z
}.

(* ===================================================================== *)
(** * src/utils/auth.utils.ts                                             *)
(* ===================================================================== *)

Section AuthUtils.
Context {BC : Bcrypt} {JWT : JsonWebToken}.

Definition JWT_SECRET (e : Env) : string :=
  JS.or_else (env_JWT_SECRET e) "your-super-secret-jwt-key-change-in-production".
Definition JWT_REFRESH_SECRET (e : Env) : string :=
  JS.or_else (env_JWT_REFRESH_SECRET e)
             "your-super-secret-refresh-key-change-in-production".

Definition ACCESS_TOKEN_EXPIRY : Z := 24 * 60 * 60.
Definition REFRESH_TOKEN_EXPIRY : Z := 7 * 24 * 60 * 60.

(** The clock of jsonwebtoken: [Math.floor(Date.now() / 1000)]. *)
Definition clock (e : Env) : Z := (now e / 1000)%Z.

Definition hashPassword (e : Env) (password : string) : string :=
  let saltRounds := 12%nat in
  bcrypt_hash password saltRounds (salt e).

Definition comparePassword (password hash : string) : bool :=
  bcrypt_compare password hash.

Definition generateAccessToken (e : Env) (payload : AuthPayload) : string :=
  jwt_sign payload (JWT_SECRET e) ACCESS_TOKEN_EXPIRY (clock e).

Definition generateRefreshToken (e : Env) (payload : AuthPayload) : string :=
  jwt_sign payload (JWT_REFRESH_SECRET e) REFRESH_TOKEN_EXPIRY (clock e).

Definition verifyAccessToken (e : Env) (token : string) : M TokenPayload :=
  call (JwtVerify token) ;;;
  match jwt_verify token (JWT_SECRET e) (clock e) with
  | Some decoded => ret decoded
  | None => createError 401 "Invalid or expired access token"
  end.

Definition verifyRefreshToken (e : Env) (token : string) : M TokenPayload :=
  call (JwtVerify token) ;;;
  match jwt_verify token (JWT_REFRESH_SECRET e) (clock e) with
  | Some decoded => ret decoded
  | None => createError 401 "Invalid or expired refresh token"
  end.

Definition generateTokenPair (e : Env) (payload : AuthPayload)
  : string * string :=
  let accessToken := generateAccessToken e payload in
  let refreshToken := generateRefreshToken e payload in
  (accessToken, refreshToken).

Definition extractTokenFromHeader (authHeader : option string)
  : option string :=
  match authHeader with
  | None => None
  | Some h =>
      if negb (JS.truthy h) || negb (JS.startsWith h "Bearer ")
      then None
      else Some (JS.substring h 7)
  end.

End AuthUtils.

(* ===================================================================== *)
(** * src/middlewares/authenticate.ts                                     *)
(* ===================================================================== *)

Section Authenticate.
Context {JWT : JsonWebToken}.

(** [authenticate(req, res, next)]: [Return decoded] stands for
    [req.user = decoded; next()], [Throw error] for [next(error)]. *)
Definition authenticate (e : Env) (authorization : option string)
  : M TokenPayload :=
  let authHeader := authorization in
  let token := extractTokenFromHeader authHeader in
  match token with
  | Some t =>
      if JS.truthy t
      then verifyAccessToken e t
      else createError 401 "Access token is required"
  | None => createError 401 "Access token is required"
  end.

End Authenticate.

(* ===================================================================== *)
(** * One-time codes, first revision (src/utils/otp.utils.ts)             *)
(* ===================================================================== *)

Module OtpTable.

Definition expiryMinutes : Z := 2.
Definition length : nat := 6.

(** The bounds handed to [crypto.randomInt]. *)
Definition draw_min : N := 10 ^ (N.of_nat length - 1).
Definition draw_max : N := 10 ^ N.of_nat length - 1.

(** [generateOTP()], [r] being what [crypto.randomInt(draw_min,
    draw_max)] returned. *)
Definition generateOTP_of (r : N) : string :=
  JS.padStart (JS.toString r) length "0"%char.

Definition generateOTP (e : Env) : string := generateOTP_of (random_int e).

Definition getOTPExpiry (e : Env) : Z :=
  (now e + expiryMinutes * 60 * 1000)%Z.

Definition createOrUpdateOTP (e : Env) (email : string) : M (string * Z) :=
  let code := generateOTP e in
  let expiresAt := getOTPExpiry e in
  Prisma.otp_deleteMany email ;;;
  Prisma.otp_create (mkEmailVerification (fresh_id e) email code expiresAt) ;;;
  ret (code, expiresAt).

Definition verifyOTP (e : Env) (email code : string) : M bool :=
  verification <- Prisma.otp_findFirst email code ;;
  match verification with
  | None => ret false
  | Some v =>
      if (ev_expiresAt v <? now e)%Z
      then Prisma.otp_delete (ev_id v) ;;; ret false
      else Prisma.otp_delete (ev_id v) ;;; ret true
  end.

Definition deleteOTP (email : string) : M unit :=
  Prisma.otp_deleteMany email.

Definition cleanupExpiredOTPs (e : Env) : M nat :=
  Prisma.otp_deleteMany_expired (now e).

End OtpTable.

(* ===================================================================== *)
(** * One-time codes, second revision (fields of the user row)            *)
(* ===================================================================== *)

Module OtpUser.

Definition expiryMinutes : Z := 10.
Definition length : nat := 6.

Definition draw_min : N := 10 ^ (N.of_nat length - 1).
Definition draw_max : N := 10 ^ N.of_nat length - 1.

Definition generateOTP_of (r : N) : string :=
  JS.padStart (JS.toString r) length "0"%char.

Definition generateOTP (e : Env) : string := generateOTP_of (random_int e).

Definition getOTPExpiry (e : Env) : Z :=
  (now e + expiryMinutes * 60 * 1000)%Z.

Definition set_code (c : option string) (t : option Z) : UserPatch :=
  mkUserPatch None None None None None None (Some c) (Some t).

Definition createOrUpdateOTP (e : Env) (email : string) : M (string * Z) :=
  let code := generateOTP e in
  let expiresAt := getOTPExpiry e in
  user <- Prisma.user_findUnique (W_email email) ;;
  match user with
  | None => throw (PlainError "User not found")
  | Some u =>
      Prisma.user_update (W_id (id u)) (set_code (Some code) (Some expiresAt)) ;;;
      ret (code, expiresAt)
  end.

Definition verifyOTP (e : Env) (email code : string) : M bool :=
  user <- Prisma.user_findUnique (W_email email) ;;
  match user with
  | None => ret false
  | Some u =>
      match emailVerificationCode u, emailVerificationExpires u with
      | Some stored, Some expires =>
          if negb (JS.truthy stored) then ret false else
          let normalizedInputCode := JS.trim code in
          let storedCode := JS.trim stored in
          if negb (normalizedInputCode =? storedCode) then ret false else
          if (expires <? now e)%Z
          then Prisma.user_update (W_id (id u)) (set_code None None) ;;;
               ret false
          else ret true
      | _, _ => ret false
      end
  end.

Definition deleteOTP (email : string) : M unit :=
  user <- Prisma.user_findUnique (W_email email) ;;
  match user with
  | Some u => Prisma.user_update (W_id (id u)) (set_code None None)
  | None => ret tt
  end.

Definition cleanupExpiredOTPs (e : Env) : M nat :=
  Prisma.user_updateMany (Prisma.stale_code (now e)) (set_code None None).

End OtpUser.

(* ===================================================================== *)
(** * src/utils/password.reset.ts                                         *)
(* ===================================================================== *)

Section PasswordReset.
Context {SHA : Sha256} {CFG : AuthConfig}.

Definition generateResetToken (e : Env) : string := random_hex e.

Definition hashResetToken (token : string) : string := sha256_hex token.

Definition getResetTokenExpiry (e : Env) : Z :=
  let expiry := now e in
  JSDate.setMinutes (localTZA e) expiry
    (JSDate.getMinutes (localTZA e) expiry + passwordReset_expiryMinutes).

Definition exchangeCodeForTokens (e : Env) (code : string) : M string :=
  match google_access_token e with
  | Some t => ret t
  | None => throw (PlainError ("Failed to exchange code for tokens: "
                               ++ google_token_error e))
  end.

Definition getGoogleUserInfo (e : Env) (accessToken : string) : M GoogleUser :=
  match google_profile e with
  | Some g => ret g
  | None => throw (PlainError "Failed to get user info from Google")
  end.

End PasswordReset.

(* ===================================================================== *)
(** * src/services/email.service.ts                                       *)
(* ===================================================================== *)

Module EmailService.

(** [transporter.sendMail(mailOptions)]. *)
Definition sendMail (e : Env) (to subject : string) : M unit :=
  call (SendMail to subject) ;;;
  if smtp_ok e then ret tt else throw (PlainError "mail relay failure").

Definition sendPasswordResetEmail (e : Env) (email resetUrl : string)
           (expiresInHours : nat) : M bool :=
  try_catch
    (sendMail e email "Reset your password - e-Curuza" ;;; ret true)
    (fun _ => ret false).

Definition sendPasswordChangeConfirmationEmail (e : Env)
           (email firstName : string) : M bool :=
  try_catch
    (sendMail e email "Password changed successfully - e-Curuza" ;;; ret true)
    (fun _ => ret false).

Definition sendVerificationEmail (e : Env) (email code : string)
           (expiresIn : nat) : M bool :=
  try_catch
    (sendMail e email "Verify your email - e-Curuza" ;;; ret true)
    (fun _ => ret false).

End EmailService.

(* ===================================================================== *)
(** * src/controllers/auth.controller.ts                                  *)
(* ===================================================================== *)

Section AuthController.
Context {BC : Bcrypt} {SHA : Sha256} {JWT : JsonWebToken} {CFG : AuthConfig}.

(** [...(url && { avatarUrl: url })]. *)
Definition spread_if_truthy (url : option string) : option string :=
  if JS.truthy_opt url then url else None.

Definition userResponse (user : User) (avatar : option string) : UserResponse :=
  mkUserResponse (id user) (firstName user) (lastName user) (email user)
                 (phone user) (spread_if_truthy avatar) (role user)
                 (status user) (emailVerified user) (phoneVerified user)
                 (createdAt user).

Definition authPayload (user : User) : AuthPayload :=
  mkAuthPayload (id user) (email user) (role user).

Definition authResponse (e : Env) (user : User) (avatar : option string)
  : AuthResponse :=
  let '(accessToken, refreshToken) := generateTokenPair e (authPayload user) in
  mkAuthResponse (userResponse user avatar) accessToken refreshToken.

(** The row [register] hands to [prisma.user.create], with the
    defaults of the schema. *)
Definition register_row (e : Env) (body : RegisterRequest)
           (passwordHash : string) : User :=
  mkUser (fresh_id e) (rr_firstName body) (rr_lastName body)
         (rr_email body) (rr_phone body) (Some passwordHash) None None
         (match rr_role body with Some r => r | None => CUSTOMER end)
         ACTIVE false false None None None None None (now e).

Definition set_avatar (url : string) : UserPatch :=
  mkUserPatch None (Some (Some url)) None None None None None None.

Definition register (e : Env) (body : RegisterRequest)
  : State -> Reply AuthResponse * State :=
  handler (
    existingUser <- Prisma.user_findFirst
                      (W_OR (W_email (rr_email body)) (W_phone (rr_phone body))) ;;
    match existingUser with
    | Some _ => createError 409 "User with this email or phone already exists"
    | None =>
        let passwordHash := hashPassword e (rr_password body) in
        user <- Prisma.user_create (register_row e body passwordHash) ;;
        avatarUrl <-
          match avatar_upload e with
          | Some url =>
              try_catch
                (Prisma.user_update (W_id (id user)) (set_avatar url) ;;;
                 ret (Some url))
                (fun _ => ret (Some url))
          | None => ret None
          end ;;
        ret (Json 201 (ApiResponseBuilder.created e "User registered successfully"
                         (authResponse e user avatarUrl)))
    end).

Definition set_lastLogin (t : Z) : UserPatch :=
  mkUserPatch None None None (Some (Some t)) None None None None.

Definition login (e : Env) (body : LoginRequest)
  : State -> Reply AuthResponse * State :=
  handler (
    user <- Prisma.user_findUnique (W_email (lr_email body)) ;;
    match user with
    | None => createError 401 "Invalid email or password"
    | Some user =>
        if negb (JS.truthy_opt (passwordHash user))
        then createError 401 "Please login with Google instead"
        else
          let isPasswordValid :=
            comparePassword (lr_password body)
                            (match passwordHash user with Some h => h | None => "" end) in
          if negb isPasswordValid
          then createError 401 "Invalid email or password"
          else if negb (UserStatus_eqb (status user) ACTIVE)
          then createError 403 "Account is not active"
          else
            Prisma.user_update (W_id (id user)) (set_lastLogin (now e)) ;;;
            ret (Json 200 (ApiResponseBuilder.success e "Login successful"
                             (Some (authResponse e user (avatarUrl user)))))
    end).

Definition set_reset (h : option string) (t : option Z) : UserPatch :=
  mkUserPatch None None None None (Some h) (Some t) None None.

Definition FRONTEND_URL (e : Env) : string :=
  JS.or_else (env_FRONTEND_URL e) "http://localhost:3000".

Definition forgotPassword (e : Env) (email : option string)
  : State -> Reply unit * State :=
  handler (
    match email with
    | None => createError 400 "Email is required"
    | Some email =>
        if negb (JS.truthy email) then createError 400 "Email is required" else
        user <- Prisma.user_findUnique (W_email email) ;;
        match user with
        | None =>
            ret (Json 200 (ApiResponseBuilder.success e
                   "If an account exists, a reset link will be sent" None))
        | Some user =>
            let resetToken := generateResetToken e in
            let hashedToken := hashResetToken resetToken in
            let expiresAt := getResetTokenExpiry e in
            Prisma.user_update (W_id (id user))
                               (set_reset (Some hashedToken) (Some expiresAt)) ;;;
            let resetUrl := FRONTEND_URL e ++ "/reset-password?token=" ++ resetToken in
            EmailService.sendPasswordResetEmail e email resetUrl 1 ;;;
            ret (Json 200 (ApiResponseBuilder.success e
                   "If an account exists, a reset link will be sent" None))
        end
    end).

Definition set_password_clear_reset (h : string) : UserPatch :=
  mkUserPatch (Some (Some h)) None None None (Some None) (Some None) None None.

Definition resetPassword (e : Env) (token newPassword : option string)
  : State -> Reply unit * State :=
  handler (
    match token, newPassword with
    | Some token, Some newPassword =>
        if negb (JS.truthy token) || negb (JS.truthy newPassword)
        then createError 400 "Token and new password are required"
        else
          let hashedToken := hashResetToken token in
          user <- Prisma.user_findFirst
                    (W_AND (W_resetPasswordToken hashedToken)
                           (W_resetPasswordExpires_gt (now e))) ;;
          match user with
          | None => createError 400 "Invalid or expired reset token"
          | Some user =>
              let passwordHash := hashPassword e newPassword in
              Prisma.user_update (W_id (id user))
                                 (set_password_clear_reset passwordHash) ;;;
              EmailService.sendPasswordChangeConfirmationEmail
                e (email user) (firstName user) ;;;
              ret (Json 200 (ApiResponseBuilder.success e
                     "Password has been reset successfully" None))
          end
    | _, _ => createError 400 "Token and new password are required"
    end).

(** The row [googleCallback] hands to [prisma.user.create]. *)
Definition google_row (e : Env) (googleUser : GoogleUser) : User :=
  mkUser (fresh_id e)
         (JS.or_else (g_given_name googleUser) "User")
         (JS.or_else (g_family_name googleUser) "")
         (g_email googleUser) "" None (g_picture googleUser) None
         CUSTOMER ACTIVE true false None None None None None (now e).

Definition googleCallback (e : Env) (code state : option string)
           (cookie_google_oauth_state : option string)
  : State -> Reply AuthResponse * State :=
  handler (
    match code, state with
    | Some code, Some state =>
        if negb (JS.truthy code) || negb (JS.truthy state)
        then createError 400 "Authorization code and state are required"
        else
          let storedState := cookie_google_oauth_state in
          if negb (Prisma.opt_string_eqb (Some state) storedState)
          then createError 400 "Invalid state parameter"
          else
            access_token <- exchangeCodeForTokens e code ;;
            googleUser <- getGoogleUserInfo e access_token ;;
            found <- Prisma.user_findUnique (W_email (g_email googleUser)) ;;
            user <-
              match found with
              | None => Prisma.user_create (google_row e googleUser)
              | Some user =>
                  if negb (UserStatus_eqb (status user) ACTIVE)
                  then createError 403 "Account is not active"
                  else ret user
              end ;;
            let '(accessToken, refreshToken) :=
              generateTokenPair e (authPayload user) in
            ret (Redirect (FRONTEND_URL e ++ "/auth/callback?token=" ++ accessToken
                             ++ "&refreshToken=" ++ refreshToken))
    | _, _ => createError 400 "Authorization code and state are required"
    end).

End AuthController.

(* ===================================================================== *)
(** * src/utils/auth.utils.ts: looking into a token                       *)
(* ===================================================================== *)

(** [jwt.decode(token)], which reads the payload without checking the
    signature; [None] where it returns [null] or throws.  It reads back
    what [jwt_sign] wrote. *)
Class JsonWebTokenDecode {JWT : JsonWebToken} := {
  jwt_decode : string -> option TokenPayload;
  jwt_decode_sign : forall p k e t,
    jwt_decode (jwt_sign p k e t) =
    Some (mkTokenPayload (ap_userId p) (ap_email p) (ap_role p)
                         (Some t) (Some (t + e)%Z))
}.

Section TokenIntrospection.
Context {JWT : JsonWebToken} {DEC : JsonWebTokenDecode}.

Definition decodeToken (token : string) : option TokenPayload :=
  jwt_decode token.

(** [!decoded.exp]: no [exp], or an [exp] of 0. *)
Definition no_exp (decoded : TokenPayload) : bool :=
  match exp decoded with
  | Some x => (x =? 0)%Z
  | None => true
  end.

Definition isTokenExpired (e : Env) (token : string) : bool :=
  match decodeToken token with
  | None => true
  | Some decoded =>
      if no_exp decoded then true
      else match exp decoded with
           | Some x => (x * 1000 <=? now e)%Z
           | None => true
           end
  end.

Definition getTokenExpirationTime (e : Env) (token : string) : option Z :=
  match decodeToken token with
  | None => None
  | Some decoded =>
      if no_exp decoded then None
      else match exp decoded with
           | Some x => Some (x - now e / 1000)%Z
           | None => None
           end
  end.

End TokenIntrospection.

(* ===================================================================== *)
(** * src/middlewares/authenticate.ts: the other middlewares              *)
(* ===================================================================== *)

(** The string of a role, as it is compared with [allowedRoles]. *)
Definition UserRole_string (r : UserRole) : string :=
  match r with
  | ADMIN => "ADMIN"
  | SELLER => "SELLER"
  | CUSTOMER => "CUSTOMER"
  end.

(** [allowedRoles.includes(role)]. *)
Definition includes (allowedRoles : list string) (role : string) : bool :=
  existsb (String.eqb role) allowedRoles.

Section Middlewares.
Context {JWT : JsonWebToken}.

(** [optionalAuth]: the result is [req.user] when [next()] is called. *)
Definition optionalAuth (e : Env) (authorization : option string)
  : M (option TokenPayload) :=
  try_catch
    (let authHeader := authorization in
     let token := extractTokenFromHeader authHeader in
     if JS.truthy_opt token
     then decoded <- verifyAccessToken e
                       (match token with Some t => t | None => "" end) ;;
          ret (Some decoded)
     else ret None)
    (fun _ => ret None).

(** [authorize(...allowedRoles)], applied to [req.user]. *)
Definition authorize (allowedRoles : list string) (user : option TokenPayload)
  : M unit :=
  match user with
  | None => createError 401 "Authentication required"
  | Some u =>
      if negb (includes allowedRoles (UserRole_string (tp_role u)))
      then createError 403 "You do not have permission to access this resource"
      else ret tt
  end.

Definition adminOnly := authorize ["ADMIN"].
Definition sellerOnly := authorize ["SELLER"].
Definition customerOnly := authorize ["CUSTOMER"].
Definition adminOrSeller := authorize ["ADMIN"; "SELLER"].

(** [authenticateRefreshToken], reading the header [x-refresh-token]. *)
Definition authenticateRefreshToken (e : Env) (x_refresh_token : option string)
  : M TokenPayload :=
  let authHeader := x_refresh_token in
  let token := extractTokenFromHeader authHeader in
  if JS.truthy_opt token
  then verifyRefreshToken e (match token with Some t => t | None => "" end)
  else createError 401 "Refresh token is required".

(** [a || b] of two values that may be undefined. *)
Definition or_opt (a b : option string) : option string :=
  if JS.truthy_opt a then a else b.

(** [authenticateWithFallback]: the result is [req.user] when [next()]
    is called. *)
Definition authenticateWithFallback (e : Env)
           (authorization x_refresh_token cookie_refreshToken : option string)
  : M (option TokenPayload) :=
  let authHeader := authorization in
  let token := extractTokenFromHeader authHeader in
  if JS.truthy_opt token
  then decoded <- verifyAccessToken e
                    (match token with Some t => t | None => "" end) ;;
       ret (Some decoded)
  else
    let refreshToken := or_opt x_refresh_token cookie_refreshToken in
    if JS.truthy_opt refreshToken
    then decoded <- verifyRefreshToken e
                      (match refreshToken with Some t => t | None => "" end) ;;
         ret (Some decoded)
    else ret None.

Definition adminWithRefresh (e : Env) (x_refresh_token : option string)
  : M TokenPayload :=
  decoded <- authenticateRefreshToken e x_refresh_token ;;
  authorize ["ADMIN"] (Some decoded) ;;;
  ret decoded.

Definition sellerWithRefresh (e : Env) (x_refresh_token : option string)
  : M TokenPayload :=
  decoded <- authenticateRefreshToken e x_refresh_token ;;
  authorize ["SELLER"] (Some decoded) ;;;
  ret decoded.

Definition customerWithRefresh (e : Env) (x_refresh_token : option string)
  : M TokenPayload :=
  decoded <- authenticateRefreshToken e x_refresh_token ;;
  authorize ["CUSTOMER"] (Some decoded) ;;;
  ret decoded.

Definition adminOrSellerWithRefresh (e : Env) (x_refresh_token : option string)
  : M TokenPayload :=
  decoded <- authenticateRefreshToken e x_refresh_token ;;
  authorize ["ADMIN"; "SELLER"] (Some decoded) ;;;
  ret decoded.

Definition adminWithFallback (e : Env)
           (authorization x_refresh_token cookie_refreshToken : option string)
  : M (option TokenPayload) :=
  user <- authenticateWithFallback e authorization x_refresh_token
                                   cookie_refreshToken ;;
  authorize ["ADMIN"] user ;;;
  ret user.

End Middlewares.

(* ===================================================================== *)
(** * src/controllers/auth.controller.ts: the other handlers              *)
(* ===================================================================== *)

(** The three functions the controller imports from the one-time-code
    store, in either revision. *)
Record OtpStore := mkOtpStore {
  store_createOrUpdateOTP : Env -> string -> M (string * Z);
  store_verifyOTP : Env -> string -> string -> M bool;
  store_deleteOTP : string -> M unit
}.

Definition table_store : OtpStore :=
  mkOtpStore OtpTable.createOrUpdateOTP OtpTable.verifyOTP OtpTable.deleteOTP.

Definition user_store : OtpStore :=
  mkOtpStore OtpUser.createOrUpdateOTP OtpUser.verifyOTP OtpUser.deleteOTP.

Section AuthControllerMore.
Context {BC : Bcrypt} {JWT : JsonWebToken}.

(** [refreshToken(req, res, next)]; the data of the reply is the new
    pair [(accessToken, refreshToken)]. *)
Definition refreshTokenController (e : Env) (refreshToken : option string)
  : State -> Reply (string * string) * State :=
  handler (
    if negb (JS.truthy_opt refreshToken)
    then createError 400 "Refresh token is required"
    else
      decoded <- verifyRefreshToken e
                   (match refreshToken with Some t => t | None => "" end) ;;
      user <- Prisma.user_findUnique (W_id (userId decoded)) ;;
      match user with
      | None => createError 401 "Invalid refresh token"
      | Some user =>
          if negb (UserStatus_eqb (status user) ACTIVE)
          then createError 401 "Invalid refresh token"
          else
            let tokens := generateTokenPair e (authPayload user) in
            ret (Json 200 (ApiResponseBuilder.success e "Token refreshed"
                             (Some tokens)))
      end).

Definition set_password (h : string) : UserPatch :=
  mkUserPatch (Some (Some h)) None None None None None None None.

(** [changePassword(req, res, next)], [user] being [req.user]. *)
Definition changePassword (e : Env) (user : TokenPayload)
           (currentPassword newPassword : option string)
  : State -> Reply unit * State :=
  handler (
    if negb (JS.truthy_opt currentPassword) || negb (JS.truthy_opt newPassword)
    then createError 400 "Current and new password required"
    else
      let currentPassword := match currentPassword with Some p => p | None => "" end in
      let newPassword := match newPassword with Some p => p | None => "" end in
      dbUser <- Prisma.user_findUnique (W_id (userId user)) ;;
      match dbUser with
      | None => createError 404 "User not found"
      | Some dbUser =>
          if negb (JS.truthy_opt (passwordHash dbUser))
          then createError 400 "Please login with Google to set a password"
          else
            let isPasswordValid :=
              comparePassword currentPassword
                (match passwordHash dbUser with Some h => h | None => "" end) in
            if negb isPasswordValid
            then createError 401 "Current password is incorrect"
            else
              let newPasswordHash := hashPassword e newPassword in
              Prisma.user_update (W_id (userId user)) (set_password newPasswordHash) ;;;
              EmailService.sendPasswordChangeConfirmationEmail
                e (email dbUser) (firstName dbUser) ;;;
              ret (Json 200 (ApiResponseBuilder.success e
                               "Password changed successfully" None))
      end).

Definition set_verified : UserPatch :=
  mkUserPatch None None (Some true) None None None None None.

(** [verifyEmail(req, res, next)] over the store [S]. *)
Definition verifyEmail (S : OtpStore) (e : Env) (email code : option string)
  : State -> Reply unit * State :=
  handler (
    if negb (JS.truthy_opt email) || negb (JS.truthy_opt code)
    then createError 400 "Email and verification code are required"
    else
      let email := match email with Some x => x | None => "" end in
      let code := match code with Some x => x | None => "" end in
      isValid <- store_verifyOTP S e email code ;;
      if negb isValid
      then createError 400 "Invalid or expired verification code"
      else
        user <- Prisma.user_findUnique (W_email email) ;;
        match user with
        | None => createError 404 "User not found"
        | Some user =>
            Prisma.user_update (W_id (id user)) set_verified ;;;
            store_deleteOTP S email ;;;
            ret (Json 200 (ApiResponseBuilder.success e
                             "Email verified successfully" None))
        end).

(** [resendVerificationCode(req, res, next)] over the store [S]. *)
Definition resendVerificationCode (S : OtpStore) (e : Env) (email : option string)
  : State -> Reply unit * State :=
  handler (
    if negb (JS.truthy_opt email)
    then createError 400 "Email is required"
    else
      let email := match email with Some x => x | None => "" end in
      user <- Prisma.user_findUnique (W_email email) ;;
      match user with
      | None =>
          ret (Json 200 (ApiResponseBuilder.success e
                 "If an account exists, a verification code will be sent" None))
      | Some user =>
          if emailVerified user
          then ret (Json 200 (ApiResponseBuilder.success e
                      "Email is already verified" None))
          else
            otp <- store_createOrUpdateOTP S e email ;;
            EmailService.sendVerificationEmail e email (fst otp) 2 ;;;
            ret (Json 200 (ApiResponseBuilder.success e
                             "Verification code sent successfully" None))
      end).

End AuthControllerMore.

(** [isResetTokenExpired(expiresAt)] of src/utils/password.reset.ts. *)
Definition isResetTokenExpired (e : Env) (expiresAt : option Z) : bool :=
  match expiresAt with
  | None => true
  | Some t => (t <? now e)%Z
  end.

(* ===================================================================== *)
(** * Reference instances of the library interfaces                       *)
(* ===================================================================== *)

(** Small executable implementations of the interfaces above.  They show
    that the laws asked of [JsonWebToken] can be met, and they let the
    handlers run on concrete requests. *)
Module Reference.

(** A self-delimiting encoding of a string in front of [rest]: every
    character is preceded by ["1"], the end is marked by ["0"]. *)
Fixpoint enc_str (s rest : string) : string :=
  match s with
  | EmptyString => String "0" rest
  | String c r => String "1" (String c (enc_str r rest))
  end.

Fixpoint dec_str (s : string) : option (string * string) :=
  match s with
  | EmptyString => None
  | String m r =>
      if Ascii.eqb m "0" then Some (EmptyString, r)
      else match r with
           | EmptyString => None
           | String c r' =>
               match dec_str r' with
               | Some (x, rest) => Some (String c x, rest)
               | None => None
               end
           end
  end.

Fixpoint enc_pos (p : positive) : string :=
  match p with
  | xH => EmptyString
  | xO q => String "0" (enc_pos q)
  | xI q => String "1" (enc_pos q)
  end.

Fixpoint dec_pos (s : string) : positive :=
  match s with
  | EmptyString => xH
  | String c r => if Ascii.eqb c "0" then xO (dec_pos r) else xI (dec_pos r)
  end.

Definition enc_Z (z : Z) : string :=
  match z with
  | Z0 => "z"
  | Zpos p => String "p" (enc_pos p)
  | Zneg p => String "n" (enc_pos p)
  end.

Definition dec_Z (s : string) : Z :=
  match s with
  | EmptyString => Z0
  | String c r =>
      if Ascii.eqb c "p" then Zpos (dec_pos r)
      else if Ascii.eqb c "n" then Zneg (dec_pos r)
      else Z0
  end.

Definition enc_role (r : UserRole) : string :=
  match r with
  | ADMIN => "ADMIN"
  | SELLER => "SELLER"
  | CUSTOMER => "CUSTOMER"
  end.

Definition dec_role (s : string) : UserRole :=
  if s =? "ADMIN" then ADMIN else if s =? "SELLER" then SELLER else CUSTOMER.

Definition sign (p : AuthPayload) (k : string) (e t : Z) : string :=
  enc_str k (enc_str (ap_userId p) (enc_str (ap_email p)
    (enc_str (enc_role (ap_role p)) (enc_str (enc_Z t)
      (enc_str (enc_Z (t + e)) EmptyString))))).

Definition verify (token k : string) (t' : Z) : option TokenPayload :=
  match dec_str token with
  | Some (k0, r0) =>
  match dec_str r0 with
  | Some (uid, r1) =>
  match dec_str r1 with
  | Some (em, r2) =>
  match dec_str r2 with
  | Some (ro, r3) =>
  match dec_str r3 with
  | Some (ia, r4) =>
  match dec_str r4 with
  | Some (ex, _) =>
      if (k0 =? k) && (t' <? dec_Z ex)%Z
      then Some (mkTokenPayload uid em (dec_role ro)
                                (Some (dec_Z ia)) (Some (dec_Z ex)))
      else None
  | None => None end
  | None => None end
  | None => None end
  | None => None end
  | None => None end
  | None => None end.

Definition bcrypt : Bcrypt :=
  {| bcrypt_hash := fun password _ salt => salt ++ "$" ++ password;
     bcrypt_compare := fun password hash =>
       JS.substring hash (String.length hash - String.length password - 1)
       =? "$" ++ password |}.

Definition sha256 : Sha256 :=
  {| sha256_hex := fun s => "sha256:" ++ s |}.

Definition config : AuthConfig :=
  {| passwordReset_tokenLength := 32; passwordReset_expiryMinutes := 60 |}.

(** The zone of a process running on universal time. *)
Definition utc (t : Z) (isUTC : bool) : Z := 0.

(** An environment with nothing set in [process.env]. *)
Definition env (t : Z) : Env :=
  mkEnv None None None t "id-new" "salt" "c0ffee" 123456 true None None None
        "invalid_grant" utc.

(** Sample rows and states. *)
Definition alice : User :=
  mkUser "u1" "A" "B" "a@x.com" "+15550000001" (Some "salt$Password1")
         None None CUSTOMER ACTIVE false false None None None None None 0.

Definition bob : User :=
  mkUser "u2" "Bob" "C" "b@x.com" "+15550000002" (Some "salt$Password2")
         None None SELLER SUSPENDED true false None None None None None 0.

(** Holds the hash of the reset token ["tok123"], expired at 500. *)
Definition carol : User :=
  mkUser "u3" "Carol" "D" "c@x.com" "+15550000003" (Some "salt$Password3")
         None None CUSTOMER ACTIVE true false None
         (Some "sha256:tok123") (Some 500%Z) None None 0.

(** Holds the one-time code ["123456"], good until 2000. *)
Definition dave : User :=
  mkUser "u4" "Dave" "E" "d@x.com" "+15550000004" (Some "salt$Password4")
         None None CUSTOMER ACTIVE false false None None None
         (Some "123456") (Some 2000%Z) 0.

(** The one-time code ["123456"] for a@x.com, good until 2000. *)
Definition code_for_alice : EmailVerification :=
  mkEmailVerification "v1" "a@x.com" "123456" 2000.

Definition state_of (us : list User) : State := mkState (mkDb us []) [].

(** A later request: another clock, identifier and random draw. *)
Definition env_later : Env :=
  mkEnv None None None 1500 "v2" "salt" "c0ffee" 654321 true None None None
        "invalid_grant" utc.

(** The identity provider answering for a first and for a second
    visitor, neither of whom has an account. *)
Definition env_google (t : Z) (i em : string) : Env :=
  mkEnv None None None t i "salt" "c0ffee" 123456 true None
        (Some "ya29.token")
        (Some (mkGoogleUser "g" em "G" None (Some "G") None))
        "" utc.

(** An environment whose mail relay refuses every message. *)
Definition env_mail_down (t : Z) : Env :=
  mkEnv None None None t "id-new" "salt" "c0ffee" 123456 false None None None
        "invalid_grant" utc.

End Reference.

(* ===================================================================== *)
(** * Further reference data                                              *)
(* ===================================================================== *)

Module Fixture.

(** The payload of a reference token, read without its key. *)
Definition decode (token : string) : option TokenPayload :=
  match Reference.dec_str token with
  | Some (_, r0) =>
  match Reference.dec_str r0 with
  | Some (uid, r1) =>
  match Reference.dec_str r1 with
  | Some (em, r2) =>
  match Reference.dec_str r2 with
  | Some (ro, r3) =>
  match Reference.dec_str r3 with
  | Some (ia, r4) =>
  match Reference.dec_str r4 with
  | Some (ex, _) =>
      Some (mkTokenPayload uid em (Reference.dec_role ro)
                           (Some (Reference.dec_Z ia)) (Some (Reference.dec_Z ex)))
  | None => None end
  | None => None end
  | None => None end
  | None => None end
  | None => None end
  | None => None end.

(** The claims of the sample accounts. *)
Definition alice_claims : AuthPayload := mkAuthPayload "u1" "a@x.com" CUSTOMER.
Definition root_claims : AuthPayload := mkAuthPayload "u0" "root@x.com" ADMIN.

(** An administrator. *)
Definition root : User :=
  mkUser "u0" "R" "T" "root@x.com" "+15550000000" (Some "salt$Password0")
         None None ADMIN ACTIVE true false None None None None None 0.

(** An account provisioned through the identity provider. *)
Definition gina : User :=
  mkUser "u5" "Gina" "" "g@x.com" "" None None None CUSTOMER ACTIVE true false
         None None None None None 0.

(** Three codes of the table, the first two expired at 1000. *)
Definition codes : list EmailVerification :=
  [mkEmailVerification "v1" "a@x.com" "111111" 500;
   mkEmailVerification "v2" "b@x.com" "222222" 900;
   mkEmailVerification "v3" "c@x.com" "333333" 5000].

(** A request at time [t] for which [crypto.randomBytes] draws [hex]. *)
Definition env_hex (t : Z) (hex : string) : Env :=
  mkEnv None None None t "id-new" "salt" hex 123456 true None None None
        "invalid_grant" Reference.utc.

(** The zone America/New_York around the end of daylight saving time
    in 2024: the offset goes from -4 h to -5 h at 2024-11-03T06:00:00Z,
    which is 02:00 on the local clock; a local time of the repeated
    hour is taken as the earlier of its two instants. *)
Definition new_york (t : Z) (isUTC : bool) : Z :=
  if isUTC
  then if (t <? 1730613600000)%Z then (-14400000)%Z else (-18000000)%Z
  else if (t <? 1730599200000)%Z then (-14400000)%Z else (-18000000)%Z.

(** A request at time [t] to a process running in that zone. *)
Definition env_new_york (t : Z) : Env :=
  mkEnv None None None t "id-new" "salt" "c0ffee" 123456 true None None None
        "invalid_grant" new_york.

End Fixture.

(* ===================================================================== *)
(** * Decimal rendering and one-time codes                                *)
(* ===================================================================== *)

Lemma div10_bounds (n a b : N) :
  (10 * a <= n < 10 * b)%N -> (a <= n / 10 < b)%N.
Proof.
  intros H.
  pose proof (N.div_mod n 10 ltac:(lia)) as E.
  pose proof (N.mod_lt n 10 ltac:(lia)) as L.
  generalize dependent (n / 10)%N. generalize dependent (n mod 10)%N.
  intros; lia.
Qed.

Lemma div10_glue (a b : N) :
  (a / 10 = b / 10)%N -> (a mod 10 = b mod 10)%N -> a = b.
Proof.
  intros Hd Hm.
  rewrite (N.div_mod a 10), (N.div_mod b 10) by lia.
  now rewrite Hd, Hm.
Qed.

Lemma nat_of_digit_char (d : N) :
  (d < 10)%N -> nat_of_ascii (JS.digit_char d) = (48 + N.to_nat d)%nat.
Proof.
  intros H. unfold JS.digit_char.
  assert (C : (d = 0 \/ d = 1 \/ d = 2 \/ d = 3 \/ d = 4 \/ d = 5 \/ d = 6
               \/ d = 7 \/ d = 8 \/ d = 9)%N) by lia.
  repeat (destruct C as [-> | C]; [reflexivity |]).
  subst d. reflexivity.
Qed.

Lemma digit_char_inj (a b : N) :
  (a < 10)%N -> (b < 10)%N -> JS.digit_char a = JS.digit_char b -> a = b.
Proof.
  intros Ha Hb E.
  apply (f_equal nat_of_ascii) in E.
  rewrite !nat_of_digit_char in E by assumption. lia.
Qed.

Lemma digit_char_is_digit (d : N) :
  (d < 10)%N -> JS.is_digit (JS.digit_char d) = true.
Proof.
  intros H. unfold JS.is_digit. rewrite nat_of_digit_char by assumption.
  apply andb_true_intro. split; apply Nat.leb_le; lia.
Qed.

Lemma to_digits_all_digits (fuel : nat) :
  forall n acc,
    JS.all_chars JS.is_digit acc = true ->
    JS.all_chars JS.is_digit (JS.to_digits fuel n acc) = true.
Proof.
  induction fuel as [| fuel IH]; intros n acc Hacc; cbn [JS.to_digits].
  - exact Hacc.
  - assert (Hd : JS.all_chars JS.is_digit
                   (String (JS.digit_char (n mod 10)) acc) = true).
    { cbn [JS.all_chars]. rewrite digit_char_is_digit, Hacc; [reflexivity |].
      apply N.mod_lt. lia. }
    destruct (n / 10 =? 0)%N; [exact Hd | now apply IH].
Qed.

Lemma toString_all_digits (n : N) :
  JS.all_chars JS.is_digit (JS.toString n) = true.
Proof. unfold JS.toString. now apply to_digits_all_digits. Qed.

Lemma toString_six_digits (n : N) :
  (100000 <= n < 1000000)%N -> JS.toString n = JS.six_digits n.
Proof.
  intros H. unfold JS.toString, JS.six_digits.
  assert (L : (16 <= N.log2 n)%N).
  { change 16%N with (N.log2 65536). apply N.log2_le_mono. lia. }
  destruct (N.to_nat (N.log2 n)) as [|[|[|[|[|f]]]]] eqn:F; try lia.
  pose proof (div10_bounds n 10000 100000 ltac:(lia)) as B1.
  pose proof (div10_bounds (n / 10) 1000 10000 B1) as B2.
  pose proof (div10_bounds (n / 10 / 10) 100 1000 B2) as B3.
  pose proof (div10_bounds (n / 10 / 10 / 10) 10 100 B3) as B4.
  pose proof (div10_bounds (n / 10 / 10 / 10 / 10) 1 10 B4) as B5.
  pose proof (div10_bounds (n / 10 / 10 / 10 / 10 / 10) 0 1) as B6.
  specialize (B6 ltac:(lia)).
  cbn [JS.to_digits].
  repeat match goal with
         | |- context [(?x =? 0)%N] =>
             let E := fresh "E" in
             destruct (N.eqb_spec x 0) as [E | E]; try lia
         end.
  reflexivity.
Qed.

Lemma six_digits_inj (n m : N) :
  (100000 <= n < 1000000)%N -> (100000 <= m < 1000000)%N ->
  JS.six_digits n = JS.six_digits m -> n = m.
Proof.
  intros Hn Hm E. unfold JS.six_digits in E.
  injection E as E5 E4 E3 E2 E1 E0.
  apply digit_char_inj in E0, E1, E2, E3, E4, E5;
    try (apply N.mod_lt; lia).
  pose proof (div10_bounds n 10000 100000 ltac:(lia)) as B1.
  pose proof (div10_bounds (n / 10) 1000 10000 B1) as B2.
  pose proof (div10_bounds (n / 10 / 10) 100 1000 B2) as B3.
  pose proof (div10_bounds (n / 10 / 10 / 10) 10 100 B3) as B4.
  pose proof (div10_bounds (n / 10 / 10 / 10 / 10) 1 10 B4) as B5.
  pose proof (div10_bounds m 10000 100000 ltac:(lia)) as C1.
  pose proof (div10_bounds (m / 10) 1000 10000 C1) as C2.
  pose proof (div10_bounds (m / 10 / 10) 100 1000 C2) as C3.
  pose proof (div10_bounds (m / 10 / 10 / 10) 10 100 C3) as C4.
  pose proof (div10_bounds (m / 10 / 10 / 10 / 10) 1 10 C4) as C5.
  do 5 (apply div10_glue; [| assumption]).
  rewrite <- (N.mod_small (n / 10 / 10 / 10 / 10 / 10) 10) by lia.
  rewrite <- (N.mod_small (m / 10 / 10 / 10 / 10 / 10) 10) by lia.
  exact E5.
Qed.

Lemma length_six_digits (n : N) : String.length (JS.six_digits n) = 6%nat.
Proof. reflexivity. Qed.

Lemma padStart_full (s : string) (k : nat) (c : ascii) :
  (k <= String.length s)%nat -> JS.padStart s k c = s.
Proof.
  intros H. unfold JS.padStart.
  replace (k - String.length s)%nat with 0%nat by lia. reflexivity.
Qed.

Lemma all_chars_app (p : ascii -> bool) (a b : string) :
  JS.all_chars p (a ++ b) = JS.all_chars p a && JS.all_chars p b.
Proof.
  induction a as [| c a IH]; cbn [JS.all_chars append]; [reflexivity |].
  now rewrite IH, andb_assoc.
Qed.

Lemma all_chars_repeat (p : ascii -> bool) (c : ascii) (k : nat) :
  p c = true -> JS.all_chars p (JS.repeat_char c k) = true.
Proof.
  intros H. induction k as [| k IH]; cbn [JS.all_chars JS.repeat_char];
    [reflexivity | now rewrite H, IH].
Qed.

Lemma digit_not_white_space (c : ascii) :
  JS.is_digit c = true -> JS.is_white_space c = false.
Proof.
  unfold JS.is_digit, JS.is_white_space. intros H.
  apply andb_prop in H as [H1 H2].
  apply Nat.leb_le in H1. apply Nat.leb_le in H2.
  repeat (apply orb_false_intro || apply andb_false_intro2);
    (apply Nat.leb_gt || apply Nat.eqb_neq); lia.
Qed.

Lemma trimStart_digits (s : string) :
  JS.all_chars JS.is_digit s = true -> JS.trimStart s = s.
Proof.
  destruct s as [| c r]; cbn [JS.all_chars JS.trimStart]; [reflexivity |].
  intros H. apply andb_prop in H as [H _].
  now rewrite (digit_not_white_space _ H).
Qed.

Lemma trimEnd_digits (s : string) :
  JS.all_chars JS.is_digit s = true -> JS.trimEnd s = s.
Proof.
  induction s as [| c r IH]; cbn [JS.all_chars JS.trimEnd]; [reflexivity |].
  intros H. apply andb_prop in H as [Hc Hr].
  now rewrite (digit_not_white_space _ Hc), (IH Hr).
Qed.

Lemma trim_digits (s : string) :
  JS.all_chars JS.is_digit s = true -> JS.trim s = s.
Proof.
  intros H. unfold JS.trim. rewrite (trimStart_digits _ H).
  now apply trimEnd_digits.
Qed.

(* ===================================================================== *)
(** * The reference token codec meets the laws of [JsonWebToken]          *)
(* ===================================================================== *)

Lemma dec_enc_str (s rest : string) :
  Reference.dec_str (Reference.enc_str s rest) = Some (s, rest).
Proof.
  induction s as [| c s IH]; cbn [Reference.enc_str Reference.dec_str].
  - reflexivity.
  - change (Ascii.eqb "1" "0") with false. cbn iota. now rewrite IH.
Qed.

Lemma dec_enc_pos (p : positive) : Reference.dec_pos (Reference.enc_pos p) = p.
Proof.
  induction p as [p IH | p IH |]; cbn [Reference.enc_pos Reference.dec_pos].
  - change (Ascii.eqb "1" "0") with false. cbn iota. now rewrite IH.
  - change (Ascii.eqb "0" "0") with true. cbn iota. now rewrite IH.
  - reflexivity.
Qed.

Lemma dec_enc_Z (z : Z) : Reference.dec_Z (Reference.enc_Z z) = z.
Proof.
  destruct z as [| p | p]; unfold Reference.enc_Z, Reference.dec_Z.
  - reflexivity.
  - change (Ascii.eqb "p" "p") with true. cbn iota. now rewrite dec_enc_pos.
  - change (Ascii.eqb "n" "p") with false. change (Ascii.eqb "n" "n") with true.
    cbn iota. now rewrite dec_enc_pos.
Qed.

Lemma dec_enc_role (r : UserRole) : Reference.dec_role (Reference.enc_role r) = r.
Proof. destruct r; reflexivity. Qed.

Lemma reference_verify_sign (p : AuthPayload) (k : string) (e t t' : Z) :
  Reference.verify (Reference.sign p k e t) k t' =
  if (t' <? t + e)%Z
  then Some (mkTokenPayload (ap_userId p) (ap_email p) (ap_role p)
                            (Some t) (Some (t + e)%Z))
  else None.
Proof.
  unfold Reference.verify, Reference.sign.
  rewrite !dec_enc_str, !dec_enc_Z, dec_enc_role, String.eqb_refl.
  reflexivity.
Qed.

Lemma reference_verify_other_key (p : AuthPayload) (k k' : string) (e t t' : Z) :
  k <> k' -> Reference.verify (Reference.sign p k e t) k' t' = None.
Proof.
  intros H. unfold Reference.verify, Reference.sign.
  rewrite !dec_enc_str.
  apply String.eqb_neq in H. now rewrite H.
Qed.

(** The reference implementation of jsonwebtoken. *)
Definition reference_jwt : JsonWebToken :=
  {| jwt_sign := Reference.sign;
     jwt_verify := Reference.verify;
     jwt_verify_sign := reference_verify_sign;
     jwt_verify_other_key := reference_verify_other_key |}.

(* ===================================================================== *)
(** * Running the store                                                   *)
(* ===================================================================== *)

Lemma run_findUnique (w : UserWhere) (st : State) :
  Prisma.user_findUnique w st =
  (Return (Prisma.lookup w (db st)),
   mkState (db st) (calls st ++ [UserFindUnique w])).
Proof. reflexivity. Qed.

Lemma run_findFirst (w : UserWhere) (st : State) :
  Prisma.user_findFirst w st =
  (Return (Prisma.lookup w (db st)),
   mkState (db st) (calls st ++ [UserFindFirst w])).
Proof. reflexivity. Qed.

Lemma run_update_found (w : UserWhere) (p : UserPatch) (st : State) :
  existsb (Prisma.matches w) (users (db st)) = true ->
  Prisma.user_update w p st =
  (Return tt,
   mkState (mkDb (Prisma.updated w p (users (db st))) (emailVerifications (db st)))
           (calls st ++ [UserUpdate w p])).
Proof.
  intros H. unfold Prisma.user_update, bind, call, get_db, put_db.
  cbn [db calls]. now rewrite H.
Qed.

Lemma run_update_missing (w : UserWhere) (p : UserPatch) (st : State) :
  existsb (Prisma.matches w) (users (db st)) = false ->
  Prisma.user_update w p st =
  (Throw (PrismaError "P2025"), mkState (db st) (calls st ++ [UserUpdate w p])).
Proof.
  intros H. unfold Prisma.user_update, bind, call, get_db, throw.
  cbn [db calls]. now rewrite H.
Qed.

Lemma run_create_fresh (row : User) (st : State) :
  existsb (Prisma.collides row) (users (db st)) = false ->
  Prisma.user_create row st =
  (Return row,
   mkState (mkDb (users (db st) ++ [row]) (emailVerifications (db st)))
           (calls st ++ [UserCreate row])).
Proof.
  intros H. unfold Prisma.user_create, bind, call, get_db, put_db, ret.
  cbn [db calls]. now rewrite H.
Qed.

Lemma run_create_collision (row : User) (st : State) :
  existsb (Prisma.collides row) (users (db st)) = true ->
  Prisma.user_create row st =
  (Throw (PrismaError "P2002"), mkState (db st) (calls st ++ [UserCreate row])).
Proof.
  intros H. unfold Prisma.user_create, bind, call, get_db, throw.
  cbn [db calls]. now rewrite H.
Qed.

Lemma UserStatus_eqb_eq (a b : UserStatus) : UserStatus_eqb a b = true <-> a = b.
Proof. destruct a, b; cbn; split; intros H; (reflexivity || discriminate). Qed.

Lemma lookup_In (w : UserWhere) (d : Db) (u : User) :
  Prisma.lookup w d = Some u -> In u (users d) /\ Prisma.matches w u = true.
Proof. unfold Prisma.lookup. apply find_some. Qed.

(** A row the store has just returned can be addressed by its [id]. *)
Lemma lookup_found_by_id (w : UserWhere) (d : Db) (u : User) :
  Prisma.lookup w d = Some u ->
  existsb (Prisma.matches (W_id (id u))) (users d) = true.
Proof.
  intros H. apply lookup_In in H as [Hin _].
  apply existsb_exists. exists u. split; [exact Hin |].
  cbn [Prisma.matches]. apply String.eqb_refl.
Qed.

Lemma opt_string_eqb_None_r (o : option string) :
  Prisma.opt_string_eqb o None = false.
Proof. now destruct o. Qed.
(* ===================================================================== *)
(** * Token issuer                                                        *)
(* ===================================================================== *)

Section TokenIssuer.
Context {JWT : JsonWebToken}.

Lemma run_verifyAccessToken (e : Env) (token : string) (st : State) :
  verifyAccessToken e token st =
  (match jwt_verify token (JWT_SECRET e) (clock e) with
   | Some decoded => Return decoded
   | None => Throw (HttpError 401 "Invalid or expired access token")
   end,
   mkState (db st) (calls st ++ [JwtVerify token])).
Proof.
  unfold verifyAccessToken, bind, call, createError, throw, ret.
  now destruct (jwt_verify token (JWT_SECRET e) (clock e)).
Qed.

(** C1.  A token issued by [generateAccessToken] for the claims [c]
    and verified with [verifyAccessToken] under the same secrets
    before it expires (in particular at once) is accepted, and the
    claims returned carry the [userId], [email] and [role] of [c];
    a token issued by [generateRefreshToken], signed with the
    distinct refresh secret, is refused with 401 "Invalid or expired
    access token". *)
Theorem verifyAccessToken_generateAccessToken
    (e e' : Env) (c : AuthPayload) (st : State) :
  env_JWT_SECRET e' = env_JWT_SECRET e ->
  (clock e' < clock e + ACCESS_TOKEN_EXPIRY)%Z ->
  JWT_SECRET e <> JWT_REFRESH_SECRET e ->
  verifyAccessToken e' (generateAccessToken e c) st =
    (Return (mkTokenPayload (ap_userId c) (ap_email c) (ap_role c)
                            (Some (clock e))
                            (Some (clock e + ACCESS_TOKEN_EXPIRY)%Z)),
     mkState (db st) (calls st ++ [JwtVerify (generateAccessToken e c)]))
  /\ verifyAccessToken e' (generateRefreshToken e c) st =
    (Throw (HttpError 401 "Invalid or expired access token"),
     mkState (db st) (calls st ++ [JwtVerify (generateRefreshToken e c)])).
Proof.
  intros Hsecret Hclock Hdistinct.
  assert (K : JWT_SECRET e' = JWT_SECRET e)
    by (unfold JWT_SECRET; now rewrite Hsecret).
  split; rewrite run_verifyAccessToken, K.
  - unfold generateAccessToken. rewrite jwt_verify_sign.
    apply Z.ltb_lt in Hclock. now rewrite Hclock.
  - unfold generateRefreshToken.
    rewrite jwt_verify_other_key by (intros E; apply Hdistinct; now symmetry).
    reflexivity.
Qed.

End TokenIssuer.

Lemma verifyAccessToken_generateAccessToken_witness :
  fst (@verifyAccessToken reference_jwt (Reference.env 1700000000000)
         (@generateAccessToken reference_jwt (Reference.env 1700000000000)
            (mkAuthPayload "u1" "a@x.com" CUSTOMER))
         (Reference.state_of [])) =
    Return (mkTokenPayload "u1" "a@x.com" CUSTOMER
                           (Some 1700000000%Z) (Some 1700086400%Z))
  /\ fst (@verifyAccessToken reference_jwt (Reference.env 1700000000000)
            (@generateRefreshToken reference_jwt (Reference.env 1700000000000)
               (mkAuthPayload "u1" "a@x.com" CUSTOMER))
            (Reference.state_of [])) =
    Throw (HttpError 401 "Invalid or expired access token").
Proof.
  destruct (@verifyAccessToken_generateAccessToken reference_jwt
              (Reference.env 1700000000000) (Reference.env 1700000000000)
              (mkAuthPayload "u1" "a@x.com" CUSTOMER) (Reference.state_of []))
    as [H1 H2].
  - reflexivity.
  - vm_compute. reflexivity.
  - vm_compute. discriminate.
  - rewrite H1, H2. split; reflexivity.
Defined.
(* ===================================================================== *)
(** * Bearer tokens                                                       *)
(* ===================================================================== *)

Lemma substring_prefix (p t : string) :
  JS.substring (p ++ t) (String.length p) = t.
Proof. induction p as [| c p IH]; [now destruct t | exact IH]. Qed.

Lemma startsWith_app (p t : string) : JS.startsWith (p ++ t) p = true.
Proof.
  unfold JS.startsWith.
  induction p as [| c p IH]; cbn [append].
  - now destruct t.
  - cbn [prefix]. destruct (ascii_dec c c) as [_ | N]; [exact IH | now elim N].
Qed.

Lemma startsWith_split (s p : string) :
  JS.startsWith s p = true -> s = p ++ JS.substring s (String.length p).
Proof.
  unfold JS.startsWith. revert s.
  induction p as [| c p IH]; intros s H; cbn [append String.length].
  - now destruct s.
  - destruct s as [| c' s]; cbn [prefix] in H; [discriminate |].
    destruct (ascii_dec c c') as [-> | _]; [| discriminate].
    cbn [JS.substring]. f_equal. now apply IH.
Qed.

Section Bearer.
Context {JWT : JsonWebToken}.

(** C10.  [extractTokenFromHeader] is [null] for a header that is
    undefined or does not start with ["Bearer "] (the bare scheme, another
    scheme and another casing included), and otherwise is the header
    without its first 7 characters; [authenticate] answers a request
    whose header does not start with ["Bearer "] with 401 "Access token
    is required" and makes no call, so that no token is verified. *)
Theorem extractTokenFromHeader_bearer :
  extractTokenFromHeader None = None
  /\ (forall h, JS.startsWith h "Bearer " = false ->
                extractTokenFromHeader (Some h) = None)
  /\ (forall h, JS.startsWith h "Bearer " = true ->
                extractTokenFromHeader (Some h) = Some (JS.substring h 7)
                /\ h = "Bearer " ++ JS.substring h 7)
  /\ (forall t, extractTokenFromHeader (Some ("Bearer " ++ t)) = Some t)
  /\ extractTokenFromHeader (Some "Bearer") = None
  /\ extractTokenFromHeader (Some "Basic dXNlcjpwdw==") = None
  /\ extractTokenFromHeader (Some "bearer abc") = None
  /\ (forall e h st,
        (h = None \/ exists s, h = Some s /\ JS.startsWith s "Bearer " = false) ->
        authenticate e h st =
        (Throw (HttpError 401 "Access token is required"), st)).
Proof.
  assert (A : forall h, JS.startsWith h "Bearer " = false ->
                        extractTokenFromHeader (Some h) = None).
  { intros h H. unfold extractTokenFromHeader. rewrite H.
    now rewrite orb_true_r. }
  assert (B : forall h, JS.startsWith h "Bearer " = true ->
                        extractTokenFromHeader (Some h) = Some (JS.substring h 7)).
  { intros h H. unfold extractTokenFromHeader. rewrite H.
    destruct h as [| c h]; [discriminate | reflexivity]. }
  repeat split; try reflexivity; try assumption.
  - now apply B.
  - now apply (startsWith_split h "Bearer ").
  - intros t. rewrite B by apply (startsWith_app "Bearer ").
    f_equal. apply (substring_prefix "Bearer ").
  - intros e h st [-> | [s [-> H]]]; unfold authenticate.
    + reflexivity.
    + now rewrite (A s H).
Qed.

End Bearer.

Lemma extractTokenFromHeader_bearer_witness :
  extractTokenFromHeader (Some "Token abc") = None
  /\ extractTokenFromHeader (Some "Bearer abc.def") = Some "abc.def"
  /\ @authenticate reference_jwt (Reference.env 0) (Some "Token abc")
                   (mkState (mkDb [] []) []) =
     (Throw (HttpError 401 "Access token is required"), mkState (mkDb [] []) []).
Proof.
  destruct (@extractTokenFromHeader_bearer reference_jwt) as (_ & A & B & _ & _ & _ & _ & C).
  split; [apply A; reflexivity |].
  split; [apply (B "Bearer abc.def"); reflexivity |].
  apply C. right. exists "Token abc". split; reflexivity.
Defined.
(* ===================================================================== *)
(** * login                                                               *)
(* ===================================================================== *)

Section Login.
Context {BC : Bcrypt} {JWT : JsonWebToken}.

(** C2.  When the account stored under the email has a password hash
    that verifies against the supplied password and its status is not
    ACTIVE, [login] fails with 403 "Account is not active" after the
    single lookup, writing nothing; and [login] answers 403 only in
    that case: the status is looked at after the account was found,
    its hash was present and the password verified. *)
Theorem login_inactive_is_forbidden
    (e : Env) (body : LoginRequest) (st : State) :
  (forall u h,
      Prisma.lookup (W_email (lr_email body)) (db st) = Some u ->
      passwordHash u = Some h ->
      JS.truthy h = true ->
      comparePassword (lr_password body) h = true ->
      status u <> ACTIVE ->
      login e body st =
      (Next (HttpError 403 "Account is not active"),
       mkState (db st) (calls st ++ [UserFindUnique (W_email (lr_email body))])))
  /\ (fst (login e body st) = Next (HttpError 403 "Account is not active") ->
      exists u h,
        Prisma.lookup (W_email (lr_email body)) (db st) = Some u
        /\ passwordHash u = Some h
        /\ JS.truthy h = true
        /\ comparePassword (lr_password body) h = true
        /\ status u <> ACTIVE).
Proof.
  split.
  - intros u h Hfind Hhash Htruthy Hcmp Hstatus.
    unfold login, handler, bind. rewrite run_findUnique, Hfind, Hhash.
    cbn [JS.truthy_opt]. rewrite Htruthy, Hcmp. cbn [negb].
    destruct (UserStatus_eqb (status u) ACTIVE) eqn:E; [| reflexivity].
    apply UserStatus_eqb_eq in E. contradiction.
  - unfold login, handler, bind. rewrite run_findUnique.
    destruct (Prisma.lookup (W_email (lr_email body)) (db st)) as [u |] eqn:Hfind;
      [| discriminate].
    destruct (passwordHash u) as [h |] eqn:Hhash; cbn [JS.truthy_opt negb];
      [| discriminate].
    destruct (JS.truthy h) eqn:Htruthy; cbn [negb]; [| discriminate].
    destruct (comparePassword (lr_password body) h) eqn:Hcmp; cbn [negb];
      [| discriminate].
    destruct (UserStatus_eqb (status u) ACTIVE) eqn:E; cbn [negb].
    + rewrite run_update_found by (cbn [db]; now apply (lookup_found_by_id _ _ _ Hfind)).
      discriminate.
    + intros _. exists u, h. repeat split; try assumption.
      intros A. rewrite A in E. discriminate.
Qed.

End Login.

Lemma login_inactive_is_forbidden_witness :
  @login Reference.bcrypt reference_jwt (Reference.env 1000)
         (mkLoginRequest "b@x.com" "Password2")
         (Reference.state_of [Reference.alice; Reference.bob]) =
  (Next (HttpError 403 "Account is not active"),
   mkState (mkDb [Reference.alice; Reference.bob] [])
           [UserFindUnique (W_email "b@x.com")]).
Proof.
  apply (proj1 (@login_inactive_is_forbidden Reference.bcrypt reference_jwt
                  (Reference.env 1000) (mkLoginRequest "b@x.com" "Password2")
                  (Reference.state_of [Reference.alice; Reference.bob]))
               Reference.bob "salt$Password2").
  - reflexivity.
  - reflexivity.
  - reflexivity.
  - reflexivity.
  - discriminate.
Defined.
(* ===================================================================== *)
(** * Password reset                                                      *)
(* ===================================================================== *)

Lemma opt_string_eqb_Some (o : option string) (v : string) :
  Prisma.opt_string_eqb o (Some v) = true <-> o = Some v.
Proof.
  destruct o as [x |]; cbn [Prisma.opt_string_eqb].
  - rewrite String.eqb_eq. split; [now intros -> | now intros [= ->]].
  - split; discriminate.
Qed.

Lemma run_sendPasswordResetEmail (e : Env) (to url : string) (h : nat) (st : State) :
  EmailService.sendPasswordResetEmail e to url h st =
  (Return (smtp_ok e),
   mkState (db st) (calls st ++ [SendMail to "Reset your password - e-Curuza"])).
Proof.
  unfold EmailService.sendPasswordResetEmail, EmailService.sendMail,
    try_catch, bind, call.
  now destruct (smtp_ok e).
Qed.

Lemma run_sendPasswordChangeConfirmationEmail (e : Env) (to n : string) (st : State) :
  EmailService.sendPasswordChangeConfirmationEmail e to n st =
  (Return (smtp_ok e),
   mkState (db st)
           (calls st ++ [SendMail to "Password changed successfully - e-Curuza"])).
Proof.
  unfold EmailService.sendPasswordChangeConfirmationEmail, EmailService.sendMail,
    try_catch, bind, call.
  now destruct (smtp_ok e).
Qed.

Section Reset.
Context {BC : Bcrypt} {SHA : Sha256} {CFG : AuthConfig}.

(** What [forgotPassword] answers to any request with a non-empty
    email. *)
Lemma forgotPassword_reply (e : Env) (email : string) (st : State) :
  JS.truthy email = true ->
  fst (forgotPassword e (Some email) st) =
  Json 200 (mkApiResponse SUCCESS
              "If an account exists, a reset link will be sent" None (now e)).
Proof.
  intros H. unfold forgotPassword, handler, bind. rewrite H. cbn [negb].
  rewrite run_findUnique.
  destruct (Prisma.lookup (W_email email) (db st)) as [u |] eqn:Hfind;
    [| reflexivity].
  rewrite run_update_found
    by (cbn [db]; now apply (lookup_found_by_id _ _ _ Hfind)).
  rewrite run_sendPasswordResetEmail. reflexivity.
Qed.

(** C4.  Of two [forgotPassword] requests with non-empty emails, one
    for an email under which an account is stored and one for an
    email under which none is, both are answered with 200 and the
    same message, with no data, whether or not the mail relay
    accepted the message of the first. *)
Theorem forgotPassword_does_not_reveal_accounts
    (e1 e2 : Env) (email1 email2 : string) (st1 st2 : State) :
  JS.truthy email1 = true ->
  JS.truthy email2 = true ->
  Prisma.lookup (W_email email1) (db st1) <> None ->
  Prisma.lookup (W_email email2) (db st2) = None ->
  fst (forgotPassword e1 (Some email1) st1) =
    Json 200 (mkApiResponse SUCCESS
                "If an account exists, a reset link will be sent" None (now e1))
  /\ fst (forgotPassword e2 (Some email2) st2) =
    Json 200 (mkApiResponse SUCCESS
                "If an account exists, a reset link will be sent" None (now e2))
  /\ (now e1 = now e2 ->
      fst (forgotPassword e1 (Some email1) st1) =
      fst (forgotPassword e2 (Some email2) st2)).
Proof.
  intros H1 H2 _ _.
  rewrite (forgotPassword_reply e1 email1 st1 H1),
          (forgotPassword_reply e2 email2 st2 H2).
  repeat split. now intros ->.
Qed.

(** C3.  With a non-empty token and a non-empty new password,
    [resetPassword] makes one query, for a row whose stored hash is
    the hash of the token and whose expiry is later than now.  When
    there is none it fails with 400 "Invalid or expired reset token"
    and writes nothing; otherwise it makes one update, which sets the
    new password hash and sets the reset-token hash and its expiry to
    null together.  In particular, for an account that holds the
    hash of the token, alone, with an expiry that is not in the
    future, the exact token is refused and the store is unchanged. *)
Theorem resetPassword_consumes_unexpired_token_only
    (e : Env) (token newPassword : string) (st : State) :
  JS.truthy token = true ->
  JS.truthy newPassword = true ->
  let q := W_AND (W_resetPasswordToken (hashResetToken token))
                 (W_resetPasswordExpires_gt (now e)) in
  let h := hashPassword e newPassword in
  resetPassword e (Some token) (Some newPassword) st =
    match Prisma.lookup q (db st) with
    | None =>
        (Next (HttpError 400 "Invalid or expired reset token"),
         mkState (db st) (calls st ++ [UserFindFirst q]))
    | Some u =>
        (Json 200 (mkApiResponse SUCCESS
                     "Password has been reset successfully" None (now e)),
         mkState (mkDb (Prisma.updated (W_id (id u)) (set_password_clear_reset h)
                                       (users (db st)))
                       (emailVerifications (db st)))
                 (calls st ++ [UserFindFirst q;
                               UserUpdate (W_id (id u)) (set_password_clear_reset h);
                               SendMail (email u)
                                        "Password changed successfully - e-Curuza"]))
    end
  /\ (forall u,
        let u' := Prisma.apply_patch (set_password_clear_reset h) u in
        passwordHash u' = Some h
        /\ resetPasswordToken u' = None
        /\ resetPasswordExpires u' = None)
  /\ (forall u expires,
        In u (users (db st)) ->
        resetPasswordToken u = Some (hashResetToken token) ->
        resetPasswordExpires u = Some expires ->
        (expires <= now e)%Z ->
        (forall u', In u' (users (db st)) ->
                    resetPasswordToken u' = Some (hashResetToken token) ->
                    u' = u) ->
        resetPassword e (Some token) (Some newPassword) st =
        (Next (HttpError 400 "Invalid or expired reset token"),
         mkState (db st) (calls st ++ [UserFindFirst q]))).
Proof.
  intros Ht Hp q h.
  assert (R : resetPassword e (Some token) (Some newPassword) st =
    match Prisma.lookup q (db st) with
    | None =>
        (Next (HttpError 400 "Invalid or expired reset token"),
         mkState (db st) (calls st ++ [UserFindFirst q]))
    | Some u =>
        (Json 200 (mkApiResponse SUCCESS
                     "Password has been reset successfully" None (now e)),
         mkState (mkDb (Prisma.updated (W_id (id u)) (set_password_clear_reset h)
                                       (users (db st)))
                       (emailVerifications (db st)))
                 (calls st ++ [UserFindFirst q;
                               UserUpdate (W_id (id u)) (set_password_clear_reset h);
                               SendMail (email u)
                                        "Password changed successfully - e-Curuza"]))
    end).
  { unfold resetPassword, handler, bind. rewrite Ht, Hp. cbn [negb orb].
    rewrite run_findFirst. fold q.
    destruct (Prisma.lookup q (db st)) as [u |] eqn:Hfind; [| reflexivity].
    rewrite run_update_found
      by (cbn [db]; now apply (lookup_found_by_id _ _ _ Hfind)).
    rewrite run_sendPasswordChangeConfirmationEmail.
    cbn [db calls]. rewrite <- !app_assoc. reflexivity. }
  split; [exact R |]. split; [intros u; repeat split |].
  intros u expires Hin Htok Hexp Hle Hunique. rewrite R.
  destruct (Prisma.lookup q (db st)) as [u' |] eqn:Hfind; [| reflexivity].
  exfalso. apply lookup_In in Hfind as [Hin' Hm].
  unfold q in Hm. cbn [Prisma.matches] in Hm.
  apply andb_prop in Hm as [Hm1 Hm2].
  apply opt_string_eqb_Some in Hm1.
  rewrite (Hunique u' Hin' Hm1), Hexp in Hm2.
  apply Z.ltb_lt in Hm2. lia.
Qed.

End Reset.

Lemma forgotPassword_does_not_reveal_accounts_witness :
  fst (@forgotPassword Reference.sha256 Reference.config
         (Reference.env_mail_down 1000) (Some "a@x.com")
         (Reference.state_of [Reference.alice])) =
  fst (@forgotPassword Reference.sha256 Reference.config
         (Reference.env 1000) (Some "nonexistent@x.com")
         (Reference.state_of [Reference.alice])).
Proof.
  apply (@forgotPassword_does_not_reveal_accounts
           Reference.sha256 Reference.config
           (Reference.env_mail_down 1000) (Reference.env 1000)
           "a@x.com" "nonexistent@x.com"
           (Reference.state_of [Reference.alice])
           (Reference.state_of [Reference.alice])).
  - reflexivity.
  - reflexivity.
  - discriminate.
  - reflexivity.
  - reflexivity.
Defined.

Lemma resetPassword_consumes_unexpired_token_only_witness :
  @resetPassword Reference.bcrypt Reference.sha256
     (Reference.env 1000) (Some "tok123") (Some "NewPassword1")
     (Reference.state_of [Reference.alice; Reference.carol]) =
  (Next (HttpError 400 "Invalid or expired reset token"),
   mkState (mkDb [Reference.alice; Reference.carol] [])
           [UserFindFirst (W_AND (W_resetPasswordToken "sha256:tok123")
                                 (W_resetPasswordExpires_gt 1000))]).
Proof.
  apply (proj2 (proj2 (@resetPassword_consumes_unexpired_token_only
                         Reference.bcrypt Reference.sha256
                         (Reference.env 1000) "tok123" "NewPassword1"
                         (Reference.state_of [Reference.alice; Reference.carol])
                         eq_refl eq_refl))
               Reference.carol 500%Z).
  - right. left. reflexivity.
  - reflexivity.
  - reflexivity.
  - cbn. lia.
  - intros u' [<- | [<- | []]] H; [discriminate H | reflexivity].
Defined.
(* ===================================================================== *)
(** * generateOTP                                                         *)
(* ===================================================================== *)

Lemma draw_bounds (r : N) :
  JS.randomInt_returns OtpTable.draw_min OtpTable.draw_max r ->
  (100000 <= r < 1000000)%N.
Proof.
  unfold JS.randomInt_returns.
  change OtpTable.draw_min with 100000%N.
  change OtpTable.draw_max with 999999%N. lia.
Qed.

Lemma generateOTP_of_all_digits (r : N) :
  JS.all_chars JS.is_digit (OtpTable.generateOTP_of r) = true.
Proof.
  unfold OtpTable.generateOTP_of, JS.padStart.
  rewrite all_chars_app, toString_all_digits, all_chars_repeat; reflexivity.
Qed.

Lemma generateOTP_of_six_digits (r : N) :
  (100000 <= r < 1000000)%N -> OtpTable.generateOTP_of r = JS.six_digits r.
Proof.
  intros H. unfold OtpTable.generateOTP_of.
  rewrite (toString_six_digits r H). now apply padStart_full.
Qed.

Lemma six_digits_no_leading_zero (r : N) (rest : string) :
  (100000 <= r < 1000000)%N -> JS.six_digits r <> String "0" rest.
Proof.
  intros H E. unfold JS.six_digits in E. injection E as E _.
  pose proof (div10_bounds r 10000 100000 ltac:(lia)) as B1.
  pose proof (div10_bounds (r / 10) 1000 10000 B1) as B2.
  pose proof (div10_bounds (r / 10 / 10) 100 1000 B2) as B3.
  pose proof (div10_bounds (r / 10 / 10 / 10) 10 100 B3) as B4.
  pose proof (div10_bounds (r / 10 / 10 / 10 / 10) 1 10 B4) as B5.
  rewrite N.mod_small in E by lia.
  change "0"%char with (JS.digit_char 0) in E.
  apply digit_char_inj in E; lia.
Qed.

(** C7, as the code has it.  For every integer [r] that
    [crypto.randomInt] can return between the bounds it is given,
    [generateOTP] (the same in both revisions) is the decimal rendering
    of [r], which [padStart] leaves as it is: six decimal digits, the
    first of which is not ["0"]; and two draws that give the same code
    are the same draw, so that a uniform draw gives every code it can
    give with the same probability. *)
Theorem generateOTP_six_digits_no_leading_zero (r : N) :
  JS.randomInt_returns OtpTable.draw_min OtpTable.draw_max r ->
  let code := OtpTable.generateOTP_of r in
  OtpUser.generateOTP_of r = code
  /\ code = JS.toString r
  /\ String.length code = 6%nat
  /\ JS.all_chars JS.is_digit code = true
  /\ (forall rest, code <> String "0" rest)
  /\ (forall r', JS.randomInt_returns OtpTable.draw_min OtpTable.draw_max r' ->
                 OtpTable.generateOTP_of r' = code -> r' = r).
Proof.
  intros H code. apply draw_bounds in H.
  split; [reflexivity |].
  split; [unfold code; rewrite generateOTP_of_six_digits by assumption;
          symmetry; now apply toString_six_digits |].
  split; [unfold code; now rewrite generateOTP_of_six_digits |].
  split; [apply generateOTP_of_all_digits |].
  split.
  - intros rest. unfold code. rewrite generateOTP_of_six_digits by assumption.
    now apply six_digits_no_leading_zero.
  - intros r' H' E. apply draw_bounds in H'. unfold code in E.
    rewrite !generateOTP_of_six_digits in E by assumption.
    now apply six_digits_inj.
Qed.

Lemma generateOTP_six_digits_no_leading_zero_witness :
  OtpTable.generateOTP_of 123456 = "123456"
  /\ forall rest, OtpTable.generateOTP_of 123456 <> String "0" rest.
Proof.
  assert (R : JS.randomInt_returns OtpTable.draw_min OtpTable.draw_max 123456)
    by (vm_compute; split; [discriminate | reflexivity]).
  destruct (generateOTP_six_digits_no_leading_zero 123456 R)
    as (_ & _ & _ & _ & Z & _).
  split; [reflexivity | exact Z].
Defined.

(** C7, as the claim has it, fails: no code that can be generated
    begins with ["0"]; in particular ["000000"] is never generated. *)
Lemma generateOTP_never_starts_with_zero :
  ~ (exists r rest,
        JS.randomInt_returns OtpTable.draw_min OtpTable.draw_max r
        /\ OtpTable.generateOTP_of r = String "0" rest).
Proof.
  intros (r & rest & H & E). apply draw_bounds in H.
  rewrite generateOTP_of_six_digits in E by assumption.
  now apply six_digits_no_leading_zero in E.
Qed.
(* ===================================================================== *)
(** * One-time-code store                                                 *)
(* ===================================================================== *)

(** ** First revision: table [EmailVerification] *)

Lemma run_table_createOrUpdateOTP (e : Env) (email : string) (st : State) :
  let rest := filter (Prisma.other_email email) (emailVerifications (db st)) in
  let row := mkEmailVerification (fresh_id e) email (OtpTable.generateOTP e)
                                 (OtpTable.getOTPExpiry e) in
  let log := (calls st ++ [OtpDeleteMany email; OtpCreate row])%list in
  OtpTable.createOrUpdateOTP e email st =
  if existsb (Prisma.has_id (fresh_id e)) rest
  then (Throw (PrismaError "P2002"), mkState (mkDb (users (db st)) rest) log)
  else (Return (OtpTable.generateOTP e, OtpTable.getOTPExpiry e),
        mkState (mkDb (users (db st)) (rest ++ [row])) log).
Proof.
  intros rest row log.
  unfold OtpTable.createOrUpdateOTP, Prisma.otp_deleteMany, Prisma.otp_create,
    bind, call, get_db, put_db, ret, throw.
  cbn [db calls users emailVerifications ev_id]. fold rest. fold row.
  unfold log. rewrite <- !app_assoc. cbn [app].
  now destruct (existsb (Prisma.has_id (fresh_id e)) rest).
Qed.

Lemma run_otp_findFirst (email code : string) (st : State) :
  Prisma.otp_findFirst email code st =
  (Return (find (Prisma.email_and_code email code) (emailVerifications (db st))),
   mkState (db st) (calls st ++ [OtpFindFirst email code])).
Proof. reflexivity. Qed.

Lemma run_otp_delete_found (i : string) (st : State) :
  existsb (Prisma.has_id i) (emailVerifications (db st)) = true ->
  Prisma.otp_delete i st =
  (Return tt,
   mkState (mkDb (users (db st))
                 (filter (Prisma.other_id i) (emailVerifications (db st))))
           (calls st ++ [OtpDelete i])).
Proof.
  intros H. unfold Prisma.otp_delete, bind, call, get_db, put_db.
  cbn [db calls]. now rewrite H.
Qed.

Lemma run_table_verifyOTP (e : Env) (email code : string) (st : State) :
  OtpTable.verifyOTP e email code st =
  match find (Prisma.email_and_code email code) (emailVerifications (db st)) with
  | None => (Return false, mkState (db st) (calls st ++ [OtpFindFirst email code]))
  | Some v =>
      (Return (negb (ev_expiresAt v <? now e)%Z),
       mkState (mkDb (users (db st))
                     (filter (Prisma.other_id (ev_id v)) (emailVerifications (db st))))
               (calls st ++ [OtpFindFirst email code; OtpDelete (ev_id v)]))
  end.
Proof.
  unfold OtpTable.verifyOTP, bind. rewrite run_otp_findFirst.
  destruct (find (Prisma.email_and_code email code) (emailVerifications (db st)))
    as [v |] eqn:F; [| reflexivity].
  assert (X : existsb (Prisma.has_id (ev_id v)) (emailVerifications (db st)) = true).
  { apply existsb_exists. exists v. split; [| apply String.eqb_refl].
    now apply find_some in F. }
  destruct (ev_expiresAt v <? now e)%Z;
    rewrite run_otp_delete_found by exact X;
    cbn [db calls negb]; rewrite <- !app_assoc; reflexivity.
Qed.

Lemma find_email_and_code_none (email code c x : string) (t : Z)
      (l : list EmailVerification) :
  c <> code ->
  find (Prisma.email_and_code email code)
       (filter (Prisma.other_email email) l ++ [mkEmailVerification x email c t]) = None.
Proof.
  intros H.
  destruct (find _ _) as [v |] eqn:F; [exfalso | reflexivity].
  apply find_some in F as [Hin Hm].
  unfold Prisma.email_and_code in Hm. apply andb_prop in Hm as [Hm1 Hm2].
  apply in_app_or in Hin as [Hin | [<- | []]].
  - apply filter_In in Hin as [_ Hne]. unfold Prisma.other_email in Hne.
    now rewrite Hm1 in Hne.
  - cbn [ev_code] in Hm2. now apply String.eqb_eq in Hm2.
Qed.

Lemma filter_email_after_issue (email : string) (row : EmailVerification)
      (l : list EmailVerification) :
  ev_email row = email ->
  filter (fun r => ev_email r =? email) (filter (Prisma.other_email email) l ++ [row])
  = [row].
Proof.
  intros H. rewrite filter_app. cbn [filter]. rewrite H, String.eqb_refl.
  replace (filter (fun r => ev_email r =? email) (filter (Prisma.other_email email) l))
    with (@nil EmailVerification); [reflexivity |].
  induction l as [| r l IH]; cbn [filter]; [reflexivity |].
  unfold Prisma.other_email at 1.
  destruct (ev_email r =? email) eqn:E; cbn [negb filter]; [exact IH |].
  now rewrite E.
Qed.

(** ** Second revision: two fields of the user row *)

Lemma lookup_email_updated (em : string) (w : UserWhere) (p : UserPatch)
      (l : list User) (evs evs' : list EmailVerification) :
  Prisma.lookup (W_email em) (mkDb (Prisma.updated w p l) evs') =
  option_map (fun u => if Prisma.matches w u then Prisma.apply_patch p u else u)
             (Prisma.lookup (W_email em) (mkDb l evs)).
Proof.
  unfold Prisma.lookup, Prisma.updated. cbn [users].
  induction l as [| u l IH]; cbn [map find]; [reflexivity |].
  assert (E : Prisma.matches (W_email em)
                (if Prisma.matches w u then Prisma.apply_patch p u else u)
              = Prisma.matches (W_email em) u)
    by now destruct (Prisma.matches w u).
  rewrite E. destruct (Prisma.matches (W_email em) u); [reflexivity | exact IH].
Qed.

Lemma run_user_createOrUpdateOTP (e : Env) (email : string) (st : State) :
  OtpUser.createOrUpdateOTP e email st =
  match Prisma.lookup (W_email email) (db st) with
  | None =>
      (Throw (PlainError "User not found"),
       mkState (db st) (calls st ++ [UserFindUnique (W_email email)]))
  | Some u =>
      let p := OtpUser.set_code (Some (OtpUser.generateOTP e))
                                (Some (OtpUser.getOTPExpiry e)) in
      (Return (OtpUser.generateOTP e, OtpUser.getOTPExpiry e),
       mkState (mkDb (Prisma.updated (W_id (id u)) p (users (db st)))
                     (emailVerifications (db st)))
               (calls st ++ [UserFindUnique (W_email email);
                             UserUpdate (W_id (id u)) p]))
  end.
Proof.
  unfold OtpUser.createOrUpdateOTP, bind. rewrite run_findUnique.
  destruct (Prisma.lookup (W_email email) (db st)) as [u |] eqn:F;
    [| reflexivity].
  rewrite run_update_found by (cbn [db]; now apply (lookup_found_by_id _ _ _ F)).
  cbn [db calls]. rewrite <- !app_assoc. reflexivity.
Qed.

(** The row under [email] once a code has been issued. *)
Lemma lookup_after_issue (e : Env) (email : string) (st : State) (u : User) :
  Prisma.lookup (W_email email) (db st) = Some u ->
  Prisma.lookup (W_email email)
    (mkDb (Prisma.updated (W_id (id u))
             (OtpUser.set_code (Some (OtpUser.generateOTP e))
                               (Some (OtpUser.getOTPExpiry e)))
             (users (db st)))
          (emailVerifications (db st))) =
  Some (Prisma.apply_patch
          (OtpUser.set_code (Some (OtpUser.generateOTP e))
                            (Some (OtpUser.getOTPExpiry e))) u).
Proof.
  intros F.
  rewrite (lookup_email_updated _ _ _ _ (emailVerifications (db st))).
  destruct (db st) as [us evs]. cbn [users emailVerifications] in *.
  rewrite F. cbn [option_map Prisma.matches]. now rewrite String.eqb_refl.
Qed.

Lemma run_user_verifyOTP_mismatch (e : Env) (email code : string) (st : State)
      (u : User) (stored : string) :
  Prisma.lookup (W_email email) (db st) = Some u ->
  emailVerificationCode u = Some stored ->
  JS.trim code <> JS.trim stored ->
  OtpUser.verifyOTP e email code st =
  (Return false, mkState (db st) (calls st ++ [UserFindUnique (W_email email)])).
Proof.
  intros F C N. unfold OtpUser.verifyOTP, bind.
  rewrite run_findUnique, F, C.
  destruct (emailVerificationExpires u); [| reflexivity].
  destruct (JS.truthy stored); cbn [negb]; [| reflexivity].
  apply String.eqb_neq in N. now rewrite N.
Qed.

(** C5.  In both revisions, once [createOrUpdateOTP] has returned a
    code for an email, the store holds that code and no other for the
    email, and [verifyOTP] returns false, writing nothing, for every
    other code (in the second revision, which compares trimmed codes:
    for every other code that [generateOTP] can produce). *)
Theorem createOrUpdateOTP_supersedes_previous_code :
  (forall e e' email st code expiresAt st' old,
      OtpTable.createOrUpdateOTP e email st = (Return (code, expiresAt), st') ->
      old <> code ->
      filter (fun r => ev_email r =? email) (emailVerifications (db st'))
      = [mkEmailVerification (fresh_id e) email code expiresAt]
      /\ OtpTable.verifyOTP e' email old st' =
         (Return false,
          mkState (db st') (calls st' ++ [OtpFindFirst email old])))
  /\ (forall e e' email st code expiresAt st' r_old,
      OtpUser.createOrUpdateOTP e email st = (Return (code, expiresAt), st') ->
      OtpUser.generateOTP_of r_old <> code ->
      (exists u, Prisma.lookup (W_email email) (db st') = Some u
                 /\ emailVerificationCode u = Some code
                 /\ emailVerificationExpires u = Some expiresAt)
      /\ OtpUser.verifyOTP e' email (OtpUser.generateOTP_of r_old) st' =
         (Return false,
          mkState (db st') (calls st' ++ [UserFindUnique (W_email email)]))).
Proof.
  split.
  - intros e e' email st code expiresAt st' old H N.
    rewrite run_table_createOrUpdateOTP in H.
    destruct (existsb _ _); [discriminate |].
    injection H as <- <- <-. cbn [db emailVerifications].
    split; [now apply filter_email_after_issue |].
    rewrite run_table_verifyOTP. cbn [db emailVerifications].
    rewrite find_email_and_code_none by (intros E; now apply N).
    reflexivity.
  - intros e e' email st code expiresAt st' r_old H N.
    rewrite run_user_createOrUpdateOTP in H.
    destruct (Prisma.lookup (W_email email) (db st)) as [u |] eqn:F;
      [| discriminate].
    injection H as <- <- <-. cbn [db].
    pose proof (lookup_after_issue e email st u F) as L.
    split.
    + eexists. split; [exact L |]. split; reflexivity.
    + eapply run_user_verifyOTP_mismatch; [exact L | reflexivity |].
      rewrite (trim_digits (OtpUser.generateOTP_of r_old))
        by apply generateOTP_of_all_digits.
      rewrite (trim_digits (OtpUser.generateOTP e))
        by apply generateOTP_of_all_digits.
      exact N.
Qed.

Lemma createOrUpdateOTP_supersedes_previous_code_witness :
  fst (OtpTable.verifyOTP Reference.env_later "a@x.com" "123456"
         (snd (OtpTable.createOrUpdateOTP Reference.env_later "a@x.com"
                 (mkState (mkDb [] [Reference.code_for_alice]) []))))
  = Return false
  /\ fst (OtpUser.verifyOTP Reference.env_later "d@x.com"
            (OtpUser.generateOTP_of 123456)
            (snd (OtpUser.createOrUpdateOTP Reference.env_later "d@x.com"
                    (Reference.state_of [Reference.dave]))))
  = Return false.
Proof.
  destruct createOrUpdateOTP_supersedes_previous_code as [T U].
  split.
  - destruct (T Reference.env_later Reference.env_later "a@x.com"
                (mkState (mkDb [] [Reference.code_for_alice]) [])
                "654321" 121500%Z
                (snd (OtpTable.createOrUpdateOTP Reference.env_later "a@x.com"
                        (mkState (mkDb [] [Reference.code_for_alice]) [])))
                "123456") as [_ V].
    + reflexivity.
    + discriminate.
    + now rewrite V.
  - destruct (U Reference.env_later Reference.env_later "d@x.com"
                (Reference.state_of [Reference.dave])
                "654321" 601500%Z
                (snd (OtpUser.createOrUpdateOTP Reference.env_later "d@x.com"
                        (Reference.state_of [Reference.dave])))
                123456%N) as [_ V].
    + reflexivity.
    + vm_compute. discriminate.
    + now rewrite V.
Defined.

(** C6, as the code has it.  In the second revision a [verifyOTP] that
    returns true makes one lookup and leaves the store as it was, so
    that the caller has to call [deleteOTP]; in the first revision a
    [verifyOTP] that returns true has deleted the row it matched.  On
    the expired path both revisions return false and clear the code:
    the first deletes the row, the second sets both fields of the user
    row to null. *)
Theorem verifyOTP_consumption_by_revision :
  (forall e email code st st',
      OtpUser.verifyOTP e email code st = (Return true, st') ->
      db st' = db st
      /\ calls st' = (calls st ++ [UserFindUnique (W_email email)])%list)
  /\ (forall e email code st st',
      OtpTable.verifyOTP e email code st = (Return true, st') ->
      exists v,
        find (Prisma.email_and_code email code) (emailVerifications (db st)) = Some v
        /\ emailVerifications (db st') =
           filter (Prisma.other_id (ev_id v)) (emailVerifications (db st))
        /\ ~ In v (emailVerifications (db st')))
  /\ (forall e email code st v,
      find (Prisma.email_and_code email code) (emailVerifications (db st)) = Some v ->
      (ev_expiresAt v < now e)%Z ->
      OtpTable.verifyOTP e email code st =
      (Return false,
       mkState (mkDb (users (db st))
                     (filter (Prisma.other_id (ev_id v)) (emailVerifications (db st))))
               (calls st ++ [OtpFindFirst email code; OtpDelete (ev_id v)])))
  /\ (forall e email code st u stored expires,
      Prisma.lookup (W_email email) (db st) = Some u ->
      emailVerificationCode u = Some stored ->
      emailVerificationExpires u = Some expires ->
      JS.truthy stored = true ->
      JS.trim code = JS.trim stored ->
      (expires < now e)%Z ->
      OtpUser.verifyOTP e email code st =
      (Return false,
       mkState (mkDb (Prisma.updated (W_id (id u)) (OtpUser.set_code None None)
                                     (users (db st)))
                     (emailVerifications (db st)))
               (calls st ++ [UserFindUnique (W_email email);
                             UserUpdate (W_id (id u)) (OtpUser.set_code None None)]))
      /\ emailVerificationCode
           (Prisma.apply_patch (OtpUser.set_code None None) u) = None
      /\ emailVerificationExpires
           (Prisma.apply_patch (OtpUser.set_code None None) u) = None).
Proof.
  split; [| split; [| split]].
  - intros e email code st st' H.
    unfold OtpUser.verifyOTP, bind in H. rewrite run_findUnique in H.
    destruct (Prisma.lookup (W_email email) (db st)) as [u |] eqn:F;
      [| discriminate].
    destruct (emailVerificationCode u) as [stored |]; [| discriminate].
    destruct (emailVerificationExpires u) as [expires |]; [| discriminate].
    destruct (JS.truthy stored); cbn [negb] in H; [| discriminate].
    destruct (JS.trim code =? JS.trim stored); cbn [negb] in H; [| discriminate].
    destruct (expires <? now e)%Z.
    + rewrite run_update_found in H
        by (cbn [db]; now apply (lookup_found_by_id _ _ _ F)).
      discriminate.
    + injection H as <-. split; reflexivity.
  - intros e email code st st' H. rewrite run_table_verifyOTP in H.
    destruct (find (Prisma.email_and_code email code) (emailVerifications (db st)))
      as [v |] eqn:F; [| discriminate].
    injection H as _ <-. exists v. cbn [db emailVerifications].
    repeat split. intros Hin. apply filter_In in Hin as [_ Hid].
    unfold Prisma.other_id, Prisma.has_id in Hid.
    now rewrite String.eqb_refl in Hid.
  - intros e email code st v F X. rewrite run_table_verifyOTP, F.
    apply Z.ltb_lt in X. now rewrite X.
  - intros e email code st u stored expires F C X T E L.
    repeat split.
    unfold OtpUser.verifyOTP, bind. rewrite run_findUnique, F, C, X, T, E.
    rewrite String.eqb_refl. apply Z.ltb_lt in L. rewrite L. cbn [negb].
    rewrite run_update_found
      by (cbn [db]; now apply (lookup_found_by_id _ _ _ F)).
    cbn [db calls]. rewrite <- !app_assoc. reflexivity.
Qed.

Lemma verifyOTP_consumption_by_revision_witness :
  db (snd (OtpUser.verifyOTP (Reference.env 1000) "d@x.com" "123456"
             (Reference.state_of [Reference.dave])))
  = mkDb [Reference.dave] []
  /\ fst (OtpTable.verifyOTP (Reference.env 3000) "a@x.com" "123456"
            (mkState (mkDb [] [Reference.code_for_alice]) []))
     = Return false.
Proof.
  destruct verifyOTP_consumption_by_revision as (A & _ & C & _).
  split.
  - apply (A (Reference.env 1000) "d@x.com" "123456"
             (Reference.state_of [Reference.dave])).
    reflexivity.
  - rewrite (C (Reference.env 3000) "a@x.com" "123456"
               (mkState (mkDb [] [Reference.code_for_alice]) [])
               Reference.code_for_alice); [reflexivity | reflexivity |].
    cbn. lia.
Defined.

(** C6, as the claim has it, fails in the first revision: a
    [verifyOTP] that returns true has changed the store. *)
Lemma table_verifyOTP_consumes_the_code :
  ~ (forall e email code st st',
        OtpTable.verifyOTP e email code st = (Return true, st') ->
        db st' = db st).
Proof.
  intros H.
  specialize (H (Reference.env 1000) "a@x.com" "123456"
                (mkState (mkDb [] [Reference.code_for_alice]) [])
                (mkState (mkDb [] [])
                         [OtpFindFirst "a@x.com" "123456"; OtpDelete "v1"])
                eq_refl).
  discriminate H.
Qed.
(* ===================================================================== *)
(** * register                                                            *)
(* ===================================================================== *)

Lemma lookup_email_or_phone (em ph : string) (d : Db) :
  Prisma.lookup (W_OR (W_email em) (W_phone ph)) d <> None
  <-> exists u, In u (users d) /\ (email u = em \/ phone u = ph).
Proof.
  split.
  - destruct (Prisma.lookup _ d) as [u |] eqn:F; [intros _ | now intros []].
    apply lookup_In in F as [Hin Hm]. exists u. split; [exact Hin |].
    cbn [Prisma.matches] in Hm. apply orb_prop in Hm as [Hm | Hm];
      apply String.eqb_eq in Hm; auto.
  - intros (u & Hin & Hu) F. unfold Prisma.lookup in F.
    pose proof (find_none _ _ F u Hin) as Hm. cbn [Prisma.matches] in Hm.
    apply orb_false_elim in Hm as [H1 H2].
    apply String.eqb_neq in H1, H2. now destruct Hu.
Qed.

Lemma existsb_collides_fresh (row : User) (l : list User) :
  googleId row = None ->
  (forall u, In u l -> id u <> id row) ->
  (forall u, In u l -> email u <> email row /\ phone u <> phone row) ->
  existsb (Prisma.collides row) l = false.
Proof.
  intros G Hid Hep.
  destruct (existsb (Prisma.collides row) l) eqn:X; [exfalso | reflexivity].
  apply existsb_exists in X as (u & Hin & Hc).
  unfold Prisma.collides in Hc. rewrite G, opt_string_eqb_None_r in Hc.
  destruct (Hep u Hin) as [He Hp]. specialize (Hid u Hin).
  apply String.eqb_neq in He, Hp, Hid. now rewrite He, Hp, Hid in Hc.
Qed.

Lemma updated_fresh_row (row : User) (p : UserPatch) (l : list User) :
  (forall u, In u l -> id u <> id row) ->
  Prisma.updated (W_id (id row)) p (l ++ [row]) =
  (l ++ [Prisma.apply_patch p row])%list.
Proof.
  intros H. unfold Prisma.updated. rewrite map_app. cbn [map Prisma.matches].
  rewrite String.eqb_refl. f_equal.
  induction l as [| u l IH]; cbn [map]; [reflexivity |].
  assert (N : (id u =? id row) = false)
    by (apply String.eqb_neq, H; now left).
  rewrite N. f_equal. apply IH. intros v Hv. apply H. now right.
Qed.

Section Register.
Context {BC : Bcrypt} {JWT : JsonWebToken}.

(** C8.  [register] fails with 409 exactly when a stored account has
    the requested email or the requested phone; it then has made one
    query, over both fields, and created nothing.  Otherwise (the
    identifier the store assigns being new) it answers 201 with the
    new account and a token pair, and the store has one more row:
    the role is the requested one, CUSTOMER when none is requested,
    the password hash is the bcrypt hash of the password, the status
    is ACTIVE and [emailVerified] is false.  The reply carries the
    identifier, the names, the email, the phone, the role, the status,
    the two verification flags and the creation time of that row, the
    avatar when one was uploaded, an access token signed for 24 hours
    and a refresh token signed for 7 days, both for the identifier,
    the email and the role of the new account. *)
Theorem register_conflict_or_created
    (e : Env) (body : RegisterRequest) (st : State) :
  let q := W_OR (W_email (rr_email body)) (W_phone (rr_phone body)) in
  let taken := exists u, In u (users (db st))
                         /\ (email u = rr_email body \/ phone u = rr_phone body) in
  let row := register_row e body (hashPassword e (rr_password body)) in
  (fst (register e body st) =
     Next (HttpError 409 "User with this email or phone already exists")
   <-> taken)
  /\ (taken ->
      register e body st =
      (Next (HttpError 409 "User with this email or phone already exists"),
       mkState (db st) (calls st ++ [UserFindFirst q])))
  /\ role row = match rr_role body with Some r => r | None => CUSTOMER end
  /\ passwordHash row = Some (bcrypt_hash (rr_password body) 12 (salt e))
  /\ status row = ACTIVE
  /\ emailVerified row = false
  /\ (~ taken ->
      (forall u, In u (users (db st)) -> id u <> fresh_id e) ->
      fst (register e body st) =
        Json 201 (mkApiResponse SUCCESS "User registered successfully"
                    (Some (mkAuthResponse
                             (userResponse row (avatar_upload e))
                             (generateAccessToken e (authPayload row))
                             (generateRefreshToken e (authPayload row))))
                    (now e))
      /\ users (db (snd (register e body st))) =
         (users (db st)
          ++ [match avatar_upload e with
              | Some url => Prisma.apply_patch (set_avatar url) row
              | None => row
              end])%list)
  /\ (~ taken ->
      (forall u, In u (users (db st)) -> id u <> fresh_id e) ->
      let granted := match rr_role body with Some r => r | None => CUSTOMER end in
      let claims := mkAuthPayload (fresh_id e) (rr_email body) granted in
      fst (register e body st) =
        Json 201
          (mkApiResponse SUCCESS "User registered successfully"
             (Some (mkAuthResponse
                      (mkUserResponse
                         (fresh_id e) (rr_firstName body) (rr_lastName body)
                         (rr_email body) (rr_phone body)
                         (match avatar_upload e with
                          | Some url => if JS.truthy url then Some url else None
                          | None => None
                          end)
                         granted ACTIVE false false (now e))
                      (jwt_sign claims (JWT_SECRET e) 86400 (now e / 1000))
                      (jwt_sign claims (JWT_REFRESH_SECRET e) 604800
                                (now e / 1000))))
             (now e))
      /\ db (snd (register e body st)) =
         mkDb (users (db st)
               ++ [mkUser (fresh_id e) (rr_firstName body) (rr_lastName body)
                          (rr_email body) (rr_phone body)
                          (Some (bcrypt_hash (rr_password body) 12 (salt e)))
                          (avatar_upload e) None granted ACTIVE false false
                          None None None None None (now e)])%list
              (emailVerifications (db st))).
Proof.
  intros q taken row.
  assert (Conflict : taken ->
            register e body st =
            (Next (HttpError 409 "User with this email or phone already exists"),
             mkState (db st) (calls st ++ [UserFindFirst q]))).
  { intros T. apply lookup_email_or_phone in T.
    unfold register, handler, bind. rewrite run_findFirst. fold q.
    fold q in T. now destruct (Prisma.lookup q (db st)). }
  assert (Free : ~ taken -> Prisma.lookup q (db st) = None).
  { intros T. destruct (Prisma.lookup q (db st)) eqn:F; [| reflexivity].
    exfalso. apply T, lookup_email_or_phone. fold q. now rewrite F. }
  split; [split; [| intros T; now rewrite (Conflict T)] |].
  { intros H.
    destruct (Prisma.lookup q (db st)) as [u |] eqn:F.
    - apply lookup_email_or_phone. fold q. now rewrite F.
    - exfalso. revert H.
      unfold register, handler, bind. rewrite run_findFirst. fold q.
      rewrite F. fold row.
      destruct (existsb (Prisma.collides row) (users (db st))) eqn:X.
      + rewrite run_create_collision by exact X. discriminate.
      + rewrite run_create_fresh by exact X.
        destruct (avatar_upload e) as [url |]; [| discriminate].
        unfold try_catch, bind.
        match goal with
        | |- context [Prisma.user_update ?w ?p ?s] =>
            destruct (existsb (Prisma.matches w) (users (db s))) eqn:Y;
            [rewrite (run_update_found w p s Y)
            | rewrite (run_update_missing w p s Y)]
        end; discriminate. }
  split; [exact Conflict |].
  repeat (split; [reflexivity |]).
  assert (Fresh : ~ taken ->
                  (forall u, In u (users (db st)) -> id u <> fresh_id e) ->
                  existsb (Prisma.collides row) (users (db st)) = false).
  { intros T Hfresh. apply existsb_collides_fresh; [reflexivity | exact Hfresh |].
    intros u Hin. split; intros E; apply T; exists u; auto. }
  split; intros T Hfresh; pose proof (Fresh T Hfresh) as X;
    cbv zeta;
    unfold register, handler, bind; rewrite run_findFirst; fold q;
    rewrite (Free T); fold row;
    rewrite run_create_fresh by exact X; cbn [db calls users];
    destruct (avatar_upload e) as [url |].
  - unfold try_catch, bind.
    rewrite run_update_found.
    + cbn [db users fst snd]. split; [reflexivity |].
      now apply (updated_fresh_row row).
    + cbn [db users]. rewrite existsb_app. cbn [existsb Prisma.matches].
      rewrite String.eqb_refl. now rewrite orb_true_r.
  - split; reflexivity.
  - unfold try_catch, bind.
    rewrite run_update_found.
    + cbn [db users fst snd emailVerifications]. split; [reflexivity |].
      now rewrite (updated_fresh_row row _ _ Hfresh).
    + cbn [db users]. rewrite existsb_app. cbn [existsb Prisma.matches].
      rewrite String.eqb_refl. now rewrite orb_true_r.
  - split; reflexivity.
Qed.

End Register.

Lemma register_conflict_or_created_witness :
  fst (@register Reference.bcrypt reference_jwt (Reference.env 1000)
         (mkRegisterRequest "A" "B" "a@x.com" "+15550000009" "Password1" None)
         (Reference.state_of [Reference.alice]))
  = Next (HttpError 409 "User with this email or phone already exists")
  /\ users (db (snd (@register Reference.bcrypt reference_jwt (Reference.env 1000)
                       (mkRegisterRequest "N" "M" "n@x.com" "+15550000009"
                                          "Password1" None)
                       (Reference.state_of [Reference.alice]))))
     = [Reference.alice;
        mkUser "id-new" "N" "M" "n@x.com" "+15550000009" (Some "salt$Password1")
               None None CUSTOMER ACTIVE false false None None None None None 1000]
  /\ fst (@register Reference.bcrypt reference_jwt (Reference.env 1000)
            (mkRegisterRequest "N" "M" "n@x.com" "+15550000009" "Password1" None)
            (Reference.state_of [Reference.alice]))
     = Json 201
         (mkApiResponse SUCCESS "User registered successfully"
            (Some (mkAuthResponse
                     (mkUserResponse "id-new" "N" "M" "n@x.com" "+15550000009"
                                     None CUSTOMER ACTIVE false false 1000)
                     (Reference.sign
                        (mkAuthPayload "id-new" "n@x.com" CUSTOMER)
                        "your-super-secret-jwt-key-change-in-production" 86400 1)
                     (Reference.sign
                        (mkAuthPayload "id-new" "n@x.com" CUSTOMER)
                        "your-super-secret-refresh-key-change-in-production"
                        604800 1)))
            1000).
Proof.
  split.
  - apply (proj1 (@register_conflict_or_created Reference.bcrypt reference_jwt
                    (Reference.env 1000)
                    (mkRegisterRequest "A" "B" "a@x.com" "+15550000009"
                                       "Password1" None)
                    (Reference.state_of [Reference.alice]))).
    exists Reference.alice. split; [now left | now left].
  - destruct (@register_conflict_or_created Reference.bcrypt reference_jwt
                (Reference.env 1000)
                (mkRegisterRequest "N" "M" "n@x.com" "+15550000009"
                                   "Password1" None)
                (Reference.state_of [Reference.alice]))
      as (_ & _ & _ & _ & _ & _ & C & D).
    assert (Free : ~ (exists u, In u [Reference.alice]
                                /\ (email u = "n@x.com"
                                    \/ phone u = "+15550000009")))
      by (intros (u & [<- | []] & [E | E]); discriminate E).
    assert (New : forall u, In u [Reference.alice] -> id u <> "id-new")
      by (intros u [<- | []]; discriminate).
    split; [exact (proj2 (C Free New)) | exact (proj1 (D Free New))].
Defined.
(* ===================================================================== *)
(** * Uniqueness of account identifiers                                   *)
(* ===================================================================== *)

Lemma preserves_ret {A} (a : A) : preserves (ret a).
Proof. intros st H. exact H. Qed.

Lemma preserves_throw {A} (e : Error) : preserves (@throw A e).
Proof. intros st H. exact H. Qed.

Lemma preserves_createError {A} (c : nat) (m : string) :
  preserves (@createError A c m).
Proof. apply preserves_throw. Qed.

Lemma preserves_bind {A B} (m : M A) (k : A -> M B) :
  preserves m -> (forall a, preserves (k a)) -> preserves (bind m k).
Proof.
  intros Hm Hk st H. unfold bind. specialize (Hm st H).
  destruct (m st) as [[a | e] st']; cbn [snd] in *; [now apply Hk | exact Hm].
Qed.

Lemma preserves_try_catch {A} (m : M A) (h : Error -> M A) :
  preserves m -> (forall e, preserves (h e)) -> preserves (try_catch m h).
Proof.
  intros Hm Hh st H. unfold try_catch. specialize (Hm st H).
  destruct (m st) as [[a | e] st']; cbn [snd] in *; [exact Hm | now apply Hh].
Qed.

Lemma preserves_findUnique (w : UserWhere) : preserves (Prisma.user_findUnique w).
Proof. intros st H. exact H. Qed.

Lemma preserves_findFirst (w : UserWhere) : preserves (Prisma.user_findFirst w).
Proof. intros st H. exact H. Qed.

Lemma map_email_updated (w : UserWhere) (p : UserPatch) (l : list User) :
  map email (Prisma.updated w p l) = map email l.
Proof.
  unfold Prisma.updated. rewrite map_map. apply map_ext.
  intros u. now destruct (Prisma.matches w u).
Qed.

Lemma map_phone_updated (w : UserWhere) (p : UserPatch) (l : list User) :
  map phone (Prisma.updated w p l) = map phone l.
Proof.
  unfold Prisma.updated. rewrite map_map. apply map_ext.
  intros u. now destruct (Prisma.matches w u).
Qed.

Lemma preserves_update (w : UserWhere) (p : UserPatch) :
  preserves (Prisma.user_update w p).
Proof.
  intros st H.
  destruct (existsb (Prisma.matches w) (users (db st))) eqn:X.
  - rewrite run_update_found by exact X. cbn [snd db].
    unfold unique_identifiers. cbn [users].
    now rewrite map_email_updated, map_phone_updated.
  - rewrite run_update_missing by exact X. exact H.
Qed.

Lemma NoDup_snoc {A} (l : list A) (x : A) :
  NoDup l -> ~ In x l -> NoDup (l ++ [x]).
Proof.
  intros Hl Hx. induction l as [| y l IH]; cbn [app].
  - constructor; [intros [] | constructor].
  - inversion Hl as [| ? ? Hy Hl']; subst. constructor.
    + intros Hin. apply in_app_or in Hin as [Hin | [-> | []]];
        [now apply Hy | apply Hx; now left].
    + apply IH; [exact Hl' | intros Hin; apply Hx; now right].
Qed.

(** The unique indexes make [create] keep the invariant. *)
Lemma preserves_create (row : User) : preserves (Prisma.user_create row).
Proof.
  intros st [He Hp].
  destruct (existsb (Prisma.collides row) (users (db st))) eqn:X.
  - rewrite run_create_collision by exact X. now split.
  - rewrite run_create_fresh by exact X. cbn [snd db].
    unfold unique_identifiers. cbn [users]. rewrite !map_app. cbn [map].
    assert (N : forall u, In u (users (db st)) ->
                          email u <> email row /\ phone u <> phone row).
    { intros u Hin.
      assert (C : Prisma.collides row u = false).
      { destruct (Prisma.collides row u) eqn:C; [| reflexivity].
        assert (T : existsb (Prisma.collides row) (users (db st)) = true)
          by (apply existsb_exists; now exists u).
        congruence. }
      unfold Prisma.collides in C.
      apply orb_false_elim in C as [C _].
      apply orb_false_elim in C as [C Cp].
      apply orb_false_elim in C as [_ Ce].
      split; now apply String.eqb_neq. }
    split; apply NoDup_snoc; try assumption; intros Hin;
      apply in_map_iff in Hin as (u & E & Hin); destruct (N u Hin); congruence.
Qed.

Create HintDb preserves.

#[local] Hint Resolve preserves_ret preserves_throw preserves_createError
  preserves_findUnique preserves_findFirst preserves_update preserves_create
  : preserves.

Ltac preserves_step :=
  cbv beta zeta;
  match goal with
  | |- preserves (bind _ _) => apply preserves_bind; [| intros ?]
  | |- preserves (try_catch _ _) => apply preserves_try_catch; [| intros ?]
  | |- preserves (match ?x with _ => _ end) => destruct x
  | |- preserves (if ?b then _ else _) => destruct b
  | |- preserves (let '(_, _) := ?p in _) => destruct p
  | |- _ => solve [auto with preserves]
  end.

Lemma handler_preserves {T} (body : M (Reply T)) (st : State) :
  preserves body ->
  unique_identifiers (db st) ->
  unique_identifiers (db (snd (handler body st))).
Proof.
  intros Hb H. unfold handler. specialize (Hb st H).
  now destruct (body st) as [[r | e] st'].
Qed.

Section Uniqueness.
Context {BC : Bcrypt} {SHA : Sha256} {JWT : JsonWebToken} {CFG : AuthConfig}.

(** [register] keeps the invariant. *)
Lemma register_keeps_identifiers_unique
    (e : Env) (body : RegisterRequest) (st : State) :
  unique_identifiers (db st) ->
  unique_identifiers (db (snd (register e body st))).
Proof.
  apply handler_preserves. repeat preserves_step.
Qed.

(** [googleCallback] keeps the invariant: the unique index on [phone]
    refuses the row it would add when the empty phone is in use. *)
Lemma googleCallback_keeps_identifiers_unique
    (e : Env) (code state cookie : option string) (st : State) :
  unique_identifiers (db st) ->
  unique_identifiers (db (snd (googleCallback e code state cookie st))).
Proof.
  apply handler_preserves. unfold exchangeCodeForTokens, getGoogleUserInfo.
  repeat preserves_step.
Qed.

End Uniqueness.

(** C9.  A first visitor signing in through the identity provider is
    given an account whose phone is the empty string.  For a second
    visitor, whose email matches no account either, [googleCallback]
    hands a row with the same empty phone to the store, the unique
    index on [phone] refuses it, and no account is provisioned. *)
Theorem googleCallback_second_visitor_not_provisioned :
  let first := @googleCallback reference_jwt
                 (Reference.env_google 1000 "id-1" "first@gmail.com")
                 (Some "code-1") (Some "s1") (Some "s1")
                 (Reference.state_of [Reference.alice]) in
  let second := @googleCallback reference_jwt
                  (Reference.env_google 2000 "id-2" "second@gmail.com")
                  (Some "code-2") (Some "s2") (Some "s2") (snd first) in
  (exists url, fst first = Redirect url)
  /\ option_map phone (Prisma.lookup (W_email "first@gmail.com") (db (snd first)))
     = Some ""
  /\ Prisma.lookup (W_email "second@gmail.com") (db (snd first)) = None
  /\ fst second = Next (PrismaError "P2002")
  /\ Prisma.lookup (W_email "second@gmail.com") (db (snd second)) = None
  /\ db (snd second) = db (snd first).
Proof.
  intros first second.
  split; [eexists; vm_compute; reflexivity |].
  repeat split; vm_compute; reflexivity.
Qed.

(* ===================================================================== *)
(** * Token lifetime and introspection                                    *)
(* ===================================================================== *)

Lemma div1000_ltb (a x : Z) : (a / 1000 <? x)%Z = (a <? x * 1000)%Z.
Proof.
  pose proof (Z.div_mod a 1000 ltac:(lia)) as E.
  pose proof (Z.mod_pos_bound a 1000 ltac:(lia)) as B.
  generalize dependent (a / 1000)%Z. generalize dependent (a mod 1000)%Z.
  intros r B q E.
  destruct (Z.ltb_spec q x), (Z.ltb_spec a (x * 1000)); lia || reflexivity.
Qed.

Section TokenLifetime.
Context {JWT : JsonWebToken}.

Lemma run_verifyRefreshToken (e : Env) (token : string) (st : State) :
  verifyRefreshToken e token st =
  (match jwt_verify token (JWT_REFRESH_SECRET e) (clock e) with
   | Some decoded => Return decoded
   | None => Throw (HttpError 401 "Invalid or expired refresh token")
   end,
   mkState (db st) (calls st ++ [JwtVerify token])).
Proof.
  unfold verifyRefreshToken, bind, call, createError, throw, ret.
  now destruct (jwt_verify token (JWT_REFRESH_SECRET e) (clock e)).
Qed.

Lemma same_JWT_SECRET (e e' : Env) :
  env_JWT_SECRET e' = env_JWT_SECRET e -> JWT_SECRET e' = JWT_SECRET e.
Proof. intros H. unfold JWT_SECRET. now rewrite H. Qed.

Lemma same_JWT_REFRESH_SECRET (e e' : Env) :
  env_JWT_REFRESH_SECRET e' = env_JWT_REFRESH_SECRET e ->
  JWT_REFRESH_SECRET e' = JWT_REFRESH_SECRET e.
Proof. intros H. unfold JWT_REFRESH_SECRET. now rewrite H. Qed.

(** What [verifyAccessToken] and [verifyRefreshToken] make of the two
    tokens of a pair issued under the same secrets. *)
Lemma verify_issued_access (e e' : Env) (c : AuthPayload) :
  env_JWT_SECRET e' = env_JWT_SECRET e ->
  jwt_verify (generateAccessToken e c) (JWT_SECRET e') (clock e') =
  if (clock e' <? clock e + 86400)%Z
  then Some (mkTokenPayload (ap_userId c) (ap_email c) (ap_role c)
                            (Some (clock e)) (Some (clock e + 86400)%Z))
  else None.
Proof.
  intros H. rewrite (same_JWT_SECRET e e' H). unfold generateAccessToken.
  now rewrite jwt_verify_sign.
Qed.

Lemma verify_issued_refresh (e e' : Env) (c : AuthPayload) :
  env_JWT_REFRESH_SECRET e' = env_JWT_REFRESH_SECRET e ->
  jwt_verify (generateRefreshToken e c) (JWT_REFRESH_SECRET e') (clock e') =
  if (clock e' <? clock e + 604800)%Z
  then Some (mkTokenPayload (ap_userId c) (ap_email c) (ap_role c)
                            (Some (clock e)) (Some (clock e + 604800)%Z))
  else None.
Proof.
  intros H. rewrite (same_JWT_REFRESH_SECRET e e' H). unfold generateRefreshToken.
  now rewrite jwt_verify_sign.
Qed.

Lemma verify_access_as_refresh (e e' : Env) (c : AuthPayload) :
  env_JWT_REFRESH_SECRET e' = env_JWT_REFRESH_SECRET e ->
  JWT_SECRET e <> JWT_REFRESH_SECRET e ->
  jwt_verify (generateAccessToken e c) (JWT_REFRESH_SECRET e') (clock e') = None.
Proof.
  intros H D. rewrite (same_JWT_REFRESH_SECRET e e' H).
  now apply jwt_verify_other_key.
Qed.

Lemma verify_refresh_as_access (e e' : Env) (c : AuthPayload) :
  env_JWT_SECRET e' = env_JWT_SECRET e ->
  JWT_SECRET e <> JWT_REFRESH_SECRET e ->
  jwt_verify (generateRefreshToken e c) (JWT_SECRET e') (clock e') = None.
Proof.
  intros H D. rewrite (same_JWT_SECRET e e' H).
  apply jwt_verify_other_key. intros E. now apply D.
Qed.

(** X1.  A token issued by [generateRefreshToken] and verified with
    [verifyRefreshToken] under the same secrets within seven days
    gives back the claims it was issued for; an access token is refused
    by [verifyRefreshToken] with 401 "Invalid or expired refresh
    token". *)
Theorem verifyRefreshToken_generateRefreshToken
    (e e' : Env) (c : AuthPayload) (st : State) :
  env_JWT_REFRESH_SECRET e' = env_JWT_REFRESH_SECRET e ->
  (clock e' < clock e + REFRESH_TOKEN_EXPIRY)%Z ->
  JWT_SECRET e <> JWT_REFRESH_SECRET e ->
  verifyRefreshToken e' (generateRefreshToken e c) st =
    (Return (mkTokenPayload (ap_userId c) (ap_email c) (ap_role c)
                            (Some (clock e))
                            (Some (clock e + REFRESH_TOKEN_EXPIRY)%Z)),
     mkState (db st) (calls st ++ [JwtVerify (generateRefreshToken e c)]))
  /\ verifyRefreshToken e' (generateAccessToken e c) st =
    (Throw (HttpError 401 "Invalid or expired refresh token"),
     mkState (db st) (calls st ++ [JwtVerify (generateAccessToken e c)])).
Proof.
  intros H L D. split; rewrite run_verifyRefreshToken.
  - rewrite verify_issued_refresh by exact H.
    change REFRESH_TOKEN_EXPIRY with 604800%Z in *.
    apply Z.ltb_lt in L. now rewrite L.
  - now rewrite verify_access_as_refresh.
Qed.

(** X2.  The two tokens of a pair have different lifetimes: from 86400
    seconds after issue on, [verifyAccessToken] refuses the access
    token with 401, while [verifyRefreshToken] accepts the refresh
    token until 604800 seconds after issue and refuses it from then
    on. *)
Theorem issued_tokens_expire
    (e e' : Env) (c : AuthPayload) (st : State) :
  env_JWT_SECRET e' = env_JWT_SECRET e ->
  env_JWT_REFRESH_SECRET e' = env_JWT_REFRESH_SECRET e ->
  ((clock e + 86400 <= clock e')%Z ->
   fst (verifyAccessToken e' (fst (generateTokenPair e c)) st) =
   Throw (HttpError 401 "Invalid or expired access token"))
  /\ ((clock e' < clock e + 604800)%Z ->
      fst (verifyRefreshToken e' (snd (generateTokenPair e c)) st) =
      Return (mkTokenPayload (ap_userId c) (ap_email c) (ap_role c)
                             (Some (clock e)) (Some (clock e + 604800)%Z)))
  /\ ((clock e + 604800 <= clock e')%Z ->
      fst (verifyRefreshToken e' (snd (generateTokenPair e c)) st) =
      Throw (HttpError 401 "Invalid or expired refresh token")).
Proof.
  intros Ha Hr. cbn [generateTokenPair fst snd].
  rewrite run_verifyAccessToken, run_verifyRefreshToken.
  rewrite verify_issued_access, verify_issued_refresh by assumption.
  cbn [fst]. repeat split; intros L.
  - apply Z.ltb_ge in L. now rewrite L.
  - apply Z.ltb_lt in L. now rewrite L.
  - apply Z.ltb_ge in L. now rewrite L.
Qed.

End TokenLifetime.

Section Introspection.
Context {JWT : JsonWebToken} {DEC : JsonWebTokenDecode}.


End Introspection.

Lemma fixture_decode_sign (p : AuthPayload) (k : string) (e t : Z) :
  Fixture.decode (Reference.sign p k e t) =
  Some (mkTokenPayload (ap_userId p) (ap_email p) (ap_role p)
                       (Some t) (Some (t + e)%Z)).
Proof.
  unfold Fixture.decode, Reference.sign.
  now rewrite !dec_enc_str, !dec_enc_Z, dec_enc_role.
Qed.

(** The reference implementation of [jwt.decode]. *)
Definition reference_decode : @JsonWebTokenDecode reference_jwt :=
  @Build_JsonWebTokenDecode reference_jwt Fixture.decode fixture_decode_sign.

Lemma verifyRefreshToken_generateRefreshToken_witness :
  fst (@verifyRefreshToken reference_jwt (Reference.env 1700000000000)
         (@generateRefreshToken reference_jwt (Reference.env 1700000000000)
            Fixture.alice_claims)
         (Reference.state_of [])) =
    Return (mkTokenPayload "u1" "a@x.com" CUSTOMER
                           (Some 1700000000%Z) (Some 1700604800%Z))
  /\ fst (@verifyRefreshToken reference_jwt (Reference.env 1700000000000)
            (@generateAccessToken reference_jwt (Reference.env 1700000000000)
               Fixture.alice_claims)
            (Reference.state_of [])) =
    Throw (HttpError 401 "Invalid or expired refresh token").
Proof.
  destruct (@verifyRefreshToken_generateRefreshToken reference_jwt
              (Reference.env 1700000000000) (Reference.env 1700000000000)
              Fixture.alice_claims (Reference.state_of []))
    as [H1 H2].
  - reflexivity.
  - vm_compute. reflexivity.
  - vm_compute. discriminate.
  - rewrite H1, H2. split; reflexivity.
Defined.

Lemma issued_tokens_expire_witness :
  fst (@verifyAccessToken reference_jwt (Reference.env 1700090000000)
         (fst (@generateTokenPair reference_jwt (Reference.env 1700000000000)
                 Fixture.alice_claims))
         (Reference.state_of [])) =
    Throw (HttpError 401 "Invalid or expired access token")
  /\ fst (@verifyRefreshToken reference_jwt (Reference.env 1700090000000)
            (snd (@generateTokenPair reference_jwt (Reference.env 1700000000000)
                    Fixture.alice_claims))
            (Reference.state_of [])) =
    Return (mkTokenPayload "u1" "a@x.com" CUSTOMER
                           (Some 1700000000%Z) (Some 1700604800%Z)).
Proof.
  destruct (@issued_tokens_expire reference_jwt
              (Reference.env 1700000000000) (Reference.env 1700090000000)
              Fixture.alice_claims (Reference.state_of []) eq_refl eq_refl)
    as (A & B & _).
  split.
  - apply A. vm_compute. discriminate.
  - apply B. vm_compute. reflexivity.
Defined.


(* ===================================================================== *)
(** * Middlewares                                                         *)
(* ===================================================================== *)

Lemma extractTokenFromHeader_Bearer (t : string) :
  extractTokenFromHeader (Some ("Bearer " ++ t)) = Some t.
Proof.
  unfold extractTokenFromHeader.
  rewrite (startsWith_app "Bearer " t). cbn [JS.truthy append String.eqb negb orb].
  change (Ascii.eqb "B" "B") with true. cbn iota.
  f_equal. apply (substring_prefix "Bearer ").
Qed.

Lemma extractTokenFromHeader_other (h : string) :
  JS.startsWith h "Bearer " = false -> extractTokenFromHeader (Some h) = None.
Proof.
  intros H. unfold extractTokenFromHeader. rewrite H. now rewrite orb_true_r.
Qed.

Lemma includes_In (roles : list string) (r : string) :
  includes roles r = true <-> In r roles.
Proof.
  unfold includes. rewrite existsb_exists. split.
  - intros (x & Hin & E). apply String.eqb_eq in E. now subst.
  - intros H. exists r. split; [exact H | apply String.eqb_refl].
Qed.

Lemma UserRole_string_inj (a b : UserRole) :
  UserRole_string a = UserRole_string b -> a = b.
Proof. destruct a, b; cbn; intros H; (reflexivity || discriminate). Qed.

(** X4.  [authorize(...allowedRoles)] calls [next()] exactly when
    [req.user] is set and its role is one of [allowedRoles], and
    touches no state; it fails with 401 "Authentication required" when
    [req.user] is not set, whatever the roles, and with 403 when the
    role is not allowed.  So [adminOnly], [sellerOnly] and
    [customerOnly] admit one role each and [adminOrSeller] admits all
    but CUSTOMER. *)
Theorem authorize_passes_iff
    (allowedRoles : list string) (user : option TokenPayload) (st : State) :
  (authorize allowedRoles user st = (Return tt, st) <->
   exists u, user = Some u /\ In (UserRole_string (tp_role u)) allowedRoles)
  /\ (user = None ->
      authorize allowedRoles user st =
      (Throw (HttpError 401 "Authentication required"), st))
  /\ (forall u, user = Some u ->
                ~ In (UserRole_string (tp_role u)) allowedRoles ->
                authorize allowedRoles user st =
                (Throw (HttpError 403
                          "You do not have permission to access this resource"), st))
  /\ (forall u, adminOnly (Some u) st = (Return tt, st) <-> tp_role u = ADMIN)
  /\ (forall u, sellerOnly (Some u) st = (Return tt, st) <-> tp_role u = SELLER)
  /\ (forall u, customerOnly (Some u) st = (Return tt, st) <-> tp_role u = CUSTOMER)
  /\ (forall u, adminOrSeller (Some u) st = (Return tt, st) <-> tp_role u <> CUSTOMER).
Proof.
  assert (A : forall roles u,
             authorize roles (Some u) st = (Return tt, st) <->
             In (UserRole_string (tp_role u)) roles).
  { intros roles u. unfold authorize.
    destruct (includes roles (UserRole_string (tp_role u))) eqn:I; cbn [negb].
    - apply includes_In in I. split; [now intros _ | reflexivity].
    - split; [discriminate |]. intros H. apply includes_In in H. congruence. }
  split; [| split; [| split; [| split; [| split; [| split]]]]].
  - destruct user as [u |].
    + rewrite A. split; [intros H; now exists u | intros (v & [= ->] & H); exact H].
    + split; [discriminate | intros (v & E & _); discriminate].
  - now intros ->.
  - intros u -> N. unfold authorize.
    destruct (includes allowedRoles (UserRole_string (tp_role u))) eqn:I;
      [apply includes_In in I; contradiction | reflexivity].
  - intros u. unfold adminOnly. rewrite A.
    destruct (tp_role u); cbn; intuition discriminate.
  - intros u. unfold sellerOnly. rewrite A.
    destruct (tp_role u); cbn; intuition discriminate.
  - intros u. unfold customerOnly. rewrite A.
    destruct (tp_role u); cbn; intuition discriminate.
  - intros u. unfold adminOrSeller. rewrite A.
    destruct (tp_role u); cbn; intuition discriminate.
Qed.

Lemma authorize_passes_iff_witness :
  authorize ["ADMIN"; "SELLER"]
            (Some (mkTokenPayload "u1" "a@x.com" CUSTOMER None None))
            (Reference.state_of []) =
  (Throw (HttpError 403 "You do not have permission to access this resource"),
   Reference.state_of [])
  /\ authorize ["ADMIN"] None (Reference.state_of []) =
     (Throw (HttpError 401 "Authentication required"), Reference.state_of []).
Proof.
  destruct (authorize_passes_iff ["ADMIN"; "SELLER"]
              (Some (mkTokenPayload "u1" "a@x.com" CUSTOMER None None))
              (Reference.state_of [])) as (_ & _ & F & _).
  destruct (authorize_passes_iff ["ADMIN"] None (Reference.state_of []))
    as (_ & U & _).
  split.
  - apply (F _ eq_refl). cbn. intuition discriminate.
  - apply U. reflexivity.
Defined.

Section MiddlewareProofs.
Context {JWT : JsonWebToken}.

(** X5.  [optionalAuth] never passes an error on: whatever the header,
    it calls [next()], with [req.user] set when the header is a
    non-empty bearer token that verifies and left unset otherwise (a
    refused token included), and it leaves the store as it was. *)
Theorem optionalAuth_never_fails
    (e : Env) (authorization : option string) (st : State) :
  fst (optionalAuth e authorization st) =
    Return (match extractTokenFromHeader authorization with
            | Some t => if JS.truthy t
                        then jwt_verify t (JWT_SECRET e) (clock e)
                        else None
            | None => None
            end)
  /\ db (snd (optionalAuth e authorization st)) = db st.
Proof.
  unfold optionalAuth, try_catch, bind.
  destruct (extractTokenFromHeader authorization) as [t |]; cbn [JS.truthy_opt];
    [| split; reflexivity].
  destruct (JS.truthy t); [| split; reflexivity].
  rewrite run_verifyAccessToken.
  destruct (jwt_verify t (JWT_SECRET e) (clock e)); split; reflexivity.
Qed.

Lemma run_authenticate_bearer (e : Env) (t : string) (st : State) :
  JS.truthy t = true ->
  authenticate e (Some ("Bearer " ++ t)) st = verifyAccessToken e t st.
Proof.
  intros T. unfold authenticate. rewrite extractTokenFromHeader_Bearer.
  now rewrite T.
Qed.

Lemma run_authenticateRefreshToken_bearer (e : Env) (t : string) (st : State) :
  JS.truthy t = true ->
  authenticateRefreshToken e (Some ("Bearer " ++ t)) st = verifyRefreshToken e t st.
Proof.
  intros T. unfold authenticateRefreshToken. rewrite extractTokenFromHeader_Bearer.
  cbn [JS.truthy_opt]. now rewrite T.
Qed.

(** X6.  Each of the two authenticating middlewares takes the tokens of
    its own kind only: with the pair issued for the claims [c] (its
    tokens non-empty, the secrets distinct), [authenticate] sets
    [req.user] from ["Bearer " + accessToken] and refuses ["Bearer " +
    refreshToken] with 401 "Invalid or expired access token", and
    [authenticateRefreshToken] does the converse on [x-refresh-token]. *)
Theorem authenticate_takes_access_tokens_only
    (e e' : Env) (c : AuthPayload) (st : State) :
  env_JWT_SECRET e' = env_JWT_SECRET e ->
  env_JWT_REFRESH_SECRET e' = env_JWT_REFRESH_SECRET e ->
  JWT_SECRET e <> JWT_REFRESH_SECRET e ->
  (clock e' < clock e + 86400)%Z ->
  JS.truthy (generateAccessToken e c) = true ->
  JS.truthy (generateRefreshToken e c) = true ->
  fst (authenticate e' (Some ("Bearer " ++ generateAccessToken e c)) st) =
    Return (mkTokenPayload (ap_userId c) (ap_email c) (ap_role c)
                           (Some (clock e)) (Some (clock e + 86400)%Z))
  /\ fst (authenticate e' (Some ("Bearer " ++ generateRefreshToken e c)) st) =
    Throw (HttpError 401 "Invalid or expired access token")
  /\ fst (authenticateRefreshToken e'
            (Some ("Bearer " ++ generateRefreshToken e c)) st) =
    Return (mkTokenPayload (ap_userId c) (ap_email c) (ap_role c)
                           (Some (clock e)) (Some (clock e + 604800)%Z))
  /\ fst (authenticateRefreshToken e'
            (Some ("Bearer " ++ generateAccessToken e c)) st) =
    Throw (HttpError 401 "Invalid or expired refresh token").
Proof.
  intros Ha Hr D L Ta Tr.
  rewrite !run_authenticate_bearer, !run_authenticateRefreshToken_bearer
    by assumption.
  rewrite !run_verifyAccessToken, !run_verifyRefreshToken. cbn [fst].
  rewrite verify_issued_access, verify_issued_refresh by assumption.
  rewrite verify_refresh_as_access, verify_access_as_refresh by assumption.
  assert (L' : (clock e' <? clock e + 604800)%Z = true) by (apply Z.ltb_lt; lia).
  apply Z.ltb_lt in L. rewrite L, L'. repeat split.
Qed.

Lemma run_fallback_refresh (e : Env) (rt : string) (cookie : option string)
      (st : State) :
  JS.truthy rt = true ->
  authenticateWithFallback e None (Some rt) cookie st =
  match jwt_verify rt (JWT_REFRESH_SECRET e) (clock e) with
  | Some d => (Return (Some d), mkState (db st) (calls st ++ [JwtVerify rt]))
  | None => (Throw (HttpError 401 "Invalid or expired refresh token"),
             mkState (db st) (calls st ++ [JwtVerify rt]))
  end.
Proof.
  intros T.
  cbv beta iota zeta
      delta [authenticateWithFallback or_opt JS.truthy_opt extractTokenFromHeader].
  rewrite T. cbv beta iota. rewrite T. unfold bind.
  rewrite run_verifyRefreshToken.
  now destruct (jwt_verify rt (JWT_REFRESH_SECRET e) (clock e)).
Qed.

(** X7.  The header [x-refresh-token] is read in two ways.
    [authenticateRefreshToken] wants the ["Bearer "] prefix: given the
    bare token it fails with 401 "Refresh token is required" without
    verifying anything.  [authenticateWithFallback] takes the header
    (or the cookie) as the token itself: the bare token is verified
    and accepted, and the prefixed header is handed to the library
    with its prefix, as the one string verified, and so refused with
    401 "Invalid or expired refresh token" whenever the library
    refuses that string (as jsonwebtoken does: no token has a space
    in it). *)
Theorem x_refresh_token_prefix_mismatch
    (e e' : Env) (c : AuthPayload) (cookie : option string) (st : State) :
  env_JWT_REFRESH_SECRET e' = env_JWT_REFRESH_SECRET e ->
  (clock e' < clock e + 604800)%Z ->
  JS.truthy (generateRefreshToken e c) = true ->
  JS.startsWith (generateRefreshToken e c) "Bearer " = false ->
  authenticateRefreshToken e' (Some (generateRefreshToken e c)) st =
    (Throw (HttpError 401 "Refresh token is required"), st)
  /\ fst (authenticateWithFallback e' None
            (Some (generateRefreshToken e c)) cookie st) =
     Return (Some (mkTokenPayload (ap_userId c) (ap_email c) (ap_role c)
                                  (Some (clock e)) (Some (clock e + 604800)%Z)))
  /\ fst (authenticateWithFallback e' None
            (Some ("Bearer " ++ generateRefreshToken e c)) cookie st) =
     match jwt_verify ("Bearer " ++ generateRefreshToken e c)
                      (JWT_REFRESH_SECRET e') (clock e') with
     | Some d => Return (Some d)
     | None => Throw (HttpError 401 "Invalid or expired refresh token")
     end
  /\ (jwt_verify ("Bearer " ++ generateRefreshToken e c)
                 (JWT_REFRESH_SECRET e') (clock e') = None ->
      authenticateWithFallback e' None
        (Some ("Bearer " ++ generateRefreshToken e c)) cookie st =
      (Throw (HttpError 401 "Invalid or expired refresh token"),
       mkState (db st)
               (calls st ++ [JwtVerify ("Bearer " ++ generateRefreshToken e c)]))).
Proof.
  intros Hr L T P. split; [| split; [| split]].
  - unfold authenticateRefreshToken.
    now rewrite (extractTokenFromHeader_other _ P).
  - rewrite run_fallback_refresh by exact T.
    rewrite verify_issued_refresh by assumption.
    apply Z.ltb_lt in L. now rewrite L.
  - rewrite run_fallback_refresh by reflexivity.
    now destruct (jwt_verify _ _ _).
  - intros Refused. rewrite run_fallback_refresh by reflexivity.
    now rewrite Refused.
Qed.



End MiddlewareProofs.

Lemma authenticate_takes_access_tokens_only_witness :
  fst (@authenticate reference_jwt (Reference.env 1700000000000)
         (Some ("Bearer " ++ @generateRefreshToken reference_jwt
                               (Reference.env 1700000000000) Fixture.alice_claims))
         (Reference.state_of [])) =
    Throw (HttpError 401 "Invalid or expired access token")
  /\ fst (@authenticateRefreshToken reference_jwt (Reference.env 1700000000000)
            (Some ("Bearer " ++ @generateAccessToken reference_jwt
                                  (Reference.env 1700000000000) Fixture.alice_claims))
            (Reference.state_of [])) =
    Throw (HttpError 401 "Invalid or expired refresh token").
Proof.
  destruct (@authenticate_takes_access_tokens_only reference_jwt
              (Reference.env 1700000000000) (Reference.env 1700000000000)
              Fixture.alice_claims (Reference.state_of []))
    as (_ & A & _ & B).
  - reflexivity.
  - reflexivity.
  - vm_compute. discriminate.
  - vm_compute. reflexivity.
  - reflexivity.
  - reflexivity.
  - split; [exact A | exact B].
Defined.

Lemma x_refresh_token_prefix_mismatch_witness :
  @authenticateRefreshToken reference_jwt (Reference.env 1700000000000)
     (Some (@generateRefreshToken reference_jwt (Reference.env 1700000000000)
              Fixture.alice_claims))
     (Reference.state_of []) =
    (Throw (HttpError 401 "Refresh token is required"), Reference.state_of [])
  /\ fst (@authenticateWithFallback reference_jwt (Reference.env 1700000000000) None
            (Some (@generateRefreshToken reference_jwt (Reference.env 1700000000000)
                     Fixture.alice_claims))
            None (Reference.state_of [])) =
     Return (Some (mkTokenPayload "u1" "a@x.com" CUSTOMER
                                  (Some 1700000000%Z) (Some 1700604800%Z)))
  /\ fst (@authenticateWithFallback reference_jwt (Reference.env 1700000000000) None
            (Some ("Bearer "
                   ++ @generateRefreshToken reference_jwt
                        (Reference.env 1700000000000) Fixture.alice_claims))
            None (Reference.state_of [])) =
     Throw (HttpError 401 "Invalid or expired refresh token").
Proof.
  destruct (@x_refresh_token_prefix_mismatch reference_jwt
              (Reference.env 1700000000000) (Reference.env 1700000000000)
              Fixture.alice_claims None (Reference.state_of []))
    as (A & B & _ & C).
  - reflexivity.
  - vm_compute. reflexivity.
  - reflexivity.
  - reflexivity.
  - split; [exact A |]. split; [exact B |].
    rewrite (C eq_refl). reflexivity.
Defined.



(* ===================================================================== *)
(** * One-time codes: issue, verify, delete, clean up                     *)
(* ===================================================================== *)

Lemma truthy_app_String (a : string) (c : ascii) (s : string) :
  JS.truthy (a ++ String c s) = true.
Proof. now destruct a. Qed.

Lemma generateOTP_of_truthy (r : N) : JS.truthy (OtpUser.generateOTP_of r) = true.
Proof.
  unfold OtpUser.generateOTP_of, JS.padStart.
  destruct (JS.toString r) as [| c s]; [reflexivity | apply truthy_app_String].
Qed.

Lemma find_app_skip {A} (p : A -> bool) (l1 l2 : list A) :
  (forall x, In x l1 -> p x = false) -> find p (l1 ++ l2) = find p l2.
Proof.
  intros H. induction l1 as [| x l1 IH]; cbn [app find]; [reflexivity |].
  rewrite (H x) by now left. apply IH. intros y Hy. apply H. now right.
Qed.

Lemma find_none_all {A} (p : A -> bool) (l : list A) :
  (forall x, In x l -> p x = false) -> find p l = None.
Proof.
  intros H. rewrite <- (app_nil_r l). now rewrite find_app_skip.
Qed.

Lemma filter_all {A} (p : A -> bool) (l : list A) :
  (forall x, In x l -> p x = true) -> filter p l = l.
Proof.
  intros H. induction l as [| x l IH]; cbn [filter]; [reflexivity |].
  rewrite (H x) by now left. f_equal. apply IH. intros y Hy. apply H. now right.
Qed.

Lemma filter_idempotent {A} (p : A -> bool) (l : list A) :
  filter p (filter p l) = filter p l.
Proof. apply filter_all. intros x Hx. now apply filter_In in Hx. Qed.

Lemma filter_none {A} (p : A -> bool) (l : list A) :
  (forall x, In x l -> p x = false) -> filter p l = [].
Proof.
  intros H. induction l as [| x l IH]; cbn [filter]; [reflexivity |].
  rewrite (H x) by now left. apply IH. intros y Hy. apply H. now right.
Qed.

Lemma other_email_not_matching (email code : string) (l : list EmailVerification) :
  forall x, In x (filter (Prisma.other_email email) l) ->
            Prisma.email_and_code email code x = false.
Proof.
  intros x Hx. apply filter_In in Hx as [_ Hx].
  unfold Prisma.other_email in Hx. unfold Prisma.email_and_code.
  now destruct (ev_email x =? email).
Qed.

(** X10.  First revision: the code [createOrUpdateOTP] has returned is
    accepted by [verifyOTP] until its expiry, two minutes after issue
    and inclusive, and refused afterwards; either way that call
    removes it, so that no code is left for the email and a second
    [verifyOTP] with the same code returns false. *)
Theorem table_code_verifies_once
    (e e1 e2 : Env) (email code : string) (expiresAt : Z) (st st1 : State) :
  OtpTable.createOrUpdateOTP e email st = (Return (code, expiresAt), st1) ->
  expiresAt = (now e + 120000)%Z
  /\ fst (OtpTable.verifyOTP e1 email code st1) =
     Return (now e1 <=? expiresAt)%Z
  /\ filter (fun r => ev_email r =? email)
            (emailVerifications (db (snd (OtpTable.verifyOTP e1 email code st1))))
     = []
  /\ fst (OtpTable.verifyOTP e2 email code
            (snd (OtpTable.verifyOTP e1 email code st1))) = Return false.
Proof.
  intros H. rewrite run_table_createOrUpdateOTP in H.
  destruct (existsb _ _) eqn:X; [discriminate |].
  injection H as <- <- <-.
  split; [reflexivity |].
  rewrite run_table_verifyOTP. cbn [db emailVerifications].
  set (rest := filter (Prisma.other_email email) (emailVerifications (db st))) in *.
  set (row := mkEmailVerification (fresh_id e) email (OtpTable.generateOTP e)
                                  (OtpTable.getOTPExpiry e)).
  assert (F : find (Prisma.email_and_code email (OtpTable.generateOTP e))
                   (rest ++ [row]) = Some row).
  { rewrite find_app_skip by apply other_email_not_matching.
    cbn [find]. unfold Prisma.email_and_code. cbn [ev_email ev_code].
    now rewrite !String.eqb_refl. }
  rewrite F. cbn [fst snd db emailVerifications].
  change (ev_id row) with (fresh_id e).
  change (ev_expiresAt row) with (OtpTable.getOTPExpiry e).
  assert (R : filter (Prisma.other_id (fresh_id e)) (rest ++ [row]) = rest).
  { rewrite filter_app. cbn [filter]. unfold Prisma.other_id at 2, Prisma.has_id.
    cbn [ev_id]. rewrite String.eqb_refl. cbn [negb]. rewrite app_nil_r.
    apply filter_all. intros x Hx. unfold Prisma.other_id.
    destruct (Prisma.has_id (fresh_id e) x) eqn:I; [| reflexivity].
    assert (T : existsb (Prisma.has_id (fresh_id e)) rest = true)
      by (apply existsb_exists; now exists x).
    congruence. }
  rewrite R. split; [| split].
  - f_equal. rewrite Z.leb_antisym. reflexivity.
  - apply filter_none. intros x Hx. apply filter_In in Hx as [_ Hx].
    unfold Prisma.other_email in Hx. now destruct (ev_email x =? email).
  - rewrite run_table_verifyOTP. cbn [db emailVerifications].
    rewrite find_none_all by apply other_email_not_matching. reflexivity.
Qed.

Lemma table_code_verifies_once_witness :
  fst (OtpTable.verifyOTP Reference.env_later "a@x.com" "123456"
         (snd (OtpTable.createOrUpdateOTP (Reference.env 1000) "a@x.com"
                 (mkState (mkDb [] Fixture.codes) []))))
  = Return true
  /\ fst (OtpTable.verifyOTP Reference.env_later "a@x.com" "123456"
            (snd (OtpTable.verifyOTP Reference.env_later "a@x.com" "123456"
                    (snd (OtpTable.createOrUpdateOTP (Reference.env 1000) "a@x.com"
                            (mkState (mkDb [] Fixture.codes) []))))))
     = Return false.
Proof.
  destruct (table_code_verifies_once (Reference.env 1000) Reference.env_later
              Reference.env_later "a@x.com" "123456" 121000%Z
              (mkState (mkDb [] Fixture.codes) [])
              (snd (OtpTable.createOrUpdateOTP (Reference.env 1000) "a@x.com"
                      (mkState (mkDb [] Fixture.codes) []))) eq_refl)
    as (_ & A & _ & B).
  split; [rewrite A; reflexivity | exact B].
Defined.

Lemma lookup_after_update (em : string) (p : UserPatch) (d : Db) (u : User) :
  Prisma.lookup (W_email em) d = Some u ->
  Prisma.lookup (W_email em)
    (mkDb (Prisma.updated (W_id (id u)) p (users d)) (emailVerifications d)) =
  Some (Prisma.apply_patch p u).
Proof.
  intros F.
  rewrite (lookup_email_updated _ _ _ _ (emailVerifications d)).
  destruct d as [us evs]. cbn [users emailVerifications] in *.
  rewrite F. cbn [option_map Prisma.matches]. now rewrite String.eqb_refl.
Qed.

Lemma run_user_verifyOTP_match (e : Env) (email input : string) (st : State)
      (u : User) (stored : string) (expires : Z) :
  Prisma.lookup (W_email email) (db st) = Some u ->
  emailVerificationCode u = Some stored ->
  emailVerificationExpires u = Some expires ->
  JS.truthy stored = true ->
  JS.trim input = JS.trim stored ->
  OtpUser.verifyOTP e email input st =
  if (expires <? now e)%Z
  then (Return false,
        mkState (mkDb (Prisma.updated (W_id (id u)) (OtpUser.set_code None None)
                                      (users (db st)))
                      (emailVerifications (db st)))
                (calls st ++ [UserFindUnique (W_email email);
                              UserUpdate (W_id (id u)) (OtpUser.set_code None None)]))
  else (Return true, mkState (db st) (calls st ++ [UserFindUnique (W_email email)])).
Proof.
  intros F C X T E.
  unfold OtpUser.verifyOTP, bind. rewrite run_findUnique, F, C, X, T, E.
  rewrite String.eqb_refl. cbn [negb].
  destruct (expires <? now e)%Z; [| reflexivity].
  rewrite run_update_found by (cbn [db]; now apply (lookup_found_by_id _ _ _ F)).
  cbn [db calls]. rewrite <- !app_assoc. reflexivity.
Qed.

Lemma run_user_verifyOTP_no_code (e : Env) (email input : string) (st : State)
      (u : User) :
  Prisma.lookup (W_email email) (db st) = Some u ->
  emailVerificationCode u = None ->
  OtpUser.verifyOTP e email input st =
  (Return false, mkState (db st) (calls st ++ [UserFindUnique (W_email email)])).
Proof.
  intros F C. unfold OtpUser.verifyOTP, bind. now rewrite run_findUnique, F, C.
Qed.

Lemma run_user_verifyOTP_no_user (e : Env) (email input : string) (st : State) :
  Prisma.lookup (W_email email) (db st) = None ->
  OtpUser.verifyOTP e email input st =
  (Return false, mkState (db st) (calls st ++ [UserFindUnique (W_email email)])).
Proof.
  intros F. unfold OtpUser.verifyOTP, bind. now rewrite run_findUnique, F.
Qed.

(** X11.  Second revision: the code [createOrUpdateOTP] has returned,
    typed with or without surrounding white space, is accepted by
    [verifyOTP] until its expiry, ten minutes after issue and
    inclusive, and as often as it is presented, since accepting it
    changes nothing; the first [verifyOTP] with it after the expiry
    returns false and clears it, after which it is refused at any
    time. *)
Theorem user_code_verifies_until_expiry
    (e e1 e2 : Env) (email input code : string) (expiresAt : Z) (st st1 : State) :
  OtpUser.createOrUpdateOTP e email st = (Return (code, expiresAt), st1) ->
  JS.trim input = code ->
  expiresAt = (now e + 600000)%Z
  /\ ((now e1 <= expiresAt)%Z ->
      OtpUser.verifyOTP e1 email input st1 =
      (Return true,
       mkState (db st1) (calls st1 ++ [UserFindUnique (W_email email)])))
  /\ ((now e1 <= expiresAt)%Z -> (now e2 <= expiresAt)%Z ->
      fst (OtpUser.verifyOTP e2 email input
             (snd (OtpUser.verifyOTP e1 email input st1))) = Return true)
  /\ ((expiresAt < now e1)%Z ->
      fst (OtpUser.verifyOTP e1 email input st1) = Return false
      /\ fst (OtpUser.verifyOTP e2 email input
                (snd (OtpUser.verifyOTP e1 email input st1))) = Return false).
Proof.
  intros H I. rewrite run_user_createOrUpdateOTP in H.
  destruct (Prisma.lookup (W_email email) (db st)) as [u |] eqn:F;
    [| discriminate].
  injection H as <- <- <-.
  set (st1 := mkState _ _) in *.
  set (u1 := Prisma.apply_patch
               (OtpUser.set_code (Some (OtpUser.generateOTP e))
                                 (Some (OtpUser.getOTPExpiry e))) u).
  assert (L : Prisma.lookup (W_email email) (db st1) = Some u1)
    by exact (lookup_after_issue e email st u F).
  assert (V : forall e',
             OtpUser.verifyOTP e' email input st1 =
             if (OtpUser.getOTPExpiry e <? now e')%Z
             then (Return false,
                   mkState (mkDb (Prisma.updated (W_id (id u))
                                    (OtpUser.set_code None None) (users (db st1)))
                                 (emailVerifications (db st1)))
                           (calls st1 ++ [UserFindUnique (W_email email);
                                          UserUpdate (W_id (id u))
                                                     (OtpUser.set_code None None)]))
             else (Return true,
                   mkState (db st1) (calls st1 ++ [UserFindUnique (W_email email)]))).
  { intros e'.
    apply (run_user_verifyOTP_match e' email input st1 u1
             (OtpUser.generateOTP e) (OtpUser.getOTPExpiry e) L);
      try reflexivity.
    - apply generateOTP_of_truthy.
    - rewrite I. symmetry. apply trim_digits, generateOTP_of_all_digits. }
  split; [reflexivity |]. split; [| split].
  - intros B. rewrite V. apply Z.ltb_ge in B. now rewrite B.
  - intros B1 B2. rewrite (V e1). apply Z.ltb_ge in B1. rewrite B1. cbn [snd].
    apply Z.ltb_ge in B2.
    rewrite (run_user_verifyOTP_match e2 email input
               (mkState (db st1) (calls st1 ++ [UserFindUnique (W_email email)])) u1
               (OtpUser.generateOTP e) (OtpUser.getOTPExpiry e) L);
      try reflexivity.
    + now rewrite B2.
    + apply generateOTP_of_truthy.
    + rewrite I. symmetry. apply trim_digits, generateOTP_of_all_digits.
  - intros B. rewrite (V e1). apply Z.ltb_lt in B. rewrite B. cbn [fst snd].
    split; [reflexivity |].
    match goal with
    | |- fst (OtpUser.verifyOTP _ _ _ ?s) = _ =>
        rewrite (run_user_verifyOTP_no_code e2 email input s
                   (Prisma.apply_patch (OtpUser.set_code None None) u1)
                   (lookup_after_update email (OtpUser.set_code None None)
                                        (db st1) u1 L)
                   eq_refl)
    end.
    reflexivity.
Qed.

Lemma user_code_verifies_until_expiry_witness :
  fst (OtpUser.verifyOTP Reference.env_later "a@x.com" " 123456 "
         (snd (OtpUser.verifyOTP Reference.env_later "a@x.com" " 123456 "
                 (snd (OtpUser.createOrUpdateOTP (Reference.env 1000) "a@x.com"
                         (Reference.state_of [Reference.alice]))))))
  = Return true.
Proof.
  destruct (user_code_verifies_until_expiry (Reference.env 1000)
              Reference.env_later Reference.env_later "a@x.com" " 123456 "
              "123456" 601000%Z (Reference.state_of [Reference.alice])
              (snd (OtpUser.createOrUpdateOTP (Reference.env 1000) "a@x.com"
                      (Reference.state_of [Reference.alice])))
              eq_refl eq_refl) as (_ & _ & A & _).
  apply A; vm_compute; discriminate.
Defined.

(** X12.  In both revisions, once [deleteOTP] has run for an email
    (it always returns), [verifyOTP] returns false for that email
    whatever the code and the time. *)
Theorem deleteOTP_invalidates_every_code
    (e : Env) (email code : string) (st : State) :
  fst (OtpTable.deleteOTP email st) = Return tt
  /\ fst (OtpTable.verifyOTP e email code (snd (OtpTable.deleteOTP email st)))
     = Return false
  /\ fst (OtpUser.deleteOTP email st) = Return tt
  /\ fst (OtpUser.verifyOTP e email code (snd (OtpUser.deleteOTP email st)))
     = Return false.
Proof.
  split; [reflexivity |]. split.
  - rewrite run_table_verifyOTP.
    unfold OtpTable.deleteOTP, Prisma.otp_deleteMany, bind, call, get_db, put_db.
    cbn [snd db emailVerifications].
    rewrite find_none_all by apply other_email_not_matching. reflexivity.
  - unfold OtpUser.deleteOTP, bind. rewrite run_findUnique.
    destruct (Prisma.lookup (W_email email) (db st)) as [u |] eqn:F.
    + rewrite run_update_found by (cbn [db]; now apply (lookup_found_by_id _ _ _ F)).
      cbn [fst snd db]. split; [reflexivity |].
      match goal with
      | |- fst (OtpUser.verifyOTP _ _ _ ?s) = _ =>
          rewrite (run_user_verifyOTP_no_code e email code s
                     (Prisma.apply_patch (OtpUser.set_code None None) u)
                     (lookup_after_update email (OtpUser.set_code None None)
                                          (db st) u F)
                     eq_refl)
      end.
      reflexivity.
    + cbn [fst snd]. split; [reflexivity |].
      now rewrite run_user_verifyOTP_no_user.
Qed.

Lemma length_filter_split {A} (p : A -> bool) (l : list A) :
  (List.length (filter p l) + List.length (filter (fun x => negb (p x)) l)
   = List.length l)%nat.
Proof.
  induction l as [| x l IH]; cbn [filter]; [reflexivity |].
  destruct (p x); cbn [negb List.length]; lia.
Qed.

(** X13.  First revision: [cleanupExpiredOTPs] deletes the rows whose
    expiry is before now, those [verifyOTP] would refuse as expired,
    and no other row, and returns how many they were; run again at the
    same time it returns 0 and changes nothing. *)
Theorem table_cleanupExpiredOTPs_deletes_expired_rows (e : Env) (st : State) :
  exists n,
    fst (OtpTable.cleanupExpiredOTPs e st) = Return n
    /\ users (db (snd (OtpTable.cleanupExpiredOTPs e st))) = users (db st)
    /\ (forall v,
          In v (emailVerifications (db (snd (OtpTable.cleanupExpiredOTPs e st))))
          <-> In v (emailVerifications (db st)) /\ (now e <= ev_expiresAt v)%Z)
    /\ (n + List.length
              (emailVerifications (db (snd (OtpTable.cleanupExpiredOTPs e st))))
        = List.length (emailVerifications (db st)))%nat
    /\ OtpTable.cleanupExpiredOTPs e (snd (OtpTable.cleanupExpiredOTPs e st)) =
       (Return 0%nat, snd (OtpTable.cleanupExpiredOTPs e st)).
Proof.
  unfold OtpTable.cleanupExpiredOTPs, Prisma.otp_deleteMany_expired,
    bind, get_db, put_db, ret.
  cbn [fst snd db users emailVerifications calls].
  eexists. split; [reflexivity |]. split; [reflexivity |]. split; [| split].
  - intros v. rewrite filter_In. unfold Prisma.expired_before.
    destruct (Z.ltb_spec (ev_expiresAt v) (now e)); cbn [negb];
      intuition (lia || discriminate).
  - apply length_filter_split.
  - rewrite filter_idempotent.
    rewrite (filter_none (Prisma.expired_before (now e))); [reflexivity |].
    intros x Hx. apply filter_In in Hx as [_ Hx].
    now destruct (Prisma.expired_before (now e) x).
Qed.

Lemma map_patch_idempotent (t : Z) (l : list User) :
  map (fun u => if Prisma.stale_code t u
                then Prisma.apply_patch (OtpUser.set_code None None) u else u)
      (map (fun u => if Prisma.stale_code t u
                     then Prisma.apply_patch (OtpUser.set_code None None) u else u)
           l)
  = map (fun u => if Prisma.stale_code t u
                  then Prisma.apply_patch (OtpUser.set_code None None) u else u) l.
Proof.
  rewrite map_map. apply map_ext. intros u.
  destruct (Prisma.stale_code t u) eqn:S; [reflexivity | now rewrite S].
Qed.

Lemma stale_after_cleanup (t : Z) (u : User) :
  Prisma.stale_code t
    (if Prisma.stale_code t u
     then Prisma.apply_patch (OtpUser.set_code None None) u else u) = false.
Proof. destruct (Prisma.stale_code t u) eqn:S; [reflexivity | exact S]. Qed.


Lemma table_cleanupExpiredOTPs_deletes_expired_rows_witness :
  OtpTable.cleanupExpiredOTPs (Reference.env 1000)
    (mkState (mkDb [] Fixture.codes) []) =
  (Return 2%nat,
   mkState (mkDb [] [mkEmailVerification "v3" "c@x.com" "333333" 5000]) []).
Proof.
  destruct (table_cleanupExpiredOTPs_deletes_expired_rows (Reference.env 1000)
              (mkState (mkDb [] Fixture.codes) [])) as (n & A & _).
  reflexivity.
Defined.


Lemma deleteOTP_invalidates_every_code_witness :
  fst (OtpUser.verifyOTP (Reference.env 1000) "d@x.com" "123456"
         (snd (OtpUser.deleteOTP "d@x.com" (Reference.state_of [Reference.dave]))))
  = Return false.
Proof.
  apply (deleteOTP_invalidates_every_code (Reference.env 1000) "d@x.com" "123456"
           (Reference.state_of [Reference.dave])).
Defined.

(* ===================================================================== *)
(** * The life of a reset token                                           *)
(* ===================================================================== *)

Lemma In_updated (w : UserWhere) (p : UserPatch) (l : list User) (r : User) :
  In r (Prisma.updated w p l) <->
  exists r0, In r0 l
             /\ r = if Prisma.matches w r0 then Prisma.apply_patch p r0 else r0.
Proof.
  unfold Prisma.updated. rewrite in_map_iff.
  split; intros (r0 & A & B); exists r0; [now split | now split].
Qed.

(** The fields of a time value make the time value. *)
Lemma MakeDate_fields (t n : Z) :
  JSDate.MakeDate (JSDate.Day t)
    (JSDate.MakeTime (JSDate.HourFromTime t) (JSDate.MinFromTime t + n)
                     (JSDate.SecFromTime t) (JSDate.msFromTime t))
  = (t + n * 60000)%Z.
Proof.
  unfold JSDate.MakeDate, JSDate.MakeTime, JSDate.Day, JSDate.HourFromTime,
    JSDate.MinFromTime, JSDate.SecFromTime, JSDate.msFromTime,
    JSDate.msPerDay, JSDate.msPerHour, JSDate.msPerMinute, JSDate.msPerSecond.
  replace (t / 86400000)%Z with (t / 1000 / 60 / 60 / 24)%Z
    by (rewrite !Z.div_div by lia; reflexivity).
  replace (t / 3600000)%Z with (t / 1000 / 60 / 60)%Z
    by (rewrite !Z.div_div by lia; reflexivity).
  replace (t / 60000)%Z with (t / 1000 / 60)%Z
    by (rewrite !Z.div_div by lia; reflexivity).
  pose proof (Z.div_mod t 1000 ltac:(lia)) as A.
  pose proof (Z.div_mod (t / 1000) 60 ltac:(lia)) as B.
  pose proof (Z.div_mod (t / 1000 / 60) 60 ltac:(lia)) as C.
  pose proof (Z.div_mod (t / 1000 / 60 / 60) 24 ltac:(lia)) as D.
  lia.
Qed.

(** Moving the minutes of a date forward by [n] moves its local time
    by [n] minutes. *)
Lemma setMinutes_getMinutes (tza : Z -> bool -> Z) (t n : Z) :
  JSDate.setMinutes tza t (JSDate.getMinutes tza t + n) =
  JSDate.UTC tza (JSDate.LocalTime tza t + n * 60000).
Proof.
  unfold JSDate.setMinutes, JSDate.getMinutes. cbv zeta.
  now rewrite MakeDate_fields.
Qed.

Section ResetFlow.
Context {BC : Bcrypt} {SHA : Sha256} {CFG : AuthConfig}.

(** The expiry of a reset token: the local time of issue moved forward
    by the configured minutes, read back as an instant. *)
Lemma getResetTokenExpiry_local (e : Env) :
  getResetTokenExpiry e =
  (now e + localTZA e (now e) true + passwordReset_expiryMinutes * 60000
   - localTZA e (now e + localTZA e (now e) true
                 + passwordReset_expiryMinutes * 60000) false)%Z.
Proof.
  unfold getResetTokenExpiry. cbv zeta. now rewrite setMinutes_getMinutes.
Qed.

Lemma run_forgotPassword_found (e : Env) (email : string) (st : State) (u : User) :
  JS.truthy email = true ->
  Prisma.lookup (W_email email) (db st) = Some u ->
  forgotPassword e (Some email) st =
  (Json 200 (mkApiResponse SUCCESS
               "If an account exists, a reset link will be sent" None (now e)),
   mkState (mkDb (Prisma.updated (W_id (id u))
                    (set_reset (Some (hashResetToken (generateResetToken e)))
                               (Some (getResetTokenExpiry e)))
                    (users (db st)))
                 (emailVerifications (db st)))
           (calls st ++ [UserFindUnique (W_email email);
                         UserUpdate (W_id (id u))
                           (set_reset (Some (hashResetToken (generateResetToken e)))
                                      (Some (getResetTokenExpiry e)));
                         SendMail email "Reset your password - e-Curuza"])).
Proof.
  intros T F. unfold forgotPassword, handler, bind. rewrite T. cbn [negb].
  rewrite run_findUnique, F.
  rewrite run_update_found by (cbn [db]; now apply (lookup_found_by_id _ _ _ F)).
  rewrite run_sendPasswordResetEmail. cbn [db calls].
  rewrite <- !app_assoc. reflexivity.
Qed.

Lemma run_resetPassword (e : Env) (token newPassword : string) (st : State) :
  JS.truthy token = true ->
  JS.truthy newPassword = true ->
  resetPassword e (Some token) (Some newPassword) st =
  match Prisma.lookup (W_AND (W_resetPasswordToken (hashResetToken token))
                             (W_resetPasswordExpires_gt (now e))) (db st) with
  | None =>
      (Next (HttpError 400 "Invalid or expired reset token"),
       mkState (db st)
               (calls st ++ [UserFindFirst
                               (W_AND (W_resetPasswordToken (hashResetToken token))
                                      (W_resetPasswordExpires_gt (now e)))]))
  | Some u =>
      (Json 200 (mkApiResponse SUCCESS
                   "Password has been reset successfully" None (now e)),
       mkState (mkDb (Prisma.updated (W_id (id u))
                        (set_password_clear_reset (hashPassword e newPassword))
                        (users (db st)))
                     (emailVerifications (db st)))
               (calls st ++ [UserFindFirst
                               (W_AND (W_resetPasswordToken (hashResetToken token))
                                      (W_resetPasswordExpires_gt (now e)));
                             UserUpdate (W_id (id u))
                               (set_password_clear_reset (hashPassword e newPassword));
                             SendMail (email u)
                                      "Password changed successfully - e-Curuza"]))
  end.
Proof.
  intros Ht Hp. unfold resetPassword, handler, bind. rewrite Ht, Hp. cbn [negb orb].
  rewrite run_findFirst.
  destruct (Prisma.lookup _ (db st)) as [u |] eqn:Hfind; [| reflexivity].
  rewrite run_update_found
    by (cbn [db]; now apply (lookup_found_by_id _ _ _ Hfind)).
  rewrite run_sendPasswordChangeConfirmationEmail.
  cbn [db calls]. rewrite <- !app_assoc. reflexivity.
Qed.

(** No row holds the hash [h] as a reset token in force at [t]. *)
Lemma lookup_reset_none (h : string) (t : Z) (d : Db) :
  (forall r, In r (users d) ->
             resetPasswordToken r = Some h ->
             match resetPasswordExpires r with
             | Some x => (x <= t)%Z
             | None => True
             end) ->
  Prisma.lookup (W_AND (W_resetPasswordToken h) (W_resetPasswordExpires_gt t)) d
  = None.
Proof.
  intros H. destruct (Prisma.lookup _ d) as [r |] eqn:F; [exfalso | reflexivity].
  apply lookup_In in F as [Hin Hm]. cbn [Prisma.matches] in Hm.
  apply andb_prop in Hm as [M1 M2]. apply opt_string_eqb_Some in M1.
  specialize (H r Hin M1). destruct (resetPasswordExpires r); [| discriminate].
  apply Z.ltb_lt in M2. lia.
Qed.

(** X15.  A reset token is good for one reset, until the expiry stored
    with it.  After [forgotPassword] for the email of a stored account,
    with a token whose hash no other account holds, the account holds
    the hash of the token and an expiry; [resetPassword] with that
    token answers 200 while the clock is before that expiry, leaving
    the account with the hash of the new password and no reset token,
    and is refused with 400 from that expiry on; after the successful
    reset the same token is refused with 400 at any time.  The expiry
    is the time of issue moved forward by [passwordReset_expiryMinutes]
    on the local clock of the process ([setMinutes]): it is that many
    minutes after issue when the offset of the zone is the same at both
    ends, and is off by the change of offset otherwise. *)
Theorem forgotPassword_then_resetPassword
    (e e1 e2 : Env) (email newPassword again : string) (st : State) (u : User) :
  JS.truthy email = true ->
  JS.truthy (random_hex e) = true ->
  JS.truthy newPassword = true ->
  JS.truthy again = true ->
  Prisma.lookup (W_email email) (db st) = Some u ->
  (forall r, In r (users (db st)) ->
             resetPasswordToken r = Some (hashResetToken (random_hex e)) ->
             id r = id u) ->
  let st1 := snd (forgotPassword e (Some email) st) in
  let reset := resetPassword e1 (Some (random_hex e)) (Some newPassword) st1 in
  let issued := (now e + localTZA e (now e) true)%Z in
  let moved := (issued + passwordReset_expiryMinutes * 60000)%Z in
  let expiry := (moved - localTZA e moved false)%Z in
  (exists u1, Prisma.lookup (W_email email) (db st1) = Some u1
              /\ resetPasswordToken u1 = Some (hashResetToken (random_hex e))
              /\ resetPasswordExpires u1 = Some expiry)
  /\ (localTZA e moved false = localTZA e (now e) true ->
      expiry = (now e + passwordReset_expiryMinutes * 60000)%Z)
  /\ (expiry = now e + passwordReset_expiryMinutes * 60000
               + (localTZA e (now e) true - localTZA e moved false))%Z
  /\ ((expiry <= now e1)%Z ->
      reset = (Next (HttpError 400 "Invalid or expired reset token"),
               mkState (db st1)
                       (calls st1 ++ [UserFindFirst
                          (W_AND (W_resetPasswordToken (hashResetToken (random_hex e)))
                                 (W_resetPasswordExpires_gt (now e1)))])))
  /\ ((now e1 < expiry)%Z ->
      fst reset = Json 200 (mkApiResponse SUCCESS
                             "Password has been reset successfully" None (now e1))
      /\ (exists u2,
             Prisma.lookup (W_email email) (db (snd reset)) = Some u2
             /\ passwordHash u2 = Some (hashPassword e1 newPassword)
             /\ resetPasswordToken u2 = None
             /\ resetPasswordExpires u2 = None)
      /\ fst (resetPassword e2 (Some (random_hex e)) (Some again) (snd reset)) =
         Next (HttpError 400 "Invalid or expired reset token")).
Proof.
  intros Te Tt Tn Ta F Hsole st1 reset issued moved expiry.
  set (h := hashResetToken (random_hex e)) in *.
  assert (X : getResetTokenExpiry e = expiry) by apply getResetTokenExpiry_local.
  set (p1 := set_reset (Some h) (Some expiry)).
  assert (S1 : st1 = mkState (mkDb (Prisma.updated (W_id (id u)) p1 (users (db st)))
                                   (emailVerifications (db st)))
                             (calls st ++ [UserFindUnique (W_email email);
                                           UserUpdate (W_id (id u)) p1;
                                           SendMail email "Reset your password - e-Curuza"])).
  { unfold st1. rewrite (run_forgotPassword_found e email st u Te F).
    cbn [snd]. fold h. now rewrite X. }
  (* every row of [st1] that holds [h] has the id of [u] and expires at [expiry] *)
  assert (Holders : forall r, In r (users (db st1)) ->
                              resetPasswordToken r = Some h ->
                              id r = id u /\ resetPasswordExpires r = Some expiry).
  { intros r Hin Hh. rewrite S1 in Hin. cbn [db users] in Hin.
    apply In_updated in Hin as (r0 & Hin0 & ->).
    cbn [Prisma.matches] in *.
    destruct (id r0 =? id u) eqn:I.
    - apply String.eqb_eq in I. now split.
    - apply String.eqb_neq in I. now specialize (Hsole r0 Hin0 Hh). }
  assert (L1 : Prisma.lookup (W_email email) (db st1) = Some (Prisma.apply_patch p1 u)).
  { rewrite S1. cbn [db]. now apply lookup_after_update. }
  split; [exists (Prisma.apply_patch p1 u); now repeat split |].
  split; [intros Same; unfold expiry, moved, issued in *; lia |].
  split; [unfold expiry, moved, issued; lia |].
  clearbody expiry.
  unfold reset. rewrite (run_resetPassword e1 _ _ st1 Tt Tn). fold h.
  split.
  - intros Late. rewrite lookup_reset_none; [reflexivity |].
    intros r Hin Hh. destruct (Holders r Hin Hh) as [_ ->]. exact Late.
  - intros Early.
    destruct (Prisma.lookup (W_AND (W_resetPasswordToken h)
                                   (W_resetPasswordExpires_gt (now e1))) (db st1))
      as [r1 |] eqn:Q.
    + pose proof (lookup_In _ _ _ Q) as [Hin1 Hm1].
      cbn [Prisma.matches] in Hm1. apply andb_prop in Hm1 as [M1 _].
      apply opt_string_eqb_Some in M1.
      destruct (Holders r1 Hin1 M1) as [Id1 _]. rewrite Id1.
      cbn [fst snd db]. split; [reflexivity |]. split.
      * eexists. split.
        -- apply (lookup_after_update email
                    (set_password_clear_reset (hashPassword e1 newPassword))
                    (db st1) _ L1).
        -- repeat split.
      * rewrite (run_resetPassword e2 _ _ _ Tt Ta). fold h.
        rewrite lookup_reset_none; [reflexivity |].
        intros r Hin Hh. exfalso. cbn [db users] in Hin.
        apply In_updated in Hin as (r0 & Hin0 & ->).
        cbn [Prisma.matches] in Hh.
        destruct (id r0 =? id u) eqn:I; [discriminate Hh |].
        apply String.eqb_neq in I. now destruct (Holders r0 Hin0 Hh).
    + exfalso. unfold Prisma.lookup in Q.
      apply lookup_In in L1 as [Hin _].
      pose proof (find_none _ _ Q _ Hin) as N.
      cbn [Prisma.matches Prisma.apply_patch resetPasswordToken
           resetPasswordExpires p1 set_reset set_resetPasswordToken
           set_resetPasswordExpires Prisma.or_keep Prisma.opt_string_eqb] in N.
      rewrite String.eqb_refl in N. cbn [andb] in N.
      apply Z.ltb_ge in N. lia.
Qed.

(** X16.  A new reset token replaces the one before: after a second
    [forgotPassword] for the same account, with a token of another
    hash, the first token (whose hash no other account holds) is
    refused by [resetPassword] with 400 at any time. *)
Theorem forgotPassword_supersedes_previous_token
    (e1 e2 e3 : Env) (email newPassword : string) (st : State) (u : User) :
  JS.truthy email = true ->
  JS.truthy (random_hex e1) = true ->
  JS.truthy newPassword = true ->
  Prisma.lookup (W_email email) (db st) = Some u ->
  hashResetToken (random_hex e1) <> hashResetToken (random_hex e2) ->
  (forall r, In r (users (db st)) ->
             resetPasswordToken r = Some (hashResetToken (random_hex e1)) ->
             id r = id u) ->
  fst (resetPassword e3 (Some (random_hex e1)) (Some newPassword)
         (snd (forgotPassword e2 (Some email)
                 (snd (forgotPassword e1 (Some email) st))))) =
  Next (HttpError 400 "Invalid or expired reset token").
Proof.
  intros Te Tt Tn F D Hsole.
  rewrite (run_forgotPassword_found e1 email st u Te F). cbn [snd].
  set (p1 := set_reset _ _).
  assert (L1 : Prisma.lookup (W_email email)
                 (mkDb (Prisma.updated (W_id (id u)) p1 (users (db st)))
                       (emailVerifications (db st)))
               = Some (Prisma.apply_patch p1 u))
    by now apply lookup_after_update.
  match goal with
  | |- context [forgotPassword e2 (Some email) ?s] =>
      rewrite (run_forgotPassword_found e2 email s (Prisma.apply_patch p1 u) Te L1)
  end.
  cbn [snd db users emailVerifications Prisma.apply_patch id].
  match goal with
  | |- context [resetPassword e3 _ _ ?s] =>
      rewrite (run_resetPassword e3 (random_hex e1) newPassword s Tt Tn)
  end.
  rewrite lookup_reset_none; [reflexivity |].
  intros r Hin Hh. exfalso. cbn [db users] in Hin.
  apply In_updated in Hin as (r1 & Hin1 & ->).
  apply In_updated in Hin1 as (r0 & Hin0 & ->).
  cbn [Prisma.matches] in Hh.
  destruct (id r0 =? id u) eqn:I.
  - cbn [Prisma.apply_patch id] in Hh. rewrite I in Hh.
    cbn in Hh. injection Hh as Hh. now apply D.
  - rewrite I in Hh. apply String.eqb_neq in I. now specialize (Hsole r0 Hin0 Hh).
Qed.

End ResetFlow.

(** X17.  [isResetTokenExpired] and the query of [resetPassword] treat
    the instant of expiry differently: a token the query accepts is
    never expired for [isResetTokenExpired], a missing expiry counts as
    expired, but at the very instant of expiry [isResetTokenExpired]
    answers false while the query no longer accepts the token. *)
Theorem isResetTokenExpired_at_expiry (e : Env) (u : User) :
  isResetTokenExpired e None = true
  /\ (Prisma.matches (W_resetPasswordExpires_gt (now e)) u = true ->
      isResetTokenExpired e (resetPasswordExpires u) = false)
  /\ (resetPasswordExpires u = Some (now e) ->
      isResetTokenExpired e (resetPasswordExpires u) = false
      /\ Prisma.matches (W_resetPasswordExpires_gt (now e)) u = false)
  /\ (isResetTokenExpired e (resetPasswordExpires u) = false ->
      resetPasswordExpires u <> Some (now e) ->
      Prisma.matches (W_resetPasswordExpires_gt (now e)) u = true).
Proof.
  unfold isResetTokenExpired. cbn [Prisma.matches].
  destruct (resetPasswordExpires u) as [x |].
  - split; [reflexivity |]. split; [| split].
    + intros M. apply Z.ltb_lt in M. apply Z.ltb_ge. lia.
    + intros [= ->]. split; apply Z.ltb_irrefl.
    + intros A B. apply Z.ltb_ge in A. apply Z.ltb_lt.
      assert (x <> now e) by congruence. lia.
  - repeat split; discriminate.
Qed.

Lemma forgotPassword_then_resetPassword_witness :
  fst (@resetPassword Reference.bcrypt Reference.sha256
         (Fixture.env_new_york 1730617200000)
         (Some "c0ffee") (Some "NewPassword1")
         (snd (@forgotPassword Reference.sha256 Reference.config
                 (Fixture.env_new_york 1730611800000) (Some "a@x.com")
                 (Reference.state_of [Reference.alice; Reference.carol])))) =
    Json 200 (mkApiResponse SUCCESS "Password has been reset successfully" None
                            1730617200000)
  /\ fst (@resetPassword Reference.bcrypt Reference.sha256
            (Fixture.env_new_york 1730618000000)
            (Some "c0ffee") (Some "Another1")
            (snd (@resetPassword Reference.bcrypt Reference.sha256
                    (Fixture.env_new_york 1730617200000)
                    (Some "c0ffee") (Some "NewPassword1")
                    (snd (@forgotPassword Reference.sha256 Reference.config
                            (Fixture.env_new_york 1730611800000) (Some "a@x.com")
                            (Reference.state_of
                               [Reference.alice; Reference.carol])))))) =
     Next (HttpError 400 "Invalid or expired reset token")
  /\ option_map resetPasswordExpires
       (Prisma.lookup (W_email "a@x.com")
          (db (snd (@forgotPassword Reference.sha256 Reference.config
                      (Fixture.env_new_york 1730611800000) (Some "a@x.com")
                      (Reference.state_of [Reference.alice; Reference.carol])))))
     = Some (Some (1730611800000 + 7200000)%Z).
Proof.
  destruct (@forgotPassword_then_resetPassword
              Reference.bcrypt Reference.sha256 Reference.config
              (Fixture.env_new_york 1730611800000)
              (Fixture.env_new_york 1730617200000)
              (Fixture.env_new_york 1730618000000)
              "a@x.com" "NewPassword1" "Another1"
              (Reference.state_of [Reference.alice; Reference.carol])
              Reference.alice eq_refl eq_refl eq_refl eq_refl eq_refl)
    as ((u1 & L & _ & X) & _ & _ & _ & B).
  - intros r [<- | [<- | []]] H; [reflexivity | discriminate H].
  - destruct B as (R & _ & U); [vm_compute; reflexivity |].
    split; [exact R |]. split; [exact U |].
    rewrite L. cbn [option_map]. rewrite X. reflexivity.
Defined.

Lemma forgotPassword_supersedes_previous_token_witness :
  fst (@resetPassword Reference.bcrypt Reference.sha256 (Reference.env 3000)
         (Some "c0ffee") (Some "NewPassword1")
         (snd (@forgotPassword Reference.sha256 Reference.config
                 (Fixture.env_hex 2000 "decaf0") (Some "a@x.com")
                 (snd (@forgotPassword Reference.sha256 Reference.config
                         (Reference.env 1000) (Some "a@x.com")
                         (Reference.state_of [Reference.alice])))))) =
  Next (HttpError 400 "Invalid or expired reset token").
Proof.
  apply (@forgotPassword_supersedes_previous_token
           Reference.bcrypt Reference.sha256 Reference.config
           (Reference.env 1000) (Fixture.env_hex 2000 "decaf0") (Reference.env 3000)
           "a@x.com" "NewPassword1" (Reference.state_of [Reference.alice])
           Reference.alice eq_refl eq_refl eq_refl eq_refl).
  - discriminate.
  - intros r [<- | []] H. reflexivity.
Defined.

Lemma isResetTokenExpired_at_expiry_witness :
  isResetTokenExpired (Reference.env 500)
    (resetPasswordExpires Reference.carol) = false
  /\ Prisma.matches (W_resetPasswordExpires_gt 500) Reference.carol = false.
Proof.
  apply (isResetTokenExpired_at_expiry (Reference.env 500) Reference.carol).
  reflexivity.
Defined.

(* ===================================================================== *)
(** * Logging in                                                          *)
(* ===================================================================== *)

Lemma map_identity_updated (w : UserWhere) (p : UserPatch) (l : list User) :
  map identity_of (Prisma.updated w p l) = map identity_of l.
Proof.
  unfold Prisma.updated. rewrite map_map. apply map_ext.
  intros u. now destruct (Prisma.matches w u).
Qed.

Section LoginProofs.
Context {BC : Bcrypt} {JWT : JsonWebToken}.

Lemma run_login_success (e : Env) (body : LoginRequest) (st : State)
      (u : User) (h : string) :
  Prisma.lookup (W_email (lr_email body)) (db st) = Some u ->
  passwordHash u = Some h ->
  JS.truthy h = true ->
  comparePassword (lr_password body) h = true ->
  status u = ACTIVE ->
  login e body st =
  (Json 200 (mkApiResponse SUCCESS "Login successful"
               (Some (mkAuthResponse (userResponse u (avatarUrl u))
                                     (generateAccessToken e (authPayload u))
                                     (generateRefreshToken e (authPayload u))))
               (now e)),
   mkState (mkDb (Prisma.updated (W_id (id u)) (set_lastLogin (now e))
                                 (users (db st)))
                 (emailVerifications (db st)))
           (calls st ++ [UserFindUnique (W_email (lr_email body));
                         UserUpdate (W_id (id u)) (set_lastLogin (now e))])).
Proof.
  intros F H T C S. unfold login, handler, bind.
  rewrite run_findUnique, F, H. cbn [JS.truthy_opt]. rewrite T, C, S.
  cbn [negb UserStatus_eqb].
  rewrite run_update_found by (cbn [db]; now apply (lookup_found_by_id _ _ _ F)).
  cbn [db calls]. rewrite <- !app_assoc. reflexivity.
Qed.


(** X19.  A [login] that fails never says whether the email is known:
    an unknown email and a wrong password get the same 401 "Invalid
    email or password", an account that is not active included, as
    long as the password is wrong; only an account without a password
    hash is told apart, by 401 "Please login with Google instead".
    And every [login] that does not answer 200 leaves the store as it
    was. *)
Theorem login_failure_is_uniform
    (e : Env) (body : LoginRequest) (st : State) :
  (Prisma.lookup (W_email (lr_email body)) (db st) = None ->
   login e body st =
   (Next (HttpError 401 "Invalid email or password"),
    mkState (db st) (calls st ++ [UserFindUnique (W_email (lr_email body))])))
  /\ (forall u h,
         Prisma.lookup (W_email (lr_email body)) (db st) = Some u ->
         passwordHash u = Some h ->
         JS.truthy h = true ->
         comparePassword (lr_password body) h = false ->
         login e body st =
         (Next (HttpError 401 "Invalid email or password"),
          mkState (db st) (calls st ++ [UserFindUnique (W_email (lr_email body))])))
  /\ (forall u,
         Prisma.lookup (W_email (lr_email body)) (db st) = Some u ->
         JS.truthy_opt (passwordHash u) = false ->
         login e body st =
         (Next (HttpError 401 "Please login with Google instead"),
          mkState (db st) (calls st ++ [UserFindUnique (W_email (lr_email body))])))
  /\ (forall err, fst (login e body st) = Next err ->
                  db (snd (login e body st)) = db st).
Proof.
  split; [| split; [| split]].
  - intros F. unfold login, handler, bind. now rewrite run_findUnique, F.
  - intros u h F H T C. unfold login, handler, bind.
    rewrite run_findUnique, F, H. cbn [JS.truthy_opt]. now rewrite T, C.
  - intros u F T. unfold login, handler, bind.
    rewrite run_findUnique, F. now rewrite T.
  - intros err. unfold login, handler, bind. rewrite run_findUnique.
    destruct (Prisma.lookup (W_email (lr_email body)) (db st)) as [u |] eqn:F;
      [| reflexivity].
    destruct (JS.truthy_opt (passwordHash u)); cbn [negb]; [| reflexivity].
    destruct (comparePassword _ _); cbn [negb]; [| reflexivity].
    destruct (UserStatus_eqb (status u) ACTIVE); cbn [negb]; [| reflexivity].
    rewrite run_update_found by (cbn [db]; now apply (lookup_found_by_id _ _ _ F)).
    discriminate.
Qed.

Lemma run_register_created (e : Env) (body : RegisterRequest) (st : State) :
  (forall u, In u (users (db st)) ->
             email u <> rr_email body /\ phone u <> rr_phone body
             /\ id u <> fresh_id e) ->
  let row := register_row e body (hashPassword e (rr_password body)) in
  fst (register e body st) =
    Json 201 (mkApiResponse SUCCESS "User registered successfully"
                (Some (mkAuthResponse (userResponse row (avatar_upload e))
                                      (generateAccessToken e (authPayload row))
                                      (generateRefreshToken e (authPayload row))))
                (now e))
  /\ users (db (snd (register e body st))) =
     (users (db st)
      ++ [match avatar_upload e with
          | Some url => Prisma.apply_patch (set_avatar url) row
          | None => row
          end])%list.
Proof.
  intros Hfree row.
  assert (F : Prisma.lookup (W_OR (W_email (rr_email body))
                                  (W_phone (rr_phone body))) (db st) = None).
  { apply find_none_all. intros u Hu. destruct (Hfree u Hu) as (A & B & _).
    cbn [Prisma.matches]. apply String.eqb_neq in A, B. now rewrite A, B. }
  assert (X : existsb (Prisma.collides row) (users (db st)) = false).
  { apply existsb_collides_fresh; [reflexivity | |];
      intros u Hu; destruct (Hfree u Hu) as (A & B & C); auto. }
  unfold register, handler, bind. rewrite run_findFirst, F. fold row.
  rewrite run_create_fresh by exact X. cbn [db calls users].
  destruct (avatar_upload e) as [url |].
  - unfold try_catch, bind. rewrite run_update_found.
    + cbn [db users fst snd]. split; [reflexivity |].
      apply (updated_fresh_row row). intros u Hu. now destruct (Hfree u Hu) as (_ & _ & C).
    + cbn [db users]. rewrite existsb_app. cbn [existsb Prisma.matches].
      rewrite String.eqb_refl. now rewrite orb_true_r.
  - split; reflexivity.
Qed.

(** X20.  The account [register] has created can log in: when no
    stored account has the email, the phone or the new identifier, and
    bcrypt accepts the password against the hash it made of it,
    [login] with the same email and password after [register] answers
    200 with tokens for the new account; with a password bcrypt
    rejects it answers 401 "Invalid email or password". *)
Theorem register_then_login
    (e e' : Env) (body : RegisterRequest) (wrong : string) (st : State) :
  (forall u, In u (users (db st)) ->
             email u <> rr_email body /\ phone u <> rr_phone body
             /\ id u <> fresh_id e) ->
  JS.truthy (hashPassword e (rr_password body)) = true ->
  comparePassword (rr_password body) (hashPassword e (rr_password body)) = true ->
  comparePassword wrong (hashPassword e (rr_password body)) = false ->
  let st1 := snd (register e body st) in
  (exists r,
      fst (login e' (mkLoginRequest (rr_email body) (rr_password body)) st1) =
        Json 200 (mkApiResponse SUCCESS "Login successful" (Some r) (now e'))
      /\ ur_id (ar_user r) = fresh_id e
      /\ ur_email (ar_user r) = rr_email body
      /\ ur_role (ar_user r) = match rr_role body with Some x => x | None => CUSTOMER end
      /\ accessToken r =
         generateAccessToken e'
           (mkAuthPayload (fresh_id e) (rr_email body)
              (match rr_role body with Some x => x | None => CUSTOMER end)))
  /\ fst (login e' (mkLoginRequest (rr_email body) wrong) st1) =
     Next (HttpError 401 "Invalid email or password").
Proof.
  intros Hfree T C W st1.
  destruct (run_register_created e body st Hfree) as [_ U]. fold st1 in U.
  set (row := register_row e body (hashPassword e (rr_password body))) in *.
  set (stored := match avatar_upload e with
                 | Some url => Prisma.apply_patch (set_avatar url) row
                 | None => row
                 end) in *.
  assert (L : Prisma.lookup (W_email (rr_email body)) (db st1) = Some stored).
  { unfold Prisma.lookup. rewrite U. rewrite find_app_skip.
    - cbn [find Prisma.matches].
      replace (email stored) with (rr_email body)
        by (unfold stored; now destruct (avatar_upload e)).
      now rewrite String.eqb_refl.
    - intros u Hu. destruct (Hfree u Hu) as (A & _).
      cbn [Prisma.matches]. now apply String.eqb_neq. }
  assert (P : passwordHash stored = Some (hashPassword e (rr_password body)))
    by (unfold stored; now destruct (avatar_upload e)).
  split.
  - rewrite (run_login_success e' (mkLoginRequest (rr_email body) (rr_password body))
               st1 stored _ L P T C)
      by (unfold stored; now destruct (avatar_upload e)).
    cbn [fst]. eexists. split; [reflexivity |].
    unfold stored; destruct (avatar_upload e); repeat split.
  - unfold login, handler, bind. rewrite run_findUnique. cbn [lr_email lr_password].
    rewrite L, P. cbn [JS.truthy_opt]. now rewrite T, W.
Qed.

End LoginProofs.


Lemma login_failure_is_uniform_witness :
  fst (@login Reference.bcrypt reference_jwt (Reference.env 1000)
         (mkLoginRequest "nobody@x.com" "Password1")
         (Reference.state_of [Reference.alice; Reference.bob])) =
  fst (@login Reference.bcrypt reference_jwt (Reference.env 1000)
         (mkLoginRequest "b@x.com" "guess")
         (Reference.state_of [Reference.alice; Reference.bob])).
Proof.
  destruct (@login_failure_is_uniform Reference.bcrypt reference_jwt
              (Reference.env 1000) (mkLoginRequest "nobody@x.com" "Password1")
              (Reference.state_of [Reference.alice; Reference.bob]))
    as (A & _).
  destruct (@login_failure_is_uniform Reference.bcrypt reference_jwt
              (Reference.env 1000) (mkLoginRequest "b@x.com" "guess")
              (Reference.state_of [Reference.alice; Reference.bob]))
    as (_ & B & _).
  rewrite (A eq_refl).
  rewrite (B Reference.bob "salt$Password2" eq_refl eq_refl eq_refl eq_refl).
  reflexivity.
Defined.

Lemma register_then_login_witness :
  fst (@login Reference.bcrypt reference_jwt (Reference.env 2000)
         (mkLoginRequest "a@x.com" "wrong")
         (snd (@register Reference.bcrypt reference_jwt (Reference.env 1000)
                 (mkRegisterRequest "A" "B" "a@x.com" "+15550000001"
                                    "Password1" None)
                 (Reference.state_of [Reference.bob])))) =
  Next (HttpError 401 "Invalid email or password")
  /\ exists r,
       fst (@login Reference.bcrypt reference_jwt (Reference.env 2000)
              (mkLoginRequest "a@x.com" "Password1")
              (snd (@register Reference.bcrypt reference_jwt (Reference.env 1000)
                      (mkRegisterRequest "A" "B" "a@x.com" "+15550000001"
                                         "Password1" None)
                      (Reference.state_of [Reference.bob])))) =
       Json 200 (mkApiResponse SUCCESS "Login successful" (Some r) 2000)
       /\ ur_email (ar_user r) = "a@x.com".
Proof.
  destruct (@register_then_login Reference.bcrypt reference_jwt
              (Reference.env 1000) (Reference.env 2000)
              (mkRegisterRequest "A" "B" "a@x.com" "+15550000001" "Password1" None)
              "wrong" (Reference.state_of [Reference.bob]))
    as [(r & A & _ & B & _) C].
  - intros u [<- | []]. repeat split; discriminate.
  - reflexivity.
  - reflexivity.
  - reflexivity.
  - split; [exact C |]. exists r. split; [exact A | exact B].
Defined.

(* ===================================================================== *)
(** * Refreshing tokens and changing the password                         *)
(* ===================================================================== *)

Section RefreshProofs.
Context {BC : Bcrypt} {JWT : JsonWebToken}.


Lemma run_changePassword (e : Env) (user : TokenPayload) (cur new : string)
      (st : State) :
  JS.truthy cur = true ->
  JS.truthy new = true ->
  changePassword e user (Some cur) (Some new) st =
  let q := UserFindUnique (W_id (userId user)) in
  match Prisma.lookup (W_id (userId user)) (db st) with
  | None => (Next (HttpError 404 "User not found"),
             mkState (db st) (calls st ++ [q]))
  | Some u =>
      if negb (JS.truthy_opt (passwordHash u))
      then (Next (HttpError 400 "Please login with Google to set a password"),
            mkState (db st) (calls st ++ [q]))
      else if negb (comparePassword cur
                      (match passwordHash u with Some h => h | None => "" end))
      then (Next (HttpError 401 "Current password is incorrect"),
            mkState (db st) (calls st ++ [q]))
      else
        (Json 200 (mkApiResponse SUCCESS "Password changed successfully" None (now e)),
         mkState (mkDb (Prisma.updated (W_id (userId user))
                          (set_password (hashPassword e new)) (users (db st)))
                       (emailVerifications (db st)))
                 (calls st ++ [q;
                               UserUpdate (W_id (userId user))
                                          (set_password (hashPassword e new));
                               SendMail (email u)
                                 "Password changed successfully - e-Curuza"]))
  end.
Proof.
  intros Tc Tn. unfold changePassword, handler, bind. cbn [JS.truthy_opt].
  rewrite Tc, Tn. cbn [negb orb]. rewrite run_findUnique. cbv zeta.
  destruct (Prisma.lookup (W_id (userId user)) (db st)) as [u |] eqn:F;
    [| reflexivity].
  destruct (JS.truthy_opt (passwordHash u)); cbn [negb]; [| reflexivity].
  destruct (comparePassword cur _); cbn [negb]; [| reflexivity].
  rewrite run_update_found.
  - rewrite run_sendPasswordChangeConfirmationEmail. cbn [db calls].
    rewrite <- !app_assoc. reflexivity.
  - cbn [db]. apply lookup_In in F as [Hin Hm].
    apply existsb_exists. now exists u.
Qed.


End RefreshProofs.



(* ===================================================================== *)
(** * Verifying the email address                                         *)
(* ===================================================================== *)

Lemma run_sendVerificationEmail (e : Env) (to code : string) (n : nat) (st : State) :
  EmailService.sendVerificationEmail e to code n st =
  (Return (smtp_ok e),
   mkState (db st) (calls st ++ [SendMail to "Verify your email - e-Curuza"])).
Proof.
  unfold EmailService.sendVerificationEmail, EmailService.sendMail,
    try_catch, bind, call.
  now destruct (smtp_ok e).
Qed.

(** When the second revision accepts a code, the account is there and
    nothing was written. *)
Lemma user_verifyOTP_true (e : Env) (email code : string) (st st' : State) :
  OtpUser.verifyOTP e email code st = (Return true, st') ->
  db st' = db st /\ Prisma.lookup (W_email email) (db st) <> None.
Proof.
  unfold OtpUser.verifyOTP, bind. rewrite run_findUnique.
  destruct (Prisma.lookup (W_email email) (db st)) as [u |] eqn:F;
    [| discriminate].
  destruct (emailVerificationCode u) as [stored |]; [| discriminate].
  destruct (emailVerificationExpires u) as [x |]; [| discriminate].
  destruct (JS.truthy stored); cbn [negb]; [| discriminate].
  destruct (JS.trim code =? JS.trim stored); cbn [negb]; [| discriminate].
  destruct (x <? now e)%Z.
  - rewrite run_update_found by (cbn [db]; now apply (lookup_found_by_id _ _ _ F)).
    discriminate.
  - intros [= <-]. split; [reflexivity | discriminate].
Qed.

Lemma user_verifyOTP_returns (e : Env) (email code : string) (st : State) :
  exists b st', OtpUser.verifyOTP e email code st = (Return b, st').
Proof.
  unfold OtpUser.verifyOTP, bind. rewrite run_findUnique.
  destruct (Prisma.lookup (W_email email) (db st)) as [u |] eqn:F;
    [| now eexists; eexists].
  destruct (emailVerificationCode u) as [stored |]; [| now eexists; eexists].
  destruct (emailVerificationExpires u) as [x |]; [| now eexists; eexists].
  destruct (JS.truthy stored); cbn [negb]; [| now eexists; eexists].
  destruct (JS.trim code =? JS.trim stored); cbn [negb]; [| now eexists; eexists].
  destruct (x <? now e)%Z; [| now eexists; eexists].
  rewrite run_update_found by (cbn [db]; now apply (lookup_found_by_id _ _ _ F)).
  now eexists; eexists.
Qed.

Lemma user_deleteOTP_returns (email : string) (st : State) :
  exists st', OtpUser.deleteOTP email st = (Return tt, st').
Proof.
  unfold OtpUser.deleteOTP, bind. rewrite run_findUnique.
  destruct (Prisma.lookup (W_email email) (db st)) as [u |] eqn:F;
    [| now eexists].
  rewrite run_update_found by (cbn [db]; now apply (lookup_found_by_id _ _ _ F)).
  now eexists.
Qed.

Section VerifyEmailProofs.

(** X23.  With the code on the user row: [verifyEmail] with the code in
    force answers 200, marks the account verified and clears the code,
    leaving its identity as it was, so that the same request sent
    again fails with 400 "Invalid or expired verification code"; and
    whatever the request, this handler never answers 404 "User not
    found", because the store refuses the code of an email without an
    account. *)
Theorem verifyEmail_on_user_store
    (e e2 : Env) (email code : string) (st : State)
    (u : User) (stored : string) (expires : Z) :
  JS.truthy email = true ->
  JS.truthy code = true ->
  Prisma.lookup (W_email email) (db st) = Some u ->
  emailVerificationCode u = Some stored ->
  emailVerificationExpires u = Some expires ->
  JS.truthy stored = true ->
  JS.trim code = JS.trim stored ->
  (now e <= expires)%Z ->
  let after := snd (verifyEmail user_store e (Some email) (Some code) st) in
  fst (verifyEmail user_store e (Some email) (Some code) st) =
    Json 200 (mkApiResponse SUCCESS "Email verified successfully" None (now e))
  /\ (exists u', Prisma.lookup (W_email email) (db after) = Some u'
                 /\ emailVerified u' = true
                 /\ emailVerificationCode u' = None
                 /\ emailVerificationExpires u' = None
                 /\ identity_of u' = identity_of u
                 /\ passwordHash u' = passwordHash u)
  /\ fst (verifyEmail user_store e2 (Some email) (Some code) after) =
     Next (HttpError 400 "Invalid or expired verification code")
  /\ (forall e' em cd s,
         fst (verifyEmail user_store e' em cd s)
         <> Next (HttpError 404 "User not found")).
Proof.
  intros Te Tc F C X Ts E L after.
  set (u1 := Prisma.apply_patch set_verified u).
  set (u2 := Prisma.apply_patch (OtpUser.set_code None None) u1).
  assert (Never : forall e' em cd s,
             fst (verifyEmail user_store e' em cd s)
             <> Next (HttpError 404 "User not found")).
  { intros e' em cd s. unfold verifyEmail, handler, bind.
    destruct (negb (JS.truthy_opt em) || negb (JS.truthy_opt cd));
      [discriminate |].
    cbn [store_verifyOTP user_store].
    destruct (user_verifyOTP_returns e' (match em with Some x => x | None => "" end)
                (match cd with Some x => x | None => "" end) s) as (b & s' & V).
    rewrite V. destruct b; cbn [negb]; [| discriminate].
    apply user_verifyOTP_true in V as [D N]. cbv beta iota.
    rewrite run_findUnique. cbn [db]. rewrite D.
    destruct (Prisma.lookup _ (db s)) as [v |] eqn:G; [| contradiction].
    rewrite run_update_found
      by (cbn [db]; now apply (lookup_found_by_id _ _ _ G)).
    cbn [store_deleteOTP user_store].
    match goal with
    | |- context [OtpUser.deleteOTP ?m ?s0] =>
        destruct (user_deleteOTP_returns m s0) as (s'' & R); rewrite R
    end.
    discriminate. }
  assert (Run : verifyEmail user_store e (Some email) (Some code) st =
                (Json 200 (mkApiResponse SUCCESS "Email verified successfully"
                             None (now e)),
                 mkState (mkDb (Prisma.updated (W_id (id u))
                                  (OtpUser.set_code None None)
                                  (Prisma.updated (W_id (id u)) set_verified
                                                  (users (db st))))
                               (emailVerifications (db st)))
                         (calls st ++ [UserFindUnique (W_email email);
                                       UserFindUnique (W_email email);
                                       UserUpdate (W_id (id u)) set_verified;
                                       UserFindUnique (W_email email);
                                       UserUpdate (W_id (id u))
                                                  (OtpUser.set_code None None)]))).
  { unfold verifyEmail, handler, bind. cbn [JS.truthy_opt]. rewrite Te, Tc.
    cbn [negb orb store_verifyOTP store_deleteOTP user_store].
    rewrite (run_user_verifyOTP_match e email code st u stored expires F C X Ts E).
    apply Z.ltb_ge in L. rewrite L. cbn [negb].
    rewrite run_findUnique. cbn [db]. rewrite F.
    rewrite run_update_found by (cbn [db]; now apply (lookup_found_by_id _ _ _ F)).
    unfold OtpUser.deleteOTP, bind. rewrite run_findUnique. cbn [db].
    rewrite (lookup_after_update email set_verified (db st) u F).
    rewrite run_update_found.
    - cbn [db calls users emailVerifications Prisma.apply_patch id].
      rewrite <- !app_assoc. reflexivity.
    - cbn [db]. apply (lookup_found_by_id (W_email email)).
      exact (lookup_after_update email set_verified (db st) u F). }
  assert (L2 : Prisma.lookup (W_email email) (db after) = Some u2).
  { unfold after. rewrite Run. cbn [snd db].
    exact (lookup_after_update email (OtpUser.set_code None None) _ u1
             (lookup_after_update email set_verified (db st) u F)). }
  split; [now rewrite Run |]. split; [| split; [| exact Never]].
  - exists u2. split; [exact L2 |]. repeat split.
  - unfold verifyEmail, handler, bind. cbn [JS.truthy_opt]. rewrite Te, Tc.
    cbn [negb orb store_verifyOTP user_store].
    now rewrite (run_user_verifyOTP_no_code e2 email code after u2 L2 eq_refl).
Qed.

(** X24.  With the codes in their own table: [verifyEmail] with a code
    in force for an email that has no account answers 404 "User not
    found", and the code is spent all the same, the store having
    deleted it while verifying it. *)
Theorem verifyEmail_on_table_store_spends_the_code
    (e : Env) (email code : string) (st : State) (v : EmailVerification) :
  JS.truthy email = true ->
  JS.truthy code = true ->
  find (Prisma.email_and_code email code) (emailVerifications (db st)) = Some v ->
  (now e <= ev_expiresAt v)%Z ->
  Prisma.lookup (W_email email) (db st) = None ->
  let after := snd (verifyEmail table_store e (Some email) (Some code) st) in
  fst (verifyEmail table_store e (Some email) (Some code) st) =
    Next (HttpError 404 "User not found")
  /\ emailVerifications (db after) =
     filter (Prisma.other_id (ev_id v)) (emailVerifications (db st))
  /\ ~ In v (emailVerifications (db after))
  /\ users (db after) = users (db st).
Proof.
  intros Te Tc F L N after. unfold after.
  unfold verifyEmail, handler, bind. cbn [JS.truthy_opt]. rewrite Te, Tc.
  cbn [negb orb store_verifyOTP table_store].
  rewrite run_table_verifyOTP, F. apply Z.ltb_ge in L. rewrite L. cbn [negb].
  rewrite run_findUnique. cbn [db]. unfold Prisma.lookup in *. cbn [users].
  rewrite N. cbn [fst snd db emailVerifications users].
  repeat split. intros Hin. apply filter_In in Hin as [_ Hid].
  unfold Prisma.other_id, Prisma.has_id in Hid.
  now rewrite String.eqb_refl in Hid.
Qed.

(** X25.  [resendVerificationCode] tells a verified account from an
    unknown email: for an email without an account it answers "If an
    account exists, a verification code will be sent", for a verified
    account "Email is already verified", in both cases writing
    nothing.  For an account that is not verified it stores a new
    code on the user row, good for ten minutes, and answers
    "Verification code sent successfully" whether or not the mail
    relay took the message. *)
Theorem resendVerificationCode_replies
    (S : OtpStore) (e : Env) (email : string) (st : State) :
  JS.truthy email = true ->
  (Prisma.lookup (W_email email) (db st) = None ->
   resendVerificationCode S e (Some email) st =
   (Json 200 (mkApiResponse SUCCESS
                "If an account exists, a verification code will be sent"
                None (now e)),
    mkState (db st) (calls st ++ [UserFindUnique (W_email email)])))
  /\ (forall u, Prisma.lookup (W_email email) (db st) = Some u ->
                emailVerified u = true ->
                resendVerificationCode S e (Some email) st =
                (Json 200 (mkApiResponse SUCCESS "Email is already verified"
                             None (now e)),
                 mkState (db st) (calls st ++ [UserFindUnique (W_email email)])))
  /\ (forall u, Prisma.lookup (W_email email) (db st) = Some u ->
                emailVerified u = false ->
                fst (resendVerificationCode user_store e (Some email) st) =
                  Json 200 (mkApiResponse SUCCESS
                              "Verification code sent successfully" None (now e))
                /\ exists u',
                     Prisma.lookup (W_email email)
                       (db (snd (resendVerificationCode user_store e (Some email) st)))
                     = Some u'
                     /\ emailVerificationCode u' = Some (OtpUser.generateOTP e)
                     /\ emailVerificationExpires u' = Some (now e + 600000)%Z
                     /\ emailVerified u' = false).
Proof.
  intros T. split; [| split].
  - intros F. unfold resendVerificationCode, handler, bind. cbn [JS.truthy_opt].
    rewrite T. cbn [negb]. now rewrite run_findUnique, F.
  - intros u F V. unfold resendVerificationCode, handler, bind. cbn [JS.truthy_opt].
    rewrite T. cbn [negb]. now rewrite run_findUnique, F, V.
  - intros u F V. unfold resendVerificationCode, handler, bind. cbn [JS.truthy_opt].
    rewrite T. cbn [negb]. rewrite run_findUnique, F, V.
    cbn [store_createOrUpdateOTP user_store].
    rewrite run_user_createOrUpdateOTP. cbn [db]. rewrite F. cbv zeta.
    rewrite run_sendVerificationEmail. cbn [fst snd db].
    split; [reflexivity |].
    eexists. split; [exact (lookup_after_issue e email st u F) |].
    repeat split. cbn. exact V.
Qed.

End VerifyEmailProofs.

Lemma verifyEmail_on_user_store_witness :
  fst (verifyEmail user_store (Reference.env 1000) (Some "d@x.com") (Some "123456")
         (Reference.state_of [Reference.alice; Reference.dave])) =
    Json 200 (mkApiResponse SUCCESS "Email verified successfully" None 1000)
  /\ fst (verifyEmail user_store Reference.env_later (Some "d@x.com") (Some "123456")
            (snd (verifyEmail user_store (Reference.env 1000)
                    (Some "d@x.com") (Some "123456")
                    (Reference.state_of [Reference.alice; Reference.dave])))) =
     Next (HttpError 400 "Invalid or expired verification code").
Proof.
  destruct (verifyEmail_on_user_store (Reference.env 1000) Reference.env_later
              "d@x.com" "123456"
              (Reference.state_of [Reference.alice; Reference.dave])
              Reference.dave "123456" 2000%Z
              eq_refl eq_refl eq_refl eq_refl eq_refl eq_refl eq_refl)
    as (A & _ & B & _).
  - vm_compute. discriminate.
  - split; [exact A | exact B].
Defined.

Lemma verifyEmail_on_table_store_spends_the_code_witness :
  verifyEmail table_store (Reference.env 1000) (Some "a@x.com") (Some "123456")
    (mkState (mkDb [Reference.bob] [Reference.code_for_alice]) []) =
  (Next (HttpError 404 "User not found"),
   mkState (mkDb [Reference.bob] [])
           [OtpFindFirst "a@x.com" "123456"; OtpDelete "v1";
            UserFindUnique (W_email "a@x.com")]).
Proof.
  destruct (verifyEmail_on_table_store_spends_the_code (Reference.env 1000)
              "a@x.com" "123456"
              (mkState (mkDb [Reference.bob] [Reference.code_for_alice]) [])
              Reference.code_for_alice eq_refl eq_refl eq_refl) as (A & _).
  - vm_compute. discriminate.
  - reflexivity.
  - reflexivity.
Defined.

Lemma resendVerificationCode_replies_witness :
  fst (resendVerificationCode user_store (Reference.env 1000) (Some "nobody@x.com")
         (Reference.state_of [Reference.alice; Reference.bob])) =
    Json 200 (mkApiResponse SUCCESS
                "If an account exists, a verification code will be sent" None 1000)
  /\ fst (resendVerificationCode user_store (Reference.env 1000) (Some "b@x.com")
            (Reference.state_of [Reference.alice; Reference.bob])) =
     Json 200 (mkApiResponse SUCCESS "Email is already verified" None 1000)
  /\ fst (resendVerificationCode user_store (Reference.env_mail_down 1000)
            (Some "a@x.com")
            (Reference.state_of [Reference.alice; Reference.bob])) =
     Json 200 (mkApiResponse SUCCESS "Verification code sent successfully" None 1000).
Proof.
  destruct (resendVerificationCode_replies user_store (Reference.env 1000)
              "nobody@x.com" (Reference.state_of [Reference.alice; Reference.bob])
              eq_refl) as (A & _).
  destruct (resendVerificationCode_replies user_store (Reference.env 1000)
              "b@x.com" (Reference.state_of [Reference.alice; Reference.bob])
              eq_refl) as (_ & B & _).
  destruct (resendVerificationCode_replies user_store (Reference.env_mail_down 1000)
              "a@x.com" (Reference.state_of [Reference.alice; Reference.bob])
              eq_refl) as (_ & _ & C).
  split; [now rewrite (A eq_refl) |].
  split; [now rewrite (B Reference.bob eq_refl eq_refl) |].
  exact (proj1 (C Reference.alice eq_refl eq_refl)).
Defined.

(* ===================================================================== *)
(** * Signing in through the identity provider                            *)
(* ===================================================================== *)

Lemma opt_string_eqb_Some_Some (a : string) (o : option string) :
  Prisma.opt_string_eqb (Some a) o = true <-> o = Some a.
Proof.
  destruct o as [b |]; cbn [Prisma.opt_string_eqb].
  - rewrite String.eqb_eq. split; [now intros -> | now intros [= ->]].
  - split; discriminate.
Qed.

Section GoogleProofs.
Context {BC : Bcrypt} {JWT : JsonWebToken}.

(** X26.  [googleCallback] checks the anti-forgery state before
    anything else: with the code or the state missing it fails with
    400 "Authorization code and state are required", and with a state
    that is not the one of the cookie with 400 "Invalid state
    parameter"; in both cases nothing was looked up or written,
    whatever the identity provider would have answered.  When the
    state is right and the exchange with the provider fails, the
    store is untouched as well. *)
Theorem googleCallback_checks_state_first
    (e : Env) (code state cookie : option string) (st : State) :
  (JS.truthy_opt code = false \/ JS.truthy_opt state = false ->
   googleCallback e code state cookie st =
   (Next (HttpError 400 "Authorization code and state are required"), st))
  /\ (JS.truthy_opt code = true -> JS.truthy_opt state = true ->
      cookie <> state ->
      googleCallback e code state cookie st =
      (Next (HttpError 400 "Invalid state parameter"), st))
  /\ (JS.truthy_opt code = true -> JS.truthy_opt state = true ->
      cookie = state ->
      google_access_token e = None \/ google_profile e = None ->
      exists message,
        googleCallback e code state cookie st = (Next (PlainError message), st)).
Proof.
  split; [| split].
  - intros H. unfold googleCallback, handler.
    destruct code as [c |], state as [s |]; cbn [JS.truthy_opt] in *;
      try reflexivity.
    destruct H as [H | H]; rewrite H; [reflexivity | now rewrite orb_true_r].
  - intros Tc Ts N. unfold googleCallback, handler.
    destruct code as [c |]; [| discriminate].
    destruct state as [s |]; [| discriminate].
    cbn [JS.truthy_opt] in *. rewrite Tc, Ts. cbn [negb orb].
    destruct (Prisma.opt_string_eqb (Some s) cookie) eqn:E; [| reflexivity].
    apply opt_string_eqb_Some_Some in E. contradiction.
  - intros Tc Ts -> H. unfold googleCallback, handler.
    destruct code as [c |]; [| discriminate].
    destruct state as [s |]; [| discriminate].
    cbn [JS.truthy_opt] in *. rewrite Tc, Ts. cbn [negb orb].
    cbn [Prisma.opt_string_eqb]. rewrite String.eqb_refl. cbn [negb].
    unfold bind, exchangeCodeForTokens, getGoogleUserInfo.
    destruct (google_access_token e) as [t |].
    + destruct H as [H | H]; [discriminate |]. rewrite H. now eexists.
    + now eexists.
Qed.

Lemma run_googleCallback_profile (e : Env) (code state : string) (st : State)
      (t : string) (g : GoogleUser) :
  JS.truthy code = true ->
  JS.truthy state = true ->
  google_access_token e = Some t ->
  google_profile e = Some g ->
  googleCallback e (Some code) (Some state) (Some state) st =
  handler (
    found <- Prisma.user_findUnique (W_email (g_email g)) ;;
    user <-
      match found with
      | None => Prisma.user_create (google_row e g)
      | Some user =>
          if negb (UserStatus_eqb (status user) ACTIVE)
          then createError 403 "Account is not active"
          else ret user
      end ;;
    let '(accessToken, refreshToken) := generateTokenPair e (authPayload user) in
    ret (Redirect (FRONTEND_URL e ++ "/auth/callback?token=" ++ accessToken
                     ++ "&refreshToken=" ++ refreshToken))) st.
Proof.
  intros Tc Ts A P. unfold googleCallback, handler.
  rewrite Tc, Ts. cbn [negb orb Prisma.opt_string_eqb].
  rewrite String.eqb_refl. cbn [negb].
  unfold exchangeCodeForTokens, getGoogleUserInfo. rewrite A, P.
  reflexivity.
Qed.

(** X27.  For an email that has an account, [googleCallback] provisions
    nothing and writes nothing: an active account is signed in by a
    redirect carrying a token pair made for it, another is refused
    with 403 "Account is not active"; unlike [login], it does not
    record the time in [lastLoginAt]. *)
Theorem googleCallback_signs_in_existing_account
    (e : Env) (code state : string) (st : State)
    (t : string) (g : GoogleUser) (u : User) :
  JS.truthy code = true ->
  JS.truthy state = true ->
  google_access_token e = Some t ->
  google_profile e = Some g ->
  Prisma.lookup (W_email (g_email g)) (db st) = Some u ->
  googleCallback e (Some code) (Some state) (Some state) st =
  (if UserStatus_eqb (status u) ACTIVE
   then Redirect (FRONTEND_URL e ++ "/auth/callback?token="
                    ++ generateAccessToken e
                         (mkAuthPayload (id u) (email u) (role u))
                    ++ "&refreshToken="
                    ++ generateRefreshToken e
                         (mkAuthPayload (id u) (email u) (role u)))
   else Next (HttpError 403 "Account is not active"),
   mkState (db st) (calls st ++ [UserFindUnique (W_email (g_email g))])).
Proof.
  intros Tc Ts A P F.
  rewrite (run_googleCallback_profile e code state st t g Tc Ts A P).
  unfold handler, bind. rewrite run_findUnique, F.
  now destruct (UserStatus_eqb (status u) ACTIVE).
Qed.

(** X28.  The account [googleCallback] provisions for a new email (no
    stored account having that email, the empty phone or the new
    identifier) is an active CUSTOMER whose email counts as verified
    and who has no password hash: [login] with its email answers 401
    "Please login with Google instead" whatever the password, and
    [changePassword] for it answers 400. *)
Theorem googleCallback_provisions_passwordless_account
    (e e' : Env) (code state : string) (st : State)
    (t : string) (g : GoogleUser) (password : string)
    (cur new : option string) :
  JS.truthy code = true ->
  JS.truthy state = true ->
  google_access_token e = Some t ->
  google_profile e = Some g ->
  (forall u, In u (users (db st)) ->
             email u <> g_email g /\ phone u <> "" /\ id u <> fresh_id e) ->
  JS.truthy_opt cur = true -> JS.truthy_opt new = true ->
  let after := snd (googleCallback e (Some code) (Some state) (Some state) st) in
  let row := google_row e g in
  users (db after) = (users (db st) ++ [row])%list
  /\ fst (googleCallback e (Some code) (Some state) (Some state) st) =
     Redirect (FRONTEND_URL e ++ "/auth/callback?token="
                 ++ generateAccessToken e
                      (mkAuthPayload (fresh_id e) (g_email g) CUSTOMER)
                 ++ "&refreshToken="
                 ++ generateRefreshToken e
                      (mkAuthPayload (fresh_id e) (g_email g) CUSTOMER))
  /\ (status row = ACTIVE /\ emailVerified row = true
      /\ passwordHash row = None /\ phone row = "")
  /\ fst (login e' (mkLoginRequest (g_email g) password) after) =
     Next (HttpError 401 "Please login with Google instead")
  /\ fst (changePassword e'
            (mkTokenPayload (fresh_id e) (g_email g) CUSTOMER None None)
            cur new after) =
     Next (HttpError 400 "Please login with Google to set a password").
Proof.
  intros Tc Ts A P Hfree Tcur Tnew after row.
  assert (F : Prisma.lookup (W_email (g_email g)) (db st) = None).
  { apply find_none_all. intros u Hu. destruct (Hfree u Hu) as (E & _).
    cbn [Prisma.matches]. now apply String.eqb_neq. }
  assert (X : existsb (Prisma.collides row) (users (db st)) = false).
  { apply existsb_collides_fresh; [reflexivity | |];
      intros u Hu; destruct (Hfree u Hu) as (E & Ph & I); auto. }
  assert (Run : googleCallback e (Some code) (Some state) (Some state) st =
                (Redirect (FRONTEND_URL e ++ "/auth/callback?token="
                             ++ generateAccessToken e (authPayload row)
                             ++ "&refreshToken="
                             ++ generateRefreshToken e (authPayload row)),
                 mkState (mkDb (users (db st) ++ [row]) (emailVerifications (db st)))
                         (calls st ++ [UserFindUnique (W_email (g_email g));
                                       UserCreate row]))).
  { rewrite (run_googleCallback_profile e code state st t g Tc Ts A P).
    unfold handler, bind. rewrite run_findUnique, F.
    rewrite run_create_fresh by exact X.
    cbn [db calls]. rewrite <- !app_assoc. reflexivity. }
  assert (Lemail : Prisma.lookup (W_email (g_email g)) (db after) = Some row).
  { unfold after. rewrite Run. cbn [snd db]. unfold Prisma.lookup. cbn [users].
    rewrite find_app_skip.
    - cbn [find Prisma.matches row google_row email]. now rewrite String.eqb_refl.
    - intros u Hu. destruct (Hfree u Hu) as (E & _).
      cbn [Prisma.matches]. now apply String.eqb_neq. }
  assert (Lid : Prisma.lookup (W_id (fresh_id e)) (db after) = Some row).
  { unfold after. rewrite Run. cbn [snd db]. unfold Prisma.lookup. cbn [users].
    rewrite find_app_skip.
    - cbn [find Prisma.matches row google_row id]. now rewrite String.eqb_refl.
    - intros u Hu. destruct (Hfree u Hu) as (_ & _ & I).
      cbn [Prisma.matches]. now apply String.eqb_neq. }
  split; [unfold after; now rewrite Run |].
  split; [now rewrite Run |].
  split; [repeat split |]. split.
  - unfold login, handler, bind. rewrite run_findUnique. cbn [lr_email].
    now rewrite Lemail.
  - unfold changePassword, handler, bind. rewrite Tcur, Tnew. cbn [negb orb].
    rewrite run_findUnique. cbn [userId]. now rewrite Lid.
Qed.

End GoogleProofs.

Lemma googleCallback_checks_state_first_witness :
  @googleCallback reference_jwt
     (Reference.env_google 1000 "id-1" "first@gmail.com")
     (Some "code-1") (Some "forged") (Some "s1")
     (Reference.state_of [Reference.alice]) =
  (Next (HttpError 400 "Invalid state parameter"),
   Reference.state_of [Reference.alice]).
Proof.
  apply (@googleCallback_checks_state_first reference_jwt
           (Reference.env_google 1000 "id-1" "first@gmail.com")
           (Some "code-1") (Some "forged") (Some "s1")
           (Reference.state_of [Reference.alice])).
  - reflexivity.
  - reflexivity.
  - discriminate.
Defined.

Lemma googleCallback_signs_in_existing_account_witness :
  @googleCallback reference_jwt
     (Reference.env_google 1000 "id-1" "b@x.com")
     (Some "code-1") (Some "s1") (Some "s1")
     (Reference.state_of [Reference.alice; Reference.bob]) =
  (Next (HttpError 403 "Account is not active"),
   mkState (mkDb [Reference.alice; Reference.bob] [])
           [UserFindUnique (W_email "b@x.com")]).
Proof.
  apply (@googleCallback_signs_in_existing_account reference_jwt
           (Reference.env_google 1000 "id-1" "b@x.com") "code-1" "s1"
           (Reference.state_of [Reference.alice; Reference.bob])
           "ya29.token" (mkGoogleUser "g" "b@x.com" "G" None (Some "G") None)
           Reference.bob); reflexivity.
Defined.

Lemma googleCallback_provisions_passwordless_account_witness :
  fst (@login Reference.bcrypt reference_jwt (Reference.env 2000)
         (mkLoginRequest "first@gmail.com" "anything")
         (snd (@googleCallback reference_jwt
                 (Reference.env_google 1000 "id-1" "first@gmail.com")
                 (Some "code-1") (Some "s1") (Some "s1")
                 (Reference.state_of [Reference.alice])))) =
  Next (HttpError 401 "Please login with Google instead").
Proof.
  destruct (@googleCallback_provisions_passwordless_account
              Reference.bcrypt reference_jwt
              (Reference.env_google 1000 "id-1" "first@gmail.com")
              (Reference.env 2000) "code-1" "s1"
              (Reference.state_of [Reference.alice])
              "ya29.token" (mkGoogleUser "g" "first@gmail.com" "G" None (Some "G") None)
              "anything" (Some "a") (Some "b")
              eq_refl eq_refl eq_refl eq_refl) as (_ & _ & _ & A & _).
  - intros u [<- | []]. repeat split; discriminate.
  - reflexivity.
  - reflexivity.
  - exact A.
Defined.

(* ===================================================================== *)
(** * What the handlers never do to the accounts                          *)
(* ===================================================================== *)

Lemma extends_refl (d : Db) : extends d d.
Proof. exists []. now rewrite app_nil_r. Qed.

Lemma extends_trans (a b c : Db) : extends a b -> extends b c -> extends a c.
Proof.
  intros [x Hx] [y Hy]. exists (x ++ y)%list. now rewrite Hy, Hx, app_assoc.
Qed.

Lemma extends_same_users (d d' : Db) : users d' = users d -> extends d d'.
Proof. intros H. exists []. now rewrite H, app_nil_r. Qed.

(** Every account of [d] is in [d'] with the identity it had. *)
Lemma extends_keeps_accounts (d d' : Db) (u : User) :
  extends d d' -> In u (users d) ->
  exists u', In u' (users d') /\ identity_of u' = identity_of u.
Proof.
  intros [added H] Hin.
  assert (I : In (identity_of u) (map identity_of (users d')))
    by (rewrite H; apply in_or_app; left; now apply in_map).
  apply in_map_iff in I as (u' & E & Hin'). now exists u'.
Qed.

Lemma grows_ret {A} (a : A) : grows (ret a).
Proof. intros st. apply extends_refl. Qed.

Lemma grows_throw {A} (e : Error) : grows (@throw A e).
Proof. intros st. apply extends_refl. Qed.

Lemma grows_createError {A} (c : nat) (m : string) : grows (@createError A c m).
Proof. apply grows_throw. Qed.

Lemma grows_call (c : Call) : grows (call c).
Proof. intros st. apply extends_refl. Qed.

Lemma grows_bind {A B} (m : M A) (k : A -> M B) :
  grows m -> (forall a, grows (k a)) -> grows (bind m k).
Proof.
  intros Hm Hk st. unfold bind. specialize (Hm st).
  destruct (m st) as [[a | e] st']; cbn [snd] in *; [| exact Hm].
  exact (extends_trans _ _ _ Hm (Hk a st')).
Qed.

Lemma grows_try_catch {A} (m : M A) (h : Error -> M A) :
  grows m -> (forall e, grows (h e)) -> grows (try_catch m h).
Proof.
  intros Hm Hh st. unfold try_catch. specialize (Hm st).
  destruct (m st) as [[a | e] st']; cbn [snd] in *; [exact Hm |].
  exact (extends_trans _ _ _ Hm (Hh e st')).
Qed.

Lemma grows_findUnique (w : UserWhere) : grows (Prisma.user_findUnique w).
Proof. intros st. apply extends_refl. Qed.

Lemma grows_findFirst (w : UserWhere) : grows (Prisma.user_findFirst w).
Proof. intros st. apply extends_refl. Qed.

Lemma grows_update (w : UserWhere) (p : UserPatch) : grows (Prisma.user_update w p).
Proof.
  intros st. destruct (existsb (Prisma.matches w) (users (db st))) eqn:X.
  - rewrite run_update_found by exact X. exists []. cbn [snd db users].
    now rewrite map_identity_updated, app_nil_r.
  - rewrite run_update_missing by exact X. apply extends_refl.
Qed.

Lemma grows_create (row : User) : grows (Prisma.user_create row).
Proof.
  intros st. destruct (existsb (Prisma.collides row) (users (db st))) eqn:X.
  - rewrite run_create_collision by exact X. apply extends_refl.
  - rewrite run_create_fresh by exact X. exists [identity_of row].
    cbn [snd db users]. now rewrite map_app.
Qed.

Lemma grows_otp_deleteMany (e : string) : grows (Prisma.otp_deleteMany e).
Proof. intros st. now apply extends_same_users. Qed.

Lemma grows_otp_create (row : EmailVerification) : grows (Prisma.otp_create row).
Proof.
  intros st. apply extends_same_users.
  unfold Prisma.otp_create, bind, call, get_db, put_db, ret, throw. cbn [db calls].
  now destruct (existsb _ _).
Qed.

Lemma grows_otp_findFirst (e c : string) : grows (Prisma.otp_findFirst e c).
Proof. intros st. now apply extends_same_users. Qed.

Lemma grows_otp_delete (i : string) : grows (Prisma.otp_delete i).
Proof.
  intros st. apply extends_same_users.
  unfold Prisma.otp_delete, bind, call, get_db, put_db, throw. cbn [db calls].
  now destruct (existsb _ _).
Qed.

Lemma grows_otp_deleteMany_expired (t : Z) : grows (Prisma.otp_deleteMany_expired t).
Proof. intros st. now apply extends_same_users. Qed.

Lemma grows_updateMany (sel : User -> bool) (p : UserPatch) :
  grows (Prisma.user_updateMany sel p).
Proof.
  intros st. exists []. unfold Prisma.user_updateMany, bind, get_db, put_db, ret.
  cbn [snd db users]. rewrite app_nil_r, map_map. apply map_ext.
  intros u. now destruct (sel u).
Qed.

Create HintDb grows.

#[local] Hint Resolve grows_ret grows_throw grows_createError grows_call
  grows_findUnique grows_findFirst grows_update grows_create
  grows_otp_deleteMany grows_otp_create grows_otp_findFirst grows_otp_delete
  grows_otp_deleteMany_expired grows_updateMany : grows.

Ltac grows_step :=
  cbv beta zeta;
  match goal with
  | |- grows (bind _ _) => apply grows_bind; [| intros ?]
  | |- grows (try_catch _ _) => apply grows_try_catch; [| intros ?]
  | |- grows (match ?x with _ => _ end) => destruct x
  | |- grows (if ?b then _ else _) => destruct b
  | |- grows (let '(_, _) := ?p in _) => destruct p
  | |- _ => solve [auto with grows]
  end.

Ltac grows_auto :=
  unfold exchangeCodeForTokens, getGoogleUserInfo,
    verifyAccessToken, verifyRefreshToken,
    EmailService.sendPasswordResetEmail,
    EmailService.sendPasswordChangeConfirmationEmail,
    EmailService.sendVerificationEmail, EmailService.sendMail,
    OtpTable.createOrUpdateOTP, OtpTable.verifyOTP, OtpTable.deleteOTP,
    OtpTable.cleanupExpiredOTPs,
    OtpUser.createOrUpdateOTP, OtpUser.verifyOTP, OtpUser.deleteOTP,
    OtpUser.cleanupExpiredOTPs;
  repeat grows_step.

Lemma handler_grows {T} (body : M (Reply T)) (st : State) :
  grows body -> extends (db st) (db (snd (handler body st))).
Proof.
  intros Hb. unfold handler. specialize (Hb st).
  now destruct (body st) as [[r | e] st'].
Qed.

Lemma preserves_same_users {A} (m : M A) :
  (forall st, users (db (snd (m st))) = users (db st)) -> preserves m.
Proof. intros H st U. unfold unique_identifiers in *. now rewrite H. Qed.

Lemma preserves_call (c : Call) : preserves (call c).
Proof. now apply preserves_same_users. Qed.

Lemma preserves_otp_deleteMany (e : string) : preserves (Prisma.otp_deleteMany e).
Proof. now apply preserves_same_users. Qed.

Lemma preserves_otp_create (row : EmailVerification) :
  preserves (Prisma.otp_create row).
Proof.
  apply preserves_same_users. intros st.
  unfold Prisma.otp_create, bind, call, get_db, put_db, ret, throw. cbn [db calls].
  now destruct (existsb _ _).
Qed.

Lemma preserves_otp_findFirst (e c : string) : preserves (Prisma.otp_findFirst e c).
Proof. now apply preserves_same_users. Qed.

Lemma preserves_otp_delete (i : string) : preserves (Prisma.otp_delete i).
Proof.
  apply preserves_same_users. intros st.
  unfold Prisma.otp_delete, bind, call, get_db, put_db, throw. cbn [db calls].
  now destruct (existsb _ _).
Qed.

Lemma preserves_otp_deleteMany_expired (t : Z) :
  preserves (Prisma.otp_deleteMany_expired t).
Proof. now apply preserves_same_users. Qed.

Lemma preserves_updateMany (sel : User -> bool) (p : UserPatch) :
  preserves (Prisma.user_updateMany sel p).
Proof.
  intros st [Ue Up]. unfold Prisma.user_updateMany, bind, get_db, put_db, ret.
  unfold unique_identifiers. cbn [snd db users]. rewrite !map_map. split.
  - erewrite map_ext; [exact Ue |]. intros u. cbv beta. now destruct (sel u).
  - erewrite map_ext; [exact Up |]. intros u. cbv beta. now destruct (sel u).
Qed.

#[local] Hint Resolve preserves_call preserves_otp_deleteMany
  preserves_otp_create preserves_otp_findFirst preserves_otp_delete
  preserves_otp_deleteMany_expired preserves_updateMany : preserves.

Ltac preserves_auto :=
  unfold exchangeCodeForTokens, getGoogleUserInfo,
    verifyAccessToken, verifyRefreshToken,
    EmailService.sendPasswordResetEmail,
    EmailService.sendPasswordChangeConfirmationEmail,
    EmailService.sendVerificationEmail, EmailService.sendMail,
    OtpTable.createOrUpdateOTP, OtpTable.verifyOTP, OtpTable.deleteOTP,
    OtpTable.cleanupExpiredOTPs,
    OtpUser.createOrUpdateOTP, OtpUser.verifyOTP, OtpUser.deleteOTP,
    OtpUser.cleanupExpiredOTPs;
  repeat preserves_step.

Section NoHandler.
Context {BC : Bcrypt} {SHA : Sha256} {JWT : JsonWebToken} {CFG : AuthConfig}.

(** X29.  None of [register], [login], [refreshToken], [forgotPassword],
    [resetPassword], [changePassword], [googleCallback], [verifyEmail],
    [resendVerificationCode] (over either one-time-code store) and
    [cleanupExpiredOTPs] (of either store) deletes an account or changes
    the id, email, phone, role, status, provider id or creation time of
    one: whatever the request and its outcome, the accounts stored
    before are stored after it with the identity they had, in the same
    order, with at most new accounts after them.  So none of these
    requests changes a role or lifts a suspension.  ([updateProfile],
    which writes the phone, is not among them.) *)
Theorem handlers_only_add_accounts (e : Env) (st : State) :
  (forall body, extends (db st) (db (snd (register e body st))))
  /\ (forall body, extends (db st) (db (snd (login e body st))))
  /\ (forall t, extends (db st) (db (snd (refreshTokenController e t st))))
  /\ (forall email, extends (db st) (db (snd (forgotPassword e email st))))
  /\ (forall t p, extends (db st) (db (snd (resetPassword e t p st))))
  /\ (forall u c n, extends (db st) (db (snd (changePassword e u c n st))))
  /\ (forall c s k, extends (db st) (db (snd (googleCallback e c s k st))))
  /\ (forall em c, extends (db st) (db (snd (verifyEmail user_store e em c st))))
  /\ (forall em c, extends (db st) (db (snd (verifyEmail table_store e em c st))))
  /\ (forall em, extends (db st)
                   (db (snd (resendVerificationCode user_store e em st))))
  /\ (forall em, extends (db st)
                   (db (snd (resendVerificationCode table_store e em st))))
  /\ extends (db st) (db (snd (OtpUser.cleanupExpiredOTPs e st)))
  /\ extends (db st) (db (snd (OtpTable.cleanupExpiredOTPs e st))).
Proof.
  repeat split; intros;
    try (apply handler_grows; cbn [store_verifyOTP store_deleteOTP
                                     store_createOrUpdateOTP user_store table_store];
         grows_auto).
  - assert (G : grows (OtpUser.cleanupExpiredOTPs e)) by grows_auto. apply G.
  - assert (G : grows (OtpTable.cleanupExpiredOTPs e)) by grows_auto. apply G.
Qed.

(** X30.  Each of [register], [login], [refreshToken], [forgotPassword],
    [resetPassword], [changePassword], [googleCallback], [verifyEmail],
    [resendVerificationCode] (over either one-time-code store) and
    [cleanupExpiredOTPs] (of either store) keeps the emails and the
    phones of the stored accounts pairwise distinct, whatever the
    request and its outcome: their only inserts are those of [register]
    and [googleCallback], which the unique indexes guard, and none of
    their updates writes an email or a phone. *)
Theorem handlers_keep_identifiers_unique (e : Env) (st : State) :
  unique_identifiers (db st) ->
  (forall body, unique_identifiers (db (snd (register e body st))))
  /\ (forall body, unique_identifiers (db (snd (login e body st))))
  /\ (forall t, unique_identifiers (db (snd (refreshTokenController e t st))))
  /\ (forall email, unique_identifiers (db (snd (forgotPassword e email st))))
  /\ (forall t p, unique_identifiers (db (snd (resetPassword e t p st))))
  /\ (forall u c n, unique_identifiers (db (snd (changePassword e u c n st))))
  /\ (forall c s k, unique_identifiers (db (snd (googleCallback e c s k st))))
  /\ (forall em c,
        unique_identifiers (db (snd (verifyEmail user_store e em c st))))
  /\ (forall em c,
        unique_identifiers (db (snd (verifyEmail table_store e em c st))))
  /\ (forall em,
        unique_identifiers (db (snd (resendVerificationCode user_store e em st))))
  /\ (forall em,
        unique_identifiers (db (snd (resendVerificationCode table_store e em st))))
  /\ unique_identifiers (db (snd (OtpUser.cleanupExpiredOTPs e st)))
  /\ unique_identifiers (db (snd (OtpTable.cleanupExpiredOTPs e st))).
Proof.
  intros U. repeat match goal with |- _ /\ _ => split end; intros;
    try (apply handler_preserves; [| exact U];
         cbn [store_verifyOTP store_deleteOTP store_createOrUpdateOTP
                user_store table_store];
         preserves_auto).
  - assert (G : preserves (OtpUser.cleanupExpiredOTPs e)) by preserves_auto.
    now apply G.
  - assert (G : preserves (OtpTable.cleanupExpiredOTPs e)) by preserves_auto.
    now apply G.
Qed.

End NoHandler.

Lemma handlers_keep_identifiers_unique_witness :
  unique_identifiers (db (Reference.state_of [Reference.alice; Reference.bob]))
  /\ unique_identifiers
       (db (snd (@register Reference.bcrypt reference_jwt
                   (Reference.env 1700000000000)
                   (mkRegisterRequest "Eve" "F" "e@x.com" "+15550000009"
                                      "Password9" None)
                   (Reference.state_of [Reference.alice; Reference.bob])))).
Proof.
  assert (U : unique_identifiers
                (db (Reference.state_of [Reference.alice; Reference.bob])))
    by (split; cbn; repeat constructor; cbn; intuition discriminate).
  split; [exact U |].
  apply (@handlers_keep_identifiers_unique Reference.bcrypt Reference.sha256
           reference_jwt Reference.config (Reference.env 1700000000000) _ U).
Defined.
